(** * CadIgrejas: the record store, login and audit log of [main.py]

    A shallow embedding of the persistence and access layer of the
    registry application: the spreadsheet tables, the credential hasher,
    table initialisation, the audit log, the login check and the generic
    list / search / add / edit / delete operations of [DataWindow],
    followed by the main menu, the record dialog and the two reports. *)

From Stdlib Require Import ZArith String Ascii List Bool Lia Sorted.
From Stdlib Require Import DecimalString DecimalZ DecimalPos DecimalFacts.
From stdpp Require Import base option list sorting gmap strings.
Import ListNotations.

Local Open Scope string_scope.
Local Open Scope list_scope.
Local Open Scope Z_scope.

(** ** Text

    A Python [str] is modelled as a [string] holding its UTF-8 bytes.
    Character classes and case mapping are those of the ASCII range; a
    byte outside it is neither a digit nor a cased letter. On a text
    inside that range ([is_ascii]) the functions below are Python's;
    outside it Python also folds and reads the letters and digits of
    other scripts, so a statement that rests on [lower], [isdigit] or
    [int_digits] of a stored or typed text is made for texts inside the
    range. *)

Module Text.

(** Every byte of [s] is in the ASCII range ([s.isascii()]). *)
Fixpoint is_ascii (s : string) : bool :=
  match s with
  | EmptyString => true
  | String c s' => (nat_of_ascii c <? 128)%nat && is_ascii s'
  end.

Definition is_upper (c : ascii) : bool :=
  let n := nat_of_ascii c in (65 <=? n)%nat && (n <=? 90)%nat.

Definition is_decimal (c : ascii) : bool :=
  let n := nat_of_ascii c in (48 <=? n)%nat && (n <=? 57)%nat.

Definition lower_char (c : ascii) : ascii :=
  if is_upper c then ascii_of_nat (nat_of_ascii c + 32) else c.

(** [s.lower()] *)
Fixpoint lower (s : string) : string :=
  match s with
  | EmptyString => EmptyString
  | String c s' => String (lower_char c) (lower s')
  end.

Fixpoint all_decimal (s : string) : bool :=
  match s with
  | EmptyString => true
  | String c s' => is_decimal c && all_decimal s'
  end.

(** [s.isdigit()]: at least one character, and all of them digits. *)
Definition isdigit (s : string) : bool :=
  match s with
  | EmptyString => false
  | String _ _ => all_decimal s
  end.

(** [s.startswith(p)] *)
Fixpoint startswith (p s : string) : bool :=
  match p, s with
  | EmptyString, _ => true
  | String _ _, EmptyString => false
  | String a p', String b s' => Ascii.eqb a b && startswith p' s'
  end.

(** [needle in hay] *)
Fixpoint contains (needle hay : string) : bool :=
  startswith needle hay ||
  match hay with
  | EmptyString => false
  | String _ hay' => contains needle hay'
  end.

(** Digit text read as a number, most significant digit first;
    [int(s)] for a string that passed [isdigit]. *)
Fixpoint int_digits (acc : Z) (s : string) : Z :=
  match s with
  | EmptyString => acc
  | String c s' => int_digits (10 * acc + (Z.of_nat (nat_of_ascii c) - 48)) s'
  end.

(** [str(n)] for an [int]. *)
Definition str_int (n : Z) : string := NilZero.string_of_int (Z.to_int n).

End Text.

(** ** Credential hasher: SHA-256 (FIPS 180-4) over 32-bit words in [Z] *)

Module SHA256.

Definition wrap (x : Z) : Z := x mod 2 ^ 32.

Definition add32 (x y : Z) : Z := wrap (x + y).

Definition rotr (n x : Z) : Z :=
  Z.lor (Z.shiftr x n) (wrap (Z.shiftl x (32 - n))).

Definition not32 (x : Z) : Z := Z.lxor x 0xffffffff.

Definition Ch (x y z : Z) : Z := Z.lxor (Z.land x y) (Z.land (not32 x) z).
Definition Maj (x y z : Z) : Z :=
  Z.lxor (Z.lxor (Z.land x y) (Z.land x z)) (Z.land y z).
Definition Sigma0 (x : Z) : Z := Z.lxor (Z.lxor (rotr 2 x) (rotr 13 x)) (rotr 22 x).
Definition Sigma1 (x : Z) : Z := Z.lxor (Z.lxor (rotr 6 x) (rotr 11 x)) (rotr 25 x).
Definition sigma0 (x : Z) : Z := Z.lxor (Z.lxor (rotr 7 x) (rotr 18 x)) (Z.shiftr x 3).
Definition sigma1 (x : Z) : Z := Z.lxor (Z.lxor (rotr 17 x) (rotr 19 x)) (Z.shiftr x 10).

(** The constants of the standard are fractional parts of roots of the
    first primes, on 32 bits. *)

Definition is_prime (n : Z) : bool :=
  (2 <=? n) &&
  forallb (fun d => negb (n mod Z.of_nat d =? 0)) (seq 2 (Z.to_nat (Z.sqrt n) - 1)).

Definition primes (count : nat) : list Z :=
  firstn count (List.filter is_prime (map Z.of_nat (seq 2 400))).

(** The largest [r] in [lo, hi) whose cube is at most [n], by halving. *)
Fixpoint cube_root_between (fuel : nat) (lo hi n : Z) : Z :=
  match fuel with
  | O => lo
  | S fuel' =>
      if hi - lo <=? 1 then lo
      else let mid := (lo + hi) / 2 in
           if mid * mid * mid <=? n
           then cube_root_between fuel' mid hi n
           else cube_root_between fuel' lo mid n
  end.

Definition cube_root (n : Z) : Z := cube_root_between 64 0 (2 ^ 40) n.

(** The first 32 bits of the fractional part of the cube root of each of
    the first 64 primes. *)
Definition K : list Z :=
  Eval vm_compute in map (fun p => wrap (cube_root (p * 2 ^ 96))) (primes 64).

(** The first 32 bits of the fractional part of the square root of each
    of the first 8 primes. *)
Definition H0 : list Z :=
  Eval vm_compute in map (fun p => wrap (Z.sqrt (p * 2 ^ 64))) (primes 8).

(** [pw.encode()]: the bytes of the text. *)
Definition encode (s : string) : list Z :=
  map (fun c => Z.of_nat (nat_of_ascii c)) (list_ascii_of_string s).

(** Big-endian bytes of [x], [n] of them. *)
Fixpoint be_bytes (n : nat) (x : Z) : list Z :=
  match n with
  | O => []
  | S n' => Z.shiftr x (8 * Z.of_nat n') mod 256 :: be_bytes n' x
  end.

(** Padding: the bit 1, zeros up to 56 mod 64 bytes, the bit length on 8 bytes. *)
Definition pad (msg : list Z) : list Z :=
  let len := Z.of_nat (List.length msg) in
  let zeros := Z.to_nat ((55 - len) mod 64) in
  msg ++ 0x80 :: repeat 0 zeros ++ be_bytes 8 (8 * len).

Fixpoint words (fuel : nat) (bs : list Z) : list Z :=
  match fuel, bs with
  | S fuel', b0 :: b1 :: b2 :: b3 :: rest =>
      (((b0 * 256 + b1) * 256 + b2) * 256 + b3) :: words fuel' rest
  | _, _ => []
  end.

Fixpoint blocks (fuel : nat) (ws : list Z) : list (list Z) :=
  match fuel, ws with
  | S fuel', _ :: _ => firstn 16 ws :: blocks fuel' (skipn 16 ws)
  | _, _ => []
  end.

(** The message schedule, latest word first: [rev_w] holds W(t-1), W(t-2), ... *)
Fixpoint schedule (n : nat) (rev_w : list Z) : list Z :=
  match n with
  | O => rev_w
  | S n' =>
      let w i := nth i rev_w 0 in
      let wt := add32 (add32 (sigma1 (w 1%nat)) (w 6%nat))
                      (add32 (sigma0 (w 14%nat)) (w 15%nat)) in
      schedule n' (wt :: rev_w)
  end.

Record regs := Regs { ra : Z; rb : Z; rc : Z; rd : Z; re : Z; rf : Z; rg : Z; rh : Z }.

Definition round (r : regs) (kw : Z * Z) : regs :=
  let t1 := add32 (add32 (add32 (add32 (rh r) (Sigma1 (re r))) (Ch (re r) (rf r) (rg r)))
                         (fst kw)) (snd kw) in
  let t2 := add32 (Sigma0 (ra r)) (Maj (ra r) (rb r) (rc r)) in
  Regs (add32 t1 t2) (ra r) (rb r) (rc r) (add32 (rd r) t1) (re r) (rf r) (rg r).

Definition regs_of (h : list Z) : regs :=
  let g i := nth i h 0 in
  Regs (g 0%nat) (g 1%nat) (g 2%nat) (g 3%nat) (g 4%nat) (g 5%nat) (g 6%nat) (g 7%nat).

Definition list_of (r : regs) : list Z :=
  [ra r; rb r; rc r; rd r; re r; rf r; rg r; rh r].

Definition compress (h : list Z) (block : list Z) : list Z :=
  let w := rev (schedule 48 (rev block)) in
  let r := fold_left round (combine K w) (regs_of h) in
  map (fun p => add32 (fst p) (snd p)) (combine h (list_of r)).

Definition digest (msg : list Z) : list Z :=
  let bs := pad msg in
  let ws := words (List.length bs) bs in
  fold_left compress (blocks (List.length ws) ws) H0.

Definition hex_digit (d : Z) : ascii :=
  ascii_of_nat (Z.to_nat (if d <? 10 then 48 + d else 87 + d)).

Fixpoint hex_word (n : nat) (x : Z) : string :=
  match n with
  | O => EmptyString
  | S n' => String (hex_digit (Z.shiftr x (4 * Z.of_nat n') mod 16)) (hex_word n' x)
  end.

(** [hashlib.sha256(bytes).hexdigest()] *)
Definition hexdigest (msg : list Z) : string :=
  fold_right (fun w acc => String.append (hex_word 8 w) acc) EmptyString (digest msg).

End SHA256.

(** [hash_password(pw)] *)
Definition hash_password (pw : string) : string :=
  SHA256.hexdigest (SHA256.encode pw).

(** ** Cell values, rows and worksheets (the part of openpyxl the program uses) *)

(** What [values_only] hands back for a cell: [None], an [int] or a
    [str], the values the program itself writes. Other cell types
    (floats, dates) only come from files edited elsewhere and are left
    out. *)
Inductive cell : Type :=
  | CNone : cell
  | CInt (n : Z) : cell
  | CStr (s : string) : cell.

Definition row := list cell.

(** A worksheet: its rows from row 1 (the header) down, each holding the
    cells written to it. *)
Definition worksheet := list row.

(** [a == b] on cell values. *)
Definition cell_eqb (a b : cell) : bool :=
  match a, b with
  | CNone, CNone => true
  | CInt x, CInt y => Z.eqb x y
  | CStr x, CStr y => String.eqb x y
  | _, _ => false
  end.

(** [str(v)] *)
Definition str (v : cell) : string :=
  match v with
  | CNone => "None"
  | CInt n => Text.str_int n
  | CStr s => s
  end.

(** [int(v)] for an [int] and for a text of the digits 0 to 9, the
    values it is applied to after [isdigit] on a text in the ASCII
    range. *)
Definition int (v : cell) : Z :=
  match v with
  | CNone => 0
  | CInt n => n
  | CStr s => Text.int_digits 0 s
  end.

Definition is_none (v : cell) : bool :=
  match v with CNone => true | _ => false end.

(** A value whose text [str(v)] is in the ASCII range: [None], an
    [int], or a [str] in that range. *)
Definition ascii_value (v : cell) : bool :=
  match v with CStr s => Text.is_ascii s | _ => true end.


(** [ws.max_row]; a sheet without cells reports 1. *)
Definition max_row (ws : worksheet) : nat := Nat.max 1 (List.length ws).

(** [ws.max_column] *)
Definition max_column (ws : worksheet) : nat :=
  fold_right (fun r m => Nat.max (List.length r) m) 1%nat ws.

(** [ws.cell(row=r, column=c).value], both counted from 1. *)
Definition cell_value (ws : worksheet) (r c : nat) : cell :=
  nth (c - 1) (nth (r - 1) ws []) CNone.

(** A row as [iter_rows] yields it: [width] values, [None] where no cell is. *)
Definition pad_row (width : nat) (r : row) : row :=
  firstn width r ++ repeat CNone (width - List.length r).

(** [ws.iter_rows(min_row=2, values_only=True)]: rows 2 .. [max_row],
    each over columns 1 .. [max_column]. *)
Definition iter_rows (ws : worksheet) : list row :=
  map (pad_row (max_column ws)) (tl ws).

(** [ws.append(values)] *)
Definition append (ws : worksheet) (values : row) : worksheet := ws ++ [values].

(** [ws.cell(row, column, value=v)] for the values of a list from column 1
    on: a value that is [None] leaves the cell as it is. *)
Fixpoint write_cells (values : row) (old : row) : row :=
  match values with
  | [] => old
  | v :: values' =>
      (if is_none v then hd CNone old else v) :: write_cells values' (tl old)
  end.

(** Writing [values] into row [r] (counted from 1). *)
Fixpoint write_row (ws : worksheet) (r : nat) (values : row) : worksheet :=
  match r, ws with
  | O, _ => ws
  | S O, old :: rest => write_cells values old :: rest
  | S O, [] => [write_cells values []]
  | S r', old :: rest => old :: write_row rest r' values
  | S r', [] => [] :: write_row [] r' values
  end.

(** [ws.delete_rows(r)]: the rows below move up by one. *)
Fixpoint delete_rows (ws : worksheet) (r : nat) : worksheet :=
  match r, ws with
  | O, _ => ws
  | _, [] => []
  | S O, _ :: rest => rest
  | S r', old :: rest => old :: delete_rows rest r'
  end.

(** ** Files and constants *)

Definition VISITORS_FILE := "visitantes.xlsx".
Definition MEMBERS_FILE := "membros.xlsx".
Definition EMPLOYEES_FILE := "funcionarios.xlsx".
Definition USERS_FILE := "usuarios.xlsx".
Definition LOG_FILE := "logs.xlsx".

Definition VISITORS_HEADERS : list string :=
  ["ID"; "Nome"; "Telefone"; "Email"; "Endereço"; "Data Nascimento";
   "Data Visita"; "Igreja"; "Observações"; "Família"].
Definition MEMBERS_HEADERS : list string :=
  ["ID"; "Nome"; "Telefone"; "Email"; "Data Nascimento"; "Cargo";
   "Batizado"; "Endereço"; "Família"].
Definition EMPLOYEES_HEADERS : list string :=
  ["ID"; "Nome"; "Cargo"; "Telefone"; "Email"; "Data Admissão"; "Salário";
   "Observações"; "Família"].
Definition USERS_HEADERS : list string := ["Usuário"; "SenhaHash"; "Permissão"].
Definition LOG_HEADERS : list string := ["Usuário"; "Ação"; "DataHora"].
Definition PERMISSOES : list string := ["admin"; "completo"; "leitura"].

(** The mask shown in place of a stored password hash. *)
Definition MASK := "********".

Definition texts (l : list string) : row := map CStr l.

(** ** The world the program runs in

    The persisted workbooks, the rows currently shown in the data
    window's tree, and the message boxes shown so far. A workbook that
    exists may refuse to be written (opened elsewhere, read-only). *)

Record file : Type := File { sheet : worksheet; writable : bool }.

Inductive message : Type :=
  | showwarning (title : string)
  | showerror (title : string).

Record world : Type := World {
  files : gmap string file;
  tree : list row;
  shown : list message
}.

Definition set_files (w : world) (fs : gmap string file) : world :=
  World fs (tree w) (shown w).
Definition set_tree (w : world) (t : list row) : world :=
  World (files w) t (shown w).
Definition add_shown (w : world) (m : message) : world :=
  World (files w) (tree w) (shown w ++ [m]).

(** The exceptions the modelled calls raise. *)
Inductive exn : Type :=
  | FileNotFoundError
  | PermissionError
  | IndexError
  | AttributeError.

Inductive outcome (A : Type) : Type :=
  | Return (a : A) (w : world)
  | Raise (e : exn) (w : world).
Arguments Return {A} a w.
Arguments Raise {A} e w.

Definition M (A : Type) : Type := world -> outcome A.

Definition ret {A} (a : A) : M A := fun w => Return a w.

Definition bind {A B} (m : M A) (k : A -> M B) : M B :=
  fun w => match m w with
           | Return a w' => k a w'
           | Raise e w' => Raise e w'
           end.

Definition raise {A} (e : exn) : M A := fun w => Raise e w.

(** [try: body except <the exceptions h accepts>: handler] *)
Definition try_except {A} (body : M A) (h : exn -> option (M A)) : M A :=
  fun w => match body w with
           | Return a w' => Return a w'
           | Raise e w' => match h e with
                           | Some handler => handler w'
                           | None => Raise e w'
                           end
           end.

Notation "'let*' x ':=' m 'in' k" := (bind m (fun x => k))
  (at level 10, x pattern, m at level 100, k at level 200).
Notation "m ';;' k" := (bind m (fun _ => k))
  (at level 100, k at level 200, right associativity).

(** The world an outcome leaves behind. *)
Definition world_of {A} (o : outcome A) : world :=
  match o with Return _ w => w | Raise _ w => w end.

Definition on_FileNotFoundError {A} (handler : M A) (e : exn) : option (M A) :=
  match e with FileNotFoundError => Some handler | _ => None end.

Definition on_Exception {A} (handler : exn -> M A) (e : exn) : option (M A) :=
  Some (handler e).

(** [os.path.exists(name)] *)
Definition path_exists (name : string) : M bool :=
  fun w => Return (bool_decide (is_Some (files w !! name))) w.

(** [openpyxl.load_workbook(name)] followed by [wb.active] *)
Definition load_workbook (name : string) : M worksheet :=
  fun w => match files w !! name with
           | Some f => Return (sheet f) w
           | None => Raise FileNotFoundError w
           end.

(** [wb.save(name)]: creates the file, or replaces one that can be written. *)
Definition save (name : string) (ws : worksheet) : M unit :=
  fun w => match files w !! name with
           | Some f =>
               if writable f
               then Return tt (set_files w (<[name := File ws true]> (files w)))
               else Raise PermissionError w
           | None => Return tt (set_files w (<[name := File ws true]> (files w)))
           end.

Definition show (m : message) : M unit := fun w => Return tt (add_shown w m).

(** [for i in self.tree.get_children(): self.tree.delete(i)] *)
Definition tree_clear : M unit := fun w => Return tt (set_tree w []).

(** [self.tree.insert("", "end", values=r)] *)
Definition tree_insert (r : row) : M unit :=
  fun w => Return tt (set_tree w (tree w ++ [r])).

(** [l[i]] *)
Definition getitem {A} (l : list A) (i : nat) : M A :=
  match nth_error l i with
  | Some a => ret a
  | None => raise IndexError
  end.

(** [l[i] = v] *)
Definition setitem {A} (l : list A) (i : nat) (v : A) : M (list A) :=
  if (i <? List.length l)%nat then ret (<[i := v]> l) else raise IndexError.

(** ** Set-up *)

Fixpoint for_each {A} (l : list A) (body : A -> M unit) : M unit :=
  match l with
  | [] => ret tt
  | a :: l' => body a ;; for_each l' body
  end.

(** The default administrator written into a new users file. *)
Definition admin_row : row :=
  [CStr "admin"; CStr (hash_password "admin"); CStr "admin"].

Definition criar_arquivos_se_nao_existir : M unit :=
  let arquivos :=
    [ (VISITORS_FILE, VISITORS_HEADERS);
      (MEMBERS_FILE, MEMBERS_HEADERS);
      (EMPLOYEES_FILE, EMPLOYEES_HEADERS);
      (LOG_FILE, LOG_HEADERS) ] in
  for_each arquivos (fun fh =>
    let* present := path_exists (fst fh) in
    if negb present
    then save (fst fh) (append [] (texts (snd fh)))
    else ret tt) ;;
  let* present := path_exists USERS_FILE in
  if negb present
  then save USERS_FILE (append (append [] (texts USERS_HEADERS)) admin_row)
  else ret tt.

(** ** Audit log

    [now] is the text of [datetime.now().strftime("%d/%m/%Y %H:%M:%S")]. *)

Definition log_action (usuario acao now : string) : M unit :=
  try_except
    (let* ws := load_workbook LOG_FILE in
     save LOG_FILE (append ws [CStr usuario; CStr acao; CStr now]))
    (on_FileNotFoundError (show (showwarning "Log Erro"))).

(** ** Login

    The result is what [on_success] is called with, [None] when it is
    not called. *)

Fixpoint login_rows (usuario senha now : string) (rows : list row)
  : M (option (string * cell)) :=
  match rows with
  | [] => show (showerror "Erro de Login") ;; ret None
  | r :: rest =>
      let* c0 := getitem r 0 in
      let* hit :=
        if cell_eqb c0 (CStr usuario)
        then let* c1 := getitem r 1 in
             ret (cell_eqb c1 (CStr (hash_password senha)))
        else ret false in
      if hit
      then log_action usuario "Login bem-sucedido" now ;;
           let* permissao := getitem r 2 in
           ret (Some (usuario, permissao))
      else login_rows usuario senha now rest
  end.

Definition attempt_login (usuario senha now : string) : M (option (string * cell)) :=
  try_except
    (let* ws := load_workbook USERS_FILE in
     login_rows usuario senha now (iter_rows ws))
    (on_FileNotFoundError (show (showerror "Erro Crítico") ;; ret None)).

(** [MainMenu.logout] *)
Definition logout (usuario now : string) : M unit :=
  log_action usuario "Logout" now.

(** ** The data window *)

(** The row as the tree shows it: in the users file the second value is
    masked. *)
Definition display (filename : string) (r : row) : M row :=
  if String.eqb filename USERS_FILE
  then setitem r 1 (CStr MASK)
  else ret r.

Fixpoint show_rows (filename : string) (rows : list row) : M unit :=
  match rows with
  | [] => ret tt
  | r :: rest =>
      (let* display_row := display filename r in tree_insert display_row) ;;
      show_rows filename rest
  end.

Definition load_data (filename : string) : M unit :=
  tree_clear ;;
  try_except
    (let* ws := load_workbook filename in
     show_rows filename (iter_rows ws))
    (on_FileNotFoundError (show (showerror "Erro"))).

(** [any(search_term in str(cell).lower() for cell in row)] *)
Definition row_matches (search_term : string) (r : row) : bool :=
  existsb (fun c => Text.contains search_term (Text.lower (str c))) r.

Fixpoint filter_rows (filename search_term : string) (rows : list row) : M unit :=
  match rows with
  | [] => ret tt
  | r :: rest =>
      (if row_matches search_term r
       then let* display_row := display filename r in tree_insert display_row
       else ret tt) ;;
      filter_rows filename search_term rest
  end.

Definition filter_tree (filename search_entry : string) : M unit :=
  let search_term := Text.lower search_entry in
  tree_clear ;;
  let* ws := load_workbook filename in
  filter_rows filename search_term (iter_rows ws).

(** *** The record dialog

    The user fills the fields, in the order of the headers after the
    first, and presses Salvar, any number of times; the dialog ends with
    the first Salvar that is accepted, or with Cancelar. [clicks] holds
    the field texts at each Salvar, in order; when none of them is
    accepted the dialog was cancelled after them. *)

Definition truthy {A} (l : list A) : bool :=
  match l with [] => false | _ :: _ => true end.

Definition is_editing_user_password
    (filename header : string) (initial_data : option row) (value : string) : bool :=
  String.eqb filename USERS_FILE && String.eqb header "SenhaHash" &&
  match initial_data with Some d => truthy d | None => false end &&
  String.eqb value MASK.

(** The loop of [on_ok] over the remaining headers: [result] is
    [self.result] so far. An empty field stops it with a warning and
    leaves the dialog open ([false]); otherwise the dialog is closed
    ([true]). *)
Fixpoint on_ok_fields (filename : string) (initial_data : option row)
    (headers values result : list string) : M (list string * bool) :=
  match headers with
  | [] => ret (result, true)
  | header :: headers' =>
      let value := hd "" values in
      if String.eqb value "" &&
         negb (is_editing_user_password filename header initial_data value)
      then show (showwarning "Campo Vazio") ;; ret (result, false)
      else on_ok_fields filename initial_data headers' (tl values) (result ++ [value])
  end.

Definition on_ok (filename : string) (initial_data : option row)
    (headers values : list string) : M (list string * bool) :=
  on_ok_fields filename initial_data headers values [].

(** [self.wait_window(self)]: what [self.result] is when the dialog is gone. *)
Fixpoint wait_window (filename : string) (initial_data : option row)
    (headers : list string) (clicks : list (list string))
    (result : option (list string)) : M (option (list string)) :=
  match clicks with
  | [] => ret result
  | values :: rest =>
      let* rc := on_ok filename initial_data headers values in
      if snd rc
      then ret (Some (fst rc))
      else wait_window filename initial_data headers rest (Some (fst rc))
  end.

(** [RecordDialog(...).result] *)
Definition RecordDialog (headers : list string) (initial_data : option row)
    (filename : string) (clicks : list (list string)) : M (option (list string)) :=
  let headers' := tl headers in
  let initial_data' :=
    match initial_data with
    | Some d => if truthy d then Some (tl d) else None
    | None => None
    end in
  wait_window filename initial_data' headers' clicks None.

(** *** Adding *)

(** The new ID: one more than the ID in the last row when that reads as
    digits, 1 otherwise. *)
Definition new_id (ws : worksheet) : Z :=
  if (1 <? max_row ws)%nat then
    let last_id := cell_value ws (max_row ws) 1 in
    if negb (is_none last_id) && Text.isdigit (str last_id)
    then int last_id + 1
    else 1
  else 1.

(** [hash_password(v)] on a value taken from a list. *)
Definition hash_value (v : cell) : M cell :=
  match v with
  | CStr s => ret (CStr (hash_password s))
  | _ => raise AttributeError
  end.

Definition add_record (filename : string) (headers : list string)
    (clicks : list (list string)) : M unit :=
  let* dialog_result := RecordDialog headers None filename clicks in
  match dialog_result with
  | Some result =>
      if truthy result then
        try_except
          (let* ws := load_workbook filename in
           let new_row := CInt (new_id ws) :: texts result in
           let* new_row :=
             if String.eqb filename USERS_FILE
             then let* pw := getitem new_row 2 in
                  let* h := hash_value pw in
                  setitem new_row 2 h
             else ret new_row in
           save filename (append ws new_row) ;;
           load_data filename)
          (on_Exception (fun _ => show (showerror "Erro ao Salvar")))
      else ret tt
  | None => ret tt
  end.

(** *** Editing and deleting *)

(** The first row whose first value equals [record_id], with its row
    number; rows are numbered from [i]. *)
Fixpoint locate (record_id : cell) (i : nat) (rows : list row)
  : M (option (nat * row)) :=
  match rows with
  | [] => ret None
  | r :: rest =>
      let* c0 := getitem r 0 in
      if cell_eqb c0 record_id
      then ret (Some (i, r))
      else locate record_id (S i) rest
  end.

(** [selection] is the first value of the selected tree item, [None]
    when nothing is selected. *)
Definition edit_record (filename : string) (headers : list string)
    (selection : option cell) (clicks : list (list string)) : M unit :=
  match selection with
  | None => show (showwarning "Nenhuma Seleção")
  | Some record_id =>
      let* ws := load_workbook filename in
      let* found := locate record_id 2 (iter_rows ws) in
      match found with
      | None => show (showerror "Erro")
      | Some (row_to_edit, original_values) =>
          if negb (truthy original_values) then show (showerror "Erro") else
          let* dialog_result :=
            RecordDialog headers (Some original_values) filename clicks in
          match dialog_result with
          | Some result =>
              if truthy result then
                try_except
                  (let updated_row := record_id :: texts result in
                   let* updated_row :=
                     if String.eqb filename USERS_FILE
                     then let* r1 := getitem result 1 in
                          if negb (String.eqb r1 MASK)
                          then setitem updated_row 2 (CStr (hash_password r1))
                          else ret updated_row
                     else ret updated_row in
                   save filename (write_row ws row_to_edit updated_row) ;;
                   load_data filename)
                  (on_Exception (fun _ => show (showerror "Erro ao Salvar")))
              else ret tt
          | None => ret tt
          end
      end
  end.

(** [confirm] is the answer to the yes/no box. *)
Definition delete_record (filename : string) (selection : option cell)
    (confirm : bool) : M unit :=
  match selection with
  | None => show (showwarning "Nenhuma Seleção")
  | Some record_id =>
      if confirm then
        try_except
          (let* ws := load_workbook filename in
           let* found := locate record_id 2 (iter_rows ws) in
           match found with
           | Some (row_to_delete, _) =>
               save filename (delete_rows ws row_to_delete) ;;
               load_data filename
           | None => show (showerror "Erro")
           end)
          (on_Exception (fun _ => show (showerror "Erro ao Excluir")))
      else ret tt
  end.

(** ** Running from a given state *)

Definition empty_world : world := World ∅ [] [].

(** The state right after the first start of the program. *)
Definition fresh_world : world := world_of (criar_arquivos_se_nao_existir empty_world).

Definition sheet_of (w : world) (name : string) : option worksheet :=
  sheet <$> files w !! name.

(** ** Reading the tables: what the statements below speak about *)

(** The row as the tree shows it when masking succeeds. *)
Definition masked (filename : string) (r : row) : row :=
  if String.eqb filename USERS_FILE then <[1%nat := CStr MASK]> r else r.

(** The first value of each data row, in stored order. *)
Definition ids (ws : worksheet) : list cell :=
  map (fun r => nth 0 r CNone) (iter_rows ws).

(** The identifier of the last data row, the one [add_record] reads, is
    [None], an [int] or a text in the ASCII range; so is that of a table
    without data rows. *)
Definition ascii_last_id (ws : worksheet) : bool :=
  match last (ids ws) with
  | Some v => ascii_value v
  | None => true
  end.

(** A row is the wanted user: the first value is the name, the second
    the hash of the password. *)
Definition login_match (usuario senha : string) (r : row) : bool :=
  cell_eqb (nth 0 r CNone) (CStr usuario) &&
  cell_eqb (nth 1 r CNone) (CStr (hash_password senha)).

(** The files [criar_arquivos_se_nao_existir] looks after, with what a
    new one holds. *)
Definition initial_sheets : list (string * worksheet) :=
  [ (VISITORS_FILE, [texts VISITORS_HEADERS]);
    (MEMBERS_FILE, [texts MEMBERS_HEADERS]);
    (EMPLOYEES_FILE, [texts EMPLOYEES_HEADERS]);
    (LOG_FILE, [texts LOG_HEADERS]);
    (USERS_FILE, [texts USERS_HEADERS; admin_row]) ].

(** A file is created when missing and kept when present. *)
Definition ensure (fs : gmap string file) (nw : string * worksheet) : gmap string file :=
  match fs !! fst nw with
  | Some _ => fs
  | None => <[fst nw := File (snd nw) true]> fs
  end.

(** The identifier a value stands for, when it reads as a number. *)
Definition numeric_id (v : cell) : option Z :=
  if negb (is_none v) && Text.isdigit (str v) then Some (int v) else None.

(** The rule for new identifiers as the specification words it: one more
    than the largest numeric identifier of the data rows, 1 without any. *)
Definition spec_new_id (ws : worksheet) : Z :=
  match omap numeric_id (ids ws) with
  | [] => 1
  | n :: l => 1 + fold_right Z.max n l
  end.





(** Identifiers that are integers from 0 up, growing along the rows. *)
Definition increasing_ids (ws : worksheet) : Prop :=
  exists l : list Z, ids ws = map CInt l /\ Forall (fun n => 0 <= n) l /\
                     StronglySorted Z.lt l.

(** The texts a dialog accepts for [headers]: one per field, none empty. *)
Definition valid_entries (headers values : list string) : Prop :=
  List.length values = List.length (tl headers) /\ Forall (fun v => v <> "") values.

(** Adding one record per element of [es]. *)
Definition add_records (filename : string) (headers : list string)
    (es : list (list string)) : M unit :=
  for_each es (fun e => add_record filename headers [e]).

(** The row [add_record] writes for the accepted texts [e] under the
    identifier [id]. *)
Definition stored_row (filename : string) (id : Z) (e : list string) : row :=
  let new_row := CInt id :: texts e in
  if String.eqb filename USERS_FILE
  then <[2%nat := CStr (hash_password (nth 1 e ""))]> new_row
  else new_row.

(** The rows written for the texts [es], numbered from [n] on. *)
Fixpoint numbered (filename : string) (n : Z) (es : list (list string)) : list row :=
  match es with
  | [] => []
  | e :: es' => stored_row filename n e :: numbered filename (n + 1) es'
  end.

(** The first row whose first value is [record_id], with its row number. *)
Fixpoint first_with_id (record_id : cell) (i : nat) (rows : list row)
  : option (nat * row) :=
  match rows with
  | [] => None
  | r :: rest =>
      if cell_eqb (nth 0 r CNone) record_id
      then Some (i, r)
      else first_with_id record_id (S i) rest
  end.

(** The values [edit_record] writes over the row of [record_id] for the
    accepted texts [e]. *)
Definition updated_row (filename : string) (record_id : cell) (e : list string) : row :=
  let u := record_id :: texts e in
  if String.eqb filename USERS_FILE
  then if negb (String.eqb (nth 1 e "") MASK)
       then <[2%nat := CStr (hash_password (nth 1 e ""))]> u
       else u
  else u.

(** ** Notions and states used in the statements *)

(** Unfolding the primitive steps of [M]. *)
Ltac run_step :=
  unfold bind, ret, raise, try_except, show, tree_clear, tree_insert,
    path_exists, load_workbook, save, on_FileNotFoundError, on_Exception;
  simpl.

(** A row can be shown: in the users file it needs a second value to mask. *)
Definition showable (filename : string) (r : row) : Prop :=
  filename = USERS_FILE -> (2 <= List.length r)%nat.

(** The log row of a login. *)
Definition login_entry (usuario now : string) : row :=
  [CStr usuario; CStr "Login bem-sucedido"; CStr now].

(** The world once a row is added to the log. *)
Definition logged (w : world) (lg : worksheet) (entry : row) : world :=
  set_files w (<[LOG_FILE := File (lg ++ [entry]) true]> (files w)).

(** The first start, with the log file removed afterwards. *)
Definition world_without_log : world :=
  set_files fresh_world (delete LOG_FILE (files fresh_world)).

(** The first start, with the log file closed to writing afterwards. *)
Definition world_with_locked_log : world :=
  set_files fresh_world (<[LOG_FILE := File [texts LOG_HEADERS] false]> (files fresh_world)).

(** The identifier of a row: its first value. *)
Definition id_of (r : row) : cell := nth 0 r CNone.

(** The users file of the first start. *)
Definition seeded_users : file := File [texts USERS_HEADERS; admin_row] true.

(** Some reading of the clock. *)
Definition a_time : string := "04/11/2026 09:00:00".

(** A visitors table whose identifiers do not grow along the rows. *)
Definition unordered_sheet : worksheet :=
  [ texts VISITORS_HEADERS;
    CInt 5 :: texts (repeat "a" 9);
    CInt 3 :: texts (repeat "b" 9) ].

(** A state holding that table alone. *)
Definition unordered_world : world :=
  World {[ VISITORS_FILE := File unordered_sheet true ]} [] [].

(** Two visitors added after the first start. *)
Definition two_visitors_sheet : worksheet :=
  [ texts VISITORS_HEADERS;
    CInt 1 :: texts (repeat "a" 9);
    CInt 2 :: texts (repeat "b" 9) ].

(** The state that holds them. *)
Definition two_visitors : world :=
  world_of (add_records VISITORS_FILE VISITORS_HEADERS
              [repeat "a" 9; repeat "b" 9] fresh_world).

(** A visitors table with a row that has cells for its first two columns only. *)
Definition sparse_sheet : worksheet :=
  [ texts VISITORS_HEADERS; [CInt 1; CStr "Ana"] ].

(** A state holding that table alone. *)
Definition sparse_world : world :=
  World {[ VISITORS_FILE := File sparse_sheet true ]} [] [].

(** ** Outcomes of the data operations on the files *)

(** From [w] to [w'] the files are as they were, or the one file
    [filename], which could be written, holds a new sheet related by [P]
    to the old one. *)
Definition wrote (filename : string) (P : worksheet -> worksheet -> Prop)
    (w w' : world) : Prop :=
  files w' = files w \/
  exists fl ws',
    files w !! filename = Some fl /\ writable fl = true /\ P (sheet fl) ws' /\
    files w' = <[filename := File ws' true]> (files w).

(** A row was added at the end, under the new ID. *)
Definition row_added (ws ws' : worksheet) : Prop :=
  exists r, ws' = ws ++ [r] /\ id_of r = CInt (new_id ws).

(** The first row with the identifier [record_id] was written over by
    values that start with that identifier. *)
Definition row_written (record_id : cell) (ws ws' : worksheet) : Prop :=
  exists i r0 u,
    first_with_id record_id 2 (iter_rows ws) = Some (i, r0) /\
    ws' = write_row ws i (record_id :: u).

(** The first row with the identifier [record_id] was taken out. *)
Definition row_deleted (record_id : cell) (ws ws' : worksheet) : Prop :=
  exists i r0,
    first_with_id record_id 2 (iter_rows ws) = Some (i, r0) /\
    ws' = delete_rows ws i.

(** The fields read before the first empty one. *)
Fixpoint filled_prefix (values : list string) : list string :=
  match values with
  | [] => []
  | v :: values' => if String.eqb v "" then [] else v :: filled_prefix values'
  end.

(** Every field holds some text. *)
Definition all_filled (values : list string) : bool :=
  forallb (fun v => negb (String.eqb v "")) values.

(** A digit or one of the letters a to f. *)
Definition is_lower_hex (c : ascii) : bool :=
  let n := nat_of_ascii c in
  ((48 <=? n)%nat && (n <=? 57)%nat) || ((97 <=? n)%nat && (n <=? 102)%nat).

Fixpoint all_chars (p : ascii -> bool) (s : string) : bool :=
  match s with
  | EmptyString => true
  | String c s' => p c && all_chars p s'
  end.

(** Who is let in: the pair [on_success] is called with, if it is called. *)
Definition let_in (o : outcome (option (string * cell))) : option (string * cell) :=
  match o with
  | Return a _ => a
  | Raise _ _ => None
  end.

(** The presses of Entrar and of Sair over a run of the program. *)
Inductive auth_event : Type :=
  | Entrar (usuario senha now : string)
  | Sair (usuario now : string).

Definition auth_step (w : world) (ev : auth_event) : world :=
  match ev with
  | Entrar usuario senha now => world_of (attempt_login usuario senha now w)
  | Sair usuario now => world_of (logout usuario now w)
  end.

(** The state after the presses; an exception that leaves a handler is
    reported by the toolkit and the program goes on. *)
Definition auth_session (evs : list auth_event) (w : world) : world :=
  fold_left auth_step evs w.

(** One row was added at the end. *)
Definition one_row_more (ws ws' : worksheet) : Prop := exists r, ws' = ws ++ [r].

(** ** Windows and menu *)

(** The buttons of a data window that change the table. *)
Inductive button : Type := Adicionar | Editar | Excluir.

Definition button_eqb (a b : button) : bool :=
  match a, b with
  | Adicionar, Adicionar | Editar, Editar | Excluir, Excluir => true
  | _, _ => false
  end.

(** What [DataWindow.__init__] leaves in the object. *)
Record window : Type := Window {
  read_only : bool;
  win_filename : string;
  win_headers : list string;
  win_buttons : list button
}.

(** [DataWindow(root, title, filename, headers, permissao)]: the window
    that is built and filled, [None] when the access is refused. *)
Definition DataWindow (title filename : string) (headers : list string)
    (permissao : string) : M (option window) :=
  let read_only := String.eqb permissao "leitura" in
  if negb read_only &&
     (String.eqb title "Gerenciamento de Usuários" && negb (String.eqb permissao "admin"))
  then show (showerror "Acesso Negado") ;; ret None
  else
    let buttons := if negb read_only then [Adicionar; Editar; Excluir] else [] in
    load_data filename ;;
    ret (Some (Window read_only filename headers buttons)).

(** The buttons of the main menu, named after the methods they call. *)
Inductive menu_button : Type :=
  | Cmd_abrir_visitantes
  | Cmd_abrir_membros
  | Cmd_abrir_funcionarios
  | Cmd_gerar_pdf
  | Cmd_gerar_grafico
  | Cmd_gerenciar_usuarios
  | Cmd_logout.

(** The buttons [MainMenu.__init__] packs for a permission. *)
Definition MainMenu_buttons (permissao : string) : list menu_button :=
  [Cmd_abrir_visitantes; Cmd_abrir_membros; Cmd_abrir_funcionarios;
   Cmd_gerar_pdf; Cmd_gerar_grafico] ++
  (if String.eqb permissao "admin" then [Cmd_gerenciar_usuarios] else []) ++
  [Cmd_logout].

(** The data window a menu button opens ([abrir_janela_dados]); the
    other buttons open none. *)
Definition abrir_janela_dados (b : menu_button) (permissao : string)
  : M (option window) :=
  match b with
  | Cmd_abrir_visitantes =>
      DataWindow "Cadastro de Visitantes" VISITORS_FILE VISITORS_HEADERS permissao
  | Cmd_abrir_membros =>
      DataWindow "Cadastro de Membros" MEMBERS_FILE MEMBERS_HEADERS permissao
  | Cmd_abrir_funcionarios =>
      DataWindow "Cadastro de Funcionários" EMPLOYEES_FILE EMPLOYEES_HEADERS permissao
  | Cmd_gerenciar_usuarios =>
      DataWindow "Gerenciamento de Usuários" USERS_FILE USERS_HEADERS permissao
  | Cmd_gerar_pdf | Cmd_gerar_grafico | Cmd_logout => ret None
  end.

(** What the user does in a data window: a press of one of its buttons,
    with what is selected, typed or answered, or typing in the search
    field. *)
Inductive event : Type :=
  | Press_Adicionar (clicks : list (list string))
  | Press_Editar (selection : option cell) (clicks : list (list string))
  | Press_Excluir (selection : option cell) (confirm : bool)
  | Type_search (search_entry : string).

Definition has_button (win : window) (b : button) : bool :=
  existsb (button_eqb b) (win_buttons win).

(** The method the event calls; a button the window does not have
    cannot be pressed. *)
Definition handle (win : window) (ev : event) : M unit :=
  match ev with
  | Press_Adicionar clicks =>
      if has_button win Adicionar
      then add_record (win_filename win) (win_headers win) clicks
      else ret tt
  | Press_Editar selection clicks =>
      if has_button win Editar
      then edit_record (win_filename win) (win_headers win) selection clicks
      else ret tt
  | Press_Excluir selection confirm =>
      if has_button win Excluir
      then delete_record (win_filename win) selection confirm
      else ret tt
  | Type_search search_entry => filter_tree (win_filename win) search_entry
  end.

(** The state after the events; an exception that leaves a method is
    reported by the toolkit and the program goes on. *)
Definition window_session (win : window) (evs : list event) (w : world) : world :=
  fold_left (fun w ev => world_of (handle win ev w)) evs w.

(** ** What the dialog shows when it opens *)

(** The texts [RecordDialog.__init__] inserts into the entries, from
    the field [i] on: the mask for the password of a user, the stored
    value otherwise, an empty cell giving an empty text. *)
Fixpoint inserted_from (filename : string) (headers : list string)
    (initial_data : row) (i : nat) : M (list string) :=
  match headers with
  | [] => ret []
  | header :: headers' =>
      let* v :=
        if String.eqb filename USERS_FILE && String.eqb header "SenhaHash"
        then ret MASK
        else let* c := getitem initial_data i in
             ret (if is_none c then "" else str c) in
      let* vs := inserted_from filename headers' initial_data (S i) in
      ret (v :: vs)
  end.

(** The fields of the dialog as it opens on [initial_data]; without
    data every field is empty. *)
Definition prefill (filename : string) (headers : list string)
    (initial_data : option row) : M (list string) :=
  let headers' := tl headers in
  let initial_data' :=
    match initial_data with
    | Some d => if truthy d then Some (tl d) else None
    | None => None
    end in
  match initial_data' with
  | Some d => if truthy d
              then inserted_from filename headers' d 0
              else ret (map (fun _ => "") headers')
  | None => ret (map (fun _ => "") headers')
  end.

(** ** Reports *)

(** [sep.join(parts)] *)
Fixpoint join (sep : string) (parts : list string) : string :=
  match parts with
  | [] => ""
  | p :: rest =>
      match rest with
      | [] => p
      | _ :: _ => String.append p (String.append sep (join sep rest))
      end
  end.

(** [", ".join(str(c) if c is not None else "" for c in row)] *)
Definition pdf_line (r : row) : string :=
  join ", " (map (fun c => if is_none c then "" else str c) r).

(** The calls made on the canvas. *)
Inductive pdf_op : Type :=
  | setTitle (title : string)
  | drawString (x y : Z) (text : string)
  | showPage
  | pdf_save.

(** The loop of [gerar_pdf] over the rows, from the height [y]. *)
Fixpoint draw_rows (y : Z) (rows : list row) : list pdf_op :=
  match rows with
  | [] => []
  | r :: rest =>
      drawString 72 y (pdf_line r) ::
      (if y - 20 <? 40
       then showPage :: draw_rows 800 rest
       else draw_rows (y - 20) rest)
  end.

(** [MainMenu.gerar_pdf]: the calls made on the canvas of
    "relatorio_visitantes.pdf" when the report is written (the box
    "Sucesso" follows), [None] when an error box is shown instead. *)
Definition gerar_pdf : M (option (list pdf_op)) :=
  try_except
    (let* ws := load_workbook VISITORS_FILE in
     ret (Some ([setTitle "Relatório de Visitantes";
                 drawString 72 800 "Relatório de Visitantes"] ++
                draw_rows 750 (iter_rows ws) ++ [pdf_save])))
    (on_Exception (fun _ => show (showerror "Erro PDF") ;; ret None)).



(** The pages, each with the number of texts drawn on it. *)
Fixpoint texts_per_page (ops : list pdf_op) (on_page : nat) : list nat :=
  match ops with
  | [] => [on_page]
  | showPage :: rest => on_page :: texts_per_page rest 0
  | drawString _ _ _ :: rest => texts_per_page rest (S on_page)
  | _ :: rest => texts_per_page rest on_page
  end.










(** ** More states for the statements *)

(** A visitors table whose last row has the text "007" as identifier. *)
Definition text_id_sheet : worksheet :=
  [ texts VISITORS_HEADERS;
    CInt 1 :: texts (repeat "a" 9);
    CStr "007" :: texts (repeat "b" 9) ].

Definition text_id_world : world :=
  World {[ VISITORS_FILE := File text_id_sheet true ]} [] [].

(** A users table whose administrator has the mask where the hash belongs. *)
Definition masked_admin_world : world :=
  World {[ USERS_FILE := File [ texts USERS_HEADERS;
                                [CStr "admin"; CStr MASK; CStr "admin"] ] true ]} [] [].

(** The visitors window of a user who may write. *)
Definition visitors_window : window :=
  Window false VISITORS_FILE VISITORS_HEADERS [Adicionar; Editar; Excluir].

(** The visitors window of a user with the permission "leitura". *)
Definition visitors_window_leitura : window :=
  Window true VISITORS_FILE VISITORS_HEADERS [].

(** The users window of the administrator. *)
Definition users_window : window :=
  Window false USERS_FILE USERS_HEADERS [Adicionar; Editar; Excluir].

(** Some presses and typing in a data window. *)
Definition some_events : list event :=
  [ Press_Adicionar [repeat "c" 9];
    Press_Excluir (Some (CInt 1)) true;
    Press_Editar (Some (CInt 2)) ["Rui" :: "" :: repeat "x" 7];
    Type_search "c" ].



(** * Properties *)

(** ** The hasher on known inputs *)

Example K_ends : nth 0 SHA256.K 0 = 0x428a2f98 /\ nth 63 SHA256.K 0 = 0xc67178f2.
Proof. split; reflexivity. Qed.

Example H0_ends : nth 0 SHA256.H0 0 = 0x6a09e667 /\ nth 7 SHA256.H0 0 = 0x5be0cd19.
Proof. split; reflexivity. Qed.

Example hash_abc :
  hash_password "abc" = "ba7816bf8f01cfea414140de5dae2223b00361a396177a9cb410ff61f20015ad".
Proof. vm_compute. reflexivity. Qed.

Example hash_empty :
  hash_password "" = "e3b0c44298fc1c149afbf4c8996fb92427ae41e4649b934ca495991b7852b855".
Proof. vm_compute. reflexivity. Qed.

Example hash_admin :
  hash_password "admin" = "8c6976e5b5410415bde908bd4dee15dfb167a9c873fc4bb8a81f6f2ab448a918".
Proof. vm_compute. reflexivity. Qed.

Example hash_two_blocks :
  hash_password "abcdbcdecdefdefgefghfghighijhijkijkljklmklmnlmnomnopnopq"
  = "248d6a61d20638b8e5c026930c3e6039a33ce45964ff2167f6ecedd419db06c1".
Proof. vm_compute. reflexivity. Qed.

(** ** Text *)

Section TextFacts.
Import Text.

Lemma all_decimal_of_uint (d : Decimal.uint) :
  all_decimal (NilEmpty.string_of_uint d) = true.
Proof. induction d; simpl; auto. Qed.

Lemma isdigit_of_uint (d : Decimal.uint) :
  isdigit (NilZero.string_of_uint d) = true.
Proof.
  destruct d; simpl; auto using all_decimal_of_uint.
Qed.

Lemma isdigit_str_int_nonneg (n : Z) : 0 <= n -> isdigit (str_int n) = true.
Proof.
  intros Hn. unfold str_int. destruct n as [|p|p]; simpl.
  - reflexivity.
  - apply isdigit_of_uint.
  - lia.
Qed.

Lemma isdigit_str_int_neg (n : Z) : n < 0 -> isdigit (str_int n) = false.
Proof.
  intros Hn. unfold str_int. destruct n as [|p|p]; try lia. reflexivity.
Qed.




Lemma contains_empty (hay : string) : contains "" hay = true.
Proof. destruct hay; reflexivity. Qed.

End TextFacts.

Lemma numeric_id_int (n : Z) :
  numeric_id (CInt n) = if 0 <=? n then Some n else None.
Proof.
  unfold numeric_id. simpl.
  destruct (Z.leb_spec 0 n).
  - rewrite isdigit_str_int_nonneg by lia. reflexivity.
  - rewrite isdigit_str_int_neg by lia. reflexivity.
Qed.

Lemma cell_eqb_eq (a b : cell) : cell_eqb a b = true <-> a = b.
Proof.
  destruct a, b; simpl; split; intros H; try discriminate; try reflexivity.
  - apply Z.eqb_eq in H. congruence.
  - injection H as ->. apply Z.eqb_refl.
  - apply String.eqb_eq in H. congruence.
  - injection H as ->. apply String.eqb_refl.
Qed.

Lemma cell_eqb_refl (a : cell) : cell_eqb a a = true.
Proof. apply cell_eqb_eq. reflexivity. Qed.

Lemma cell_eqb_neq (a b : cell) : cell_eqb a b = false <-> a <> b.
Proof.
  rewrite <- cell_eqb_eq. destruct (cell_eqb a b); split; congruence.
Qed.

(** ** Worksheets *)

Lemma max_column_pos (ws : worksheet) : (1 <= max_column ws)%nat.
Proof. induction ws; simpl; lia. Qed.

Lemma max_column_ge (ws : worksheet) (r : row) :
  In r ws -> (List.length r <= max_column ws)%nat.
Proof.
  induction ws as [|r0 ws IH]; simpl; [tauto|].
  intros [->|H]; [lia|]. specialize (IH H). lia.
Qed.

Lemma max_column_app (ws1 ws2 : worksheet) :
  max_column (ws1 ++ ws2) = Nat.max (max_column ws1) (max_column ws2).
Proof.
  induction ws1 as [|r ws1 IH]; simpl.
  - pose proof (max_column_pos ws2). lia.
  - rewrite IH. lia.
Qed.

Lemma pad_row_length (width : nat) (r : row) :
  List.length (pad_row width r) = width.
Proof.
  unfold pad_row. rewrite length_app, length_take, repeat_length. lia.
Qed.

Lemma pad_row_nth0 (width : nat) (r : row) :
  (1 <= width)%nat -> nth 0 (pad_row width r) CNone = nth 0 r CNone.
Proof.
  intros Hw. unfold pad_row.
  destruct width as [|width]; [lia|].
  destruct r as [|c r]; simpl; reflexivity.
Qed.

Lemma pad_row_exact (width : nat) (r : row) :
  List.length r = width -> pad_row width r = r.
Proof.
  intros <-. unfold pad_row.
  rewrite firstn_all, Nat.sub_diag. simpl. apply app_nil_r.
Qed.

Lemma iter_rows_length (ws : worksheet) (r : row) :
  In r (iter_rows ws) -> List.length r = max_column ws.
Proof.
  unfold iter_rows. intros H. apply in_map_iff in H as (r0 & <- & _).
  apply pad_row_length.
Qed.

Lemma iter_rows_width (ws : worksheet) :
  Forall (fun r => List.length r = max_column ws) (iter_rows ws).
Proof. apply Forall_forall. intros r. rewrite list_elem_of_In. apply iter_rows_length. Qed.

Lemma ids_tl (ws : worksheet) :
  ids ws = map (fun r => nth 0 r CNone) (tl ws).
Proof.
  unfold ids, iter_rows. rewrite map_map. apply map_ext.
  intros r. apply pad_row_nth0, max_column_pos.
Qed.

(** ** Running the program text *)

Lemma set_files_same (w : world) : set_files w (files w) = w.
Proof. destruct w; reflexivity. Qed.

Lemma set_tree_same (w : world) : set_tree w (tree w) = w.
Proof. destruct w; reflexivity. Qed.

(** ** Set-up: files are created once and then left alone *)

Lemma ensure_step (name : string) (ws : worksheet) (w : world) :
  (let* present := path_exists name in
   if negb present then save name ws else ret tt) w
  = Return tt (set_files w (ensure (files w) (name, ws))).
Proof.
  run_step. unfold ensure; simpl.
  destruct (files w !! name) as [f|] eqn:E; simpl.
  - rewrite set_files_same. reflexivity.
  - rewrite E. reflexivity.
Qed.

Lemma bind_Return {A B} (m : M A) (k : A -> M B) (w w' : world) (a : A) :
  m w = Return a w' -> bind m k w = k a w'.
Proof. intros H. unfold bind. rewrite H. reflexivity. Qed.

Lemma bind_Raise {A B} (m : M A) (k : A -> M B) (w w' : world) (e : exn) :
  m w = Raise e w' -> bind m k w = Raise e w'.
Proof. intros H. unfold bind. rewrite H. reflexivity. Qed.

Lemma ensure_each (l : list (string * list string)) (w : world) :
  for_each l (fun fh =>
    let* present := path_exists (fst fh) in
    if negb present
    then save (fst fh) (append [] (texts (snd fh)))
    else ret tt) w
  = Return tt (set_files w
      (fold_left ensure (map (fun fh => (fst fh, [texts (snd fh)])) l) (files w))).
Proof.
  revert w. induction l as [|fh l IH]; intros w; simpl.
  - unfold ret. rewrite set_files_same. reflexivity.
  - erewrite bind_Return by apply ensure_step.
    rewrite IH. destruct w; reflexivity.
Qed.

Lemma criar_arquivos_run (w : world) :
  criar_arquivos_se_nao_existir w
  = Return tt (set_files w (fold_left ensure initial_sheets (files w))).
Proof.
  unfold criar_arquivos_se_nao_existir.
  erewrite bind_Return by apply ensure_each.
  rewrite ensure_step. destruct w; reflexivity.
Qed.

Lemma ensure_keeps (fs : gmap string file) (nw : string * worksheet) (k : string) (f : file) :
  fs !! k = Some f -> ensure fs nw !! k = Some f.
Proof.
  intros H. unfold ensure. destruct (fs !! fst nw) eqn:E; [exact H|].
  rewrite lookup_insert_ne; [exact H|]. intros Heq. rewrite Heq in E. congruence.
Qed.

Lemma ensure_all_keeps (l : list (string * worksheet)) (fs : gmap string file)
    (k : string) (f : file) :
  fs !! k = Some f -> fold_left ensure l fs !! k = Some f.
Proof.
  revert fs. induction l as [|nw l IH]; intros fs H; simpl; [exact H|].
  apply IH, ensure_keeps, H.
Qed.

Lemma ensure_other (fs : gmap string file) (nw : string * worksheet) (k : string) :
  k <> fst nw -> ensure fs nw !! k = fs !! k.
Proof.
  intros H. unfold ensure. destruct (fs !! fst nw); [reflexivity|].
  apply lookup_insert_ne. congruence.
Qed.

Lemma ensure_all_other (l : list (string * worksheet)) (fs : gmap string file) (k : string) :
  ~ In k (map fst l) -> fold_left ensure l fs !! k = fs !! k.
Proof.
  revert fs. induction l as [|nw l IH]; intros fs H; simpl; [reflexivity|].
  simpl in H. rewrite IH by tauto. apply ensure_other. intros Heq. apply H. left. congruence.
Qed.

Lemma ensure_all_creates (l : list (string * worksheet)) (fs : gmap string file)
    (k : string) (ws : worksheet) :
  NoDup (map fst l) -> In (k, ws) l -> fs !! k = None ->
  fold_left ensure l fs !! k = Some (File ws true).
Proof.
  revert fs. induction l as [|nw l IH]; intros fs Hnd Hin Hk; simpl in *; [tauto|].
  apply NoDup_cons in Hnd as [Hfresh Hnd].
  destruct Hin as [->|Hin].
  - apply ensure_all_keeps. unfold ensure. simpl. rewrite Hk.
    apply lookup_insert_eq.
  - apply IH; auto. rewrite ensure_other; [exact Hk|].
    intros Heq. apply Hfresh. apply list_elem_of_In.
    apply in_map_iff. exists (k, ws). auto.
Qed.

Lemma ensure_present (fs : gmap string file) (nw : string * worksheet) :
  is_Some (fs !! fst nw) -> ensure fs nw = fs.
Proof. intros [f E]. unfold ensure. rewrite E. reflexivity. Qed.

Lemma ensure_all_present (l : list (string * worksheet)) (fs : gmap string file) :
  (forall nw, In nw l -> is_Some (fs !! fst nw)) -> fold_left ensure l fs = fs.
Proof.
  induction l as [|nw l IH]; intros H; simpl; [reflexivity|].
  rewrite ensure_present by (apply H; left; reflexivity).
  apply IH. intros nw' Hin. apply H. right. exact Hin.
Qed.

Lemma ensure_all_covers (l : list (string * worksheet)) (fs : gmap string file)
    (nw : string * worksheet) :
  In nw l -> is_Some (fold_left ensure l fs !! fst nw).
Proof.
  revert fs. induction l as [|nw0 l IH]; intros fs Hin; simpl in *; [tauto|].
  destruct Hin as [->|Hin]; [|apply IH, Hin].
  assert (is_Some (ensure fs nw !! fst nw)) as [f Hf].
  { unfold ensure. destruct (fs !! fst nw) eqn:E; [rewrite E; eauto|].
    rewrite lookup_insert_eq. eauto. }
  rewrite (ensure_all_keeps l _ _ _ Hf). eauto.
Qed.

Lemma initial_sheets_names : NoDup (map fst initial_sheets).
Proof. apply (bool_decide_unpack _). vm_compute. reflexivity. Qed.

(** C9. Set-up is idempotent: it returns normally; each of the five
    tables that is missing is created holding exactly its header row,
    the users table holding in addition the row of the default
    administrator ("admin", hash of "admin", "admin"); every file that
    exists already is left as it is; and a second run changes nothing. *)
Theorem criar_arquivos_idempotent (w : world) :
  exists w1,
    criar_arquivos_se_nao_existir w = Return tt w1 /\
    criar_arquivos_se_nao_existir w1 = Return tt w1 /\
    tree w1 = tree w /\ shown w1 = shown w /\
    (forall name f, files w !! name = Some f -> files w1 !! name = Some f) /\
    (forall name ws, In (name, ws) initial_sheets -> files w !! name = None ->
                     files w1 !! name = Some (File ws true)) /\
    (forall name, ~ In name (map fst initial_sheets) ->
                  files w1 !! name = files w !! name).
Proof.
  exists (set_files w (fold_left ensure initial_sheets (files w))).
  split; [apply criar_arquivos_run|].
  split.
  { rewrite criar_arquivos_run. f_equal. unfold set_files. cbn [files tree shown].
    rewrite ensure_all_present; [reflexivity|].
    intros nw Hin. apply ensure_all_covers, Hin. }
  cbn [set_files files tree shown].
  split; [reflexivity|]. split; [reflexivity|].
  split; [|split].
  - intros name f H. apply ensure_all_keeps, H.
  - intros name ws Hin H.
    apply ensure_all_creates; auto using initial_sheets_names.
  - intros name H. apply ensure_all_other, H.
Qed.

(** ** What the tree shows *)

Lemma display_ok (filename : string) (r : row) (w : world) :
  showable filename r -> display filename r w = Return (masked filename r) w.
Proof.
  intros H. unfold display, masked, showable in *.
  destruct (String.eqb_spec filename USERS_FILE) as [E|E]; [|reflexivity].
  unfold setitem. specialize (H E).
  destruct (Nat.ltb_spec 1 (List.length r)); [reflexivity|lia].
Qed.

Lemma display_fail (filename : string) (r : row) (w : world) :
  ~ showable filename r -> display filename r w = Raise IndexError w.
Proof.
  intros H. unfold display, showable in *.
  destruct (String.eqb_spec filename USERS_FILE) as [E|E]; [|tauto].
  unfold setitem.
  destruct (Nat.ltb_spec 1 (List.length r)); [|reflexivity].
  exfalso. apply H. intros _. lia.
Qed.

Lemma showable_dec (filename : string) (r : row) :
  showable filename r \/ ~ showable filename r.
Proof.
  unfold showable.
  destruct (String.eqb_spec filename USERS_FILE) as [E|E]; [|tauto].
  destruct (Nat.le_gt_cases 2 (List.length r)); [tauto|].
  right. intros H'. specialize (H' E). lia.
Qed.

Lemma masked_nth0 (filename : string) (r : row) :
  nth 0 (masked filename r) CNone = nth 0 r CNone.
Proof.
  unfold masked. destruct (String.eqb filename USERS_FILE); [|reflexivity].
  destruct r as [|c [|c' r]]; reflexivity.
Qed.

Lemma masked_users_second (r : row) :
  (2 <= List.length r)%nat -> nth_error (masked USERS_FILE r) 1 = Some (CStr MASK).
Proof.
  intros H. destruct r as [|c [|c' r]]; simpl in H; try lia. reflexivity.
Qed.

(** Whatever [show_rows] does, it only adds rows it could mask, and it
    touches neither the files nor the messages. *)
Lemma show_rows_adds (filename : string) (rows : list row) (w : world) (r : row) :
  In r (tree (world_of (show_rows filename rows w))) ->
  In r (tree w) \/
  exists r0, In r0 rows /\ showable filename r0 /\ r = masked filename r0.
Proof.
  revert w. induction rows as [|r1 rows IH]; intros w H; simpl in H.
  - left. exact H.
  - unfold bind at 1 in H. unfold bind at 1 in H.
    destruct (showable_dec filename r1) as [Hs|Hs].
    + rewrite display_ok in H by exact Hs. unfold tree_insert in H.
      apply IH in H as [H|(r0 & Hin & Hs0 & ->)].
      * cbn [tree set_tree] in H. apply in_app_or in H as [H|[<-|[]]].
        -- left. exact H.
        -- right. exists r1. simpl. auto.
      * right. exists r0. simpl. auto.
    + rewrite display_fail in H by exact Hs. left. exact H.
Qed.

Lemma show_rows_ok (filename : string) (rows : list row) (w : world) :
  Forall (showable filename) rows ->
  show_rows filename rows w
  = Return tt (set_tree w (tree w ++ map (masked filename) rows)).
Proof.
  revert w. induction rows as [|r rows IH]; intros w H; simpl.
  - unfold ret. rewrite app_nil_r, set_tree_same. reflexivity.
  - apply Forall_cons in H as [Hr H].
    unfold bind at 1. unfold bind at 1. rewrite display_ok by exact Hr.
    unfold tree_insert. rewrite IH by exact H.
    destruct w; cbn [set_tree tree files shown]. rewrite <- app_assoc. reflexivity.
Qed.

Lemma filter_rows_ok (filename search_term : string) (rows : list row) (w : world) :
  Forall (showable filename) rows ->
  filter_rows filename search_term rows w
  = Return tt (set_tree w (tree w ++
      map (masked filename) (List.filter (row_matches search_term) rows))).
Proof.
  revert w. induction rows as [|r rows IH]; intros w H; simpl.
  - unfold ret. rewrite app_nil_r, set_tree_same. reflexivity.
  - apply Forall_cons in H as [Hr H].
    unfold bind at 1. destruct (row_matches search_term r).
    + unfold bind at 1. rewrite display_ok by exact Hr.
      unfold tree_insert. rewrite IH by exact H.
      destruct w; cbn [set_tree tree files shown map].
      rewrite <- app_assoc. reflexivity.
    + unfold ret at 1. apply IH, H.
Qed.

Lemma iter_rows_showable (filename : string) (ws : worksheet) :
  (filename = USERS_FILE -> (2 <= max_column ws)%nat) ->
  Forall (showable filename) (iter_rows ws).
Proof.
  intros H. eapply Forall_impl; [apply iter_rows_width|].
  intros r Hr E. simpl in Hr. rewrite Hr. auto.
Qed.

Lemma load_data_ok (filename : string) (w : world) (f : file) :
  files w !! filename = Some f ->
  (filename = USERS_FILE -> (2 <= max_column (sheet f))%nat) ->
  load_data filename w
  = Return tt (set_tree w (map (masked filename) (iter_rows (sheet f)))).
Proof.
  intros Hf Hw. unfold load_data, bind, try_except, tree_clear, load_workbook.
  cbn [files set_tree]. rewrite Hf.
  rewrite show_rows_ok by (apply iter_rows_showable, Hw).
  destruct w; reflexivity.
Qed.

Lemma load_data_missing (filename : string) (w : world) :
  files w !! filename = None ->
  load_data filename w = Return tt (add_shown (set_tree w []) (showerror "Erro")).
Proof.
  intros Hf. unfold load_data, bind, try_except, tree_clear, load_workbook.
  cbn [files set_tree]. rewrite Hf. reflexivity.
Qed.

Lemma load_data_tree (filename : string) (w : world) (r : row) :
  In r (tree (world_of (load_data filename w))) ->
  exists f r0, files w !! filename = Some f /\ In r0 (iter_rows (sheet f)) /\
               showable filename r0 /\ r = masked filename r0.
Proof.
  unfold load_data, bind, try_except, tree_clear, load_workbook.
  cbn [files set_tree]. destruct (files w !! filename) as [f|] eqn:Hf.
  - intros H. exists f.
    pose proof (show_rows_adds filename (iter_rows (sheet f)) (set_tree w []) r) as H'.
    destruct (show_rows filename (iter_rows (sheet f)) (set_tree w [])) as [a w'|e w'].
    + destruct (H' H) as [[]|(r0 & Hin & Hs & ->)]. eauto.
    + assert (In r (tree w')) as Hr by (destruct e; exact H).
      destruct (H' Hr) as [[]|(r0 & Hin & Hs & ->)]. eauto.
  - simpl. tauto.
Qed.

(** C6. Listing the users table never shows a stored password hash:
    whatever the state, every row the tree holds after [load_data] on the
    users file has the mask of eight asterisks as its second value; and
    when the users table has its columns, the tree holds one such row
    per stored row, the other values being the stored ones. *)
Theorem load_data_users_masked (w : world) :
  (forall r, In r (tree (world_of (load_data USERS_FILE w))) ->
             nth_error r 1 = Some (CStr MASK)) /\
  (forall f, files w !! USERS_FILE = Some f -> (2 <= max_column (sheet f))%nat ->
             load_data USERS_FILE w
             = Return tt (set_tree w (map (fun r => <[1%nat := CStr MASK]> r)
                                          (iter_rows (sheet f))))).
Proof.
  split.
  - intros r H. apply load_data_tree in H as (f & r0 & _ & _ & Hs & ->).
    apply masked_users_second, Hs. reflexivity.
  - intros f Hf Hw. rewrite (load_data_ok _ _ f) by auto. reflexivity.
Qed.

(** ** Search *)

Lemma filter_tree_ok (filename query : string) (w : world) (f : file) :
  files w !! filename = Some f ->
  (filename = USERS_FILE -> (2 <= max_column (sheet f))%nat) ->
  filter_tree filename query w
  = Return tt (set_tree w (map (masked filename)
      (List.filter (row_matches (Text.lower query)) (iter_rows (sheet f))))).
Proof.
  intros Hf Hw. unfold filter_tree, bind, tree_clear, load_workbook.
  cbn [files set_tree]. rewrite Hf.
  rewrite filter_rows_ok by (apply iter_rows_showable, Hw).
  destruct w; reflexivity.
Qed.


Lemma row_matches_empty (r : row) : r <> [] -> row_matches "" r = true.
Proof.
  destruct r as [|c r]; [congruence|]. intros _. unfold row_matches. simpl.
  rewrite contains_empty. reflexivity.
Qed.



(** C10. A row with an empty cell is found by every query that lies,
    case aside, inside the text "None" -- "no" for one -- whatever its
    stored texts are. *)
Theorem filter_tree_finds_none (filename query : string) (w : world) (f : file) (r : row) :
  files w !! filename = Some f ->
  (filename = USERS_FILE -> (2 <= max_column (sheet f))%nat) ->
  In r (iter_rows (sheet f)) ->
  In CNone r ->
  Text.contains (Text.lower query) (Text.lower "None") = true ->
  In (masked filename r) (tree (world_of (filter_tree filename query w))).
Proof.
  intros Hf Hw Hr Hnone Hq.
  rewrite (filter_tree_ok _ _ _ f) by assumption.
  cbn [world_of set_tree tree]. apply in_map. apply filter_In. split; [exact Hr|].
  unfold row_matches. apply existsb_exists. exists CNone. split; [exact Hnone|exact Hq].
Qed.

(** ** Audit log and login *)

Lemma log_action_ok (usuario acao now : string) (w : world) (lg : worksheet) :
  files w !! LOG_FILE = Some (File lg true) ->
  log_action usuario acao now w
  = Return tt (logged w lg [CStr usuario; CStr acao; CStr now]).
Proof.
  intros H. unfold log_action, try_except, bind, load_workbook, save.
  rewrite H. cbn beta iota. rewrite ?H. reflexivity.
Qed.

Lemma log_action_missing (usuario acao now : string) (w : world) :
  files w !! LOG_FILE = None ->
  log_action usuario acao now w = Return tt (add_shown w (showwarning "Log Erro")).
Proof.
  intros H. unfold log_action, try_except, bind, load_workbook.
  rewrite H. reflexivity.
Qed.

Lemma log_action_refused (usuario acao now : string) (w : world) (lg : worksheet) :
  files w !! LOG_FILE = Some (File lg false) ->
  log_action usuario acao now w = Raise PermissionError w.
Proof.
  intros H. unfold log_action, try_except, bind, load_workbook, save.
  rewrite H. cbn beta iota. rewrite ?H. reflexivity.
Qed.

Lemma getitem_nth {A} (l : list A) (i : nat) (d : A) (w : world) :
  (i < List.length l)%nat -> getitem l i w = Return (nth i l d) w.
Proof.
  intros H. unfold getitem.
  destruct (nth_error l i) as [a|] eqn:E.
  - rewrite (nth_error_nth _ _ d E). reflexivity.
  - apply nth_error_None in E. lia.
Qed.

(** The scan of the users rows: the first matching row decides. *)
Lemma login_rows_find (usuario senha now : string) (rows : list row) (w : world) :
  Forall (fun r => (3 <= List.length r)%nat) rows ->
  login_rows usuario senha now rows w
  = match List.find (login_match usuario senha) rows with
    | Some r =>
        (log_action usuario "Login bem-sucedido" now ;;
         ret (Some (usuario, nth 2 r CNone))) w
    | None => Return None (add_shown w (showerror "Erro de Login"))
    end.
Proof.
  induction rows as [|r rows IH]; intros H; simpl.
  - reflexivity.
  - apply Forall_cons in H as [Hr H].
    erewrite bind_Return by (apply (getitem_nth r 0 CNone); lia).
    unfold login_match at 1.
    destruct (cell_eqb (nth 0 r CNone) (CStr usuario)); simpl.
    + erewrite bind_Return; cycle 1.
      { erewrite bind_Return by (apply (getitem_nth r 1 CNone); lia). reflexivity. }
      destruct (cell_eqb (nth 1 r CNone) (CStr (hash_password senha))).
      * unfold bind. destruct (log_action _ _ _ w); [|reflexivity].
        rewrite (getitem_nth r 2 CNone) by lia. reflexivity.
      * apply IH, H.
    + erewrite bind_Return by reflexivity. apply IH, H.
Qed.

Lemma iter_rows_wide (n : nat) (ws : worksheet) :
  (n <= max_column ws)%nat -> Forall (fun r => (n <= List.length r)%nat) (iter_rows ws).
Proof.
  intros H. eapply Forall_impl; [apply iter_rows_width|].
  intros r Hr. simpl in Hr. lia.
Qed.

Lemma attempt_login_logged (usuario senha now : string) (w : world) (f : file)
    (r : row) (lg : worksheet) :
  files w !! USERS_FILE = Some f ->
  (3 <= max_column (sheet f))%nat ->
  List.find (login_match usuario senha) (iter_rows (sheet f)) = Some r ->
  files w !! LOG_FILE = Some (File lg true) ->
  attempt_login usuario senha now w
  = Return (Some (usuario, nth 2 r CNone)) (logged w lg (login_entry usuario now)).
Proof.
  intros Hf Hw Hfind Hlog.
  unfold attempt_login, try_except, bind at 1, load_workbook. rewrite Hf.
  rewrite login_rows_find by (apply iter_rows_wide, Hw). rewrite Hfind.
  erewrite bind_Return by (apply log_action_ok, Hlog). reflexivity.
Qed.

Lemma attempt_login_unlogged (usuario senha now : string) (w : world) (f : file) (r : row) :
  files w !! USERS_FILE = Some f ->
  (3 <= max_column (sheet f))%nat ->
  List.find (login_match usuario senha) (iter_rows (sheet f)) = Some r ->
  files w !! LOG_FILE = None ->
  attempt_login usuario senha now w
  = Return (Some (usuario, nth 2 r CNone)) (add_shown w (showwarning "Log Erro")).
Proof.
  intros Hf Hw Hfind Hlog.
  unfold attempt_login, try_except, bind at 1, load_workbook. rewrite Hf.
  rewrite login_rows_find by (apply iter_rows_wide, Hw). rewrite Hfind.
  erewrite bind_Return by (apply log_action_missing, Hlog). reflexivity.
Qed.

Lemma attempt_login_rejected (usuario senha now : string) (w : world) (f : file) :
  files w !! USERS_FILE = Some f ->
  (3 <= max_column (sheet f))%nat ->
  List.find (login_match usuario senha) (iter_rows (sheet f)) = None ->
  attempt_login usuario senha now w
  = Return None (add_shown w (showerror "Erro de Login")).
Proof.
  intros Hf Hw Hfind.
  unfold attempt_login, try_except, bind at 1, load_workbook. rewrite Hf.
  rewrite login_rows_find by (apply iter_rows_wide, Hw). rewrite Hfind.
  reflexivity.
Qed.

Lemma login_match_iff (usuario senha : string) (r : row) :
  login_match usuario senha r = true <->
  nth 0 r CNone = CStr usuario /\ nth 1 r CNone = CStr (hash_password senha).
Proof.
  unfold login_match. rewrite andb_true_iff, !cell_eqb_eq. reflexivity.
Qed.

(** Without the users file nobody logs in, and nothing is written. *)
Lemma attempt_login_no_users (usuario senha now : string) (w : world) :
  files w !! USERS_FILE = None ->
  attempt_login usuario senha now w
  = Return None (add_shown w (showerror "Erro Crítico")).
Proof.
  intros Hf. unfold attempt_login, try_except, bind at 1, load_workbook.
  rewrite Hf. reflexivity.
Qed.

Lemma attempt_login_log_refused (usuario senha now : string) (w : world) (f : file)
    (r : row) (lg : worksheet) :
  files w !! USERS_FILE = Some f ->
  (3 <= max_column (sheet f))%nat ->
  List.find (login_match usuario senha) (iter_rows (sheet f)) = Some r ->
  files w !! LOG_FILE = Some (File lg false) ->
  attempt_login usuario senha now w = Raise PermissionError w.
Proof.
  intros Hf Hw Hfind Hlog.
  unfold attempt_login, try_except, bind at 1, load_workbook. rewrite Hf.
  rewrite login_rows_find by (apply iter_rows_wide, Hw). rewrite Hfind.
  erewrite bind_Raise by (apply (log_action_refused _ _ _ _ lg), Hlog). reflexivity.
Qed.

(** C7 (amended). With the users table in place and at least three
    columns wide, as set-up writes it, what login does is decided by the
    first stored row, in stored order, that has the given name as first
    value and the hash of the given password as second. With such a row
    and a log file that can be written, the login succeeds with the role
    of that row and one row "Login bem-sucedido" for the name is added
    to the log; with the log file missing the login succeeds all the
    same, a warning is shown and nothing is recorded; with a log file
    that cannot be written the login ends in [PermissionError] before
    any session starts, with no message and nothing written. Without
    such a row an error is shown, nothing is written and no session
    starts. *)
Theorem attempt_login_first_match (usuario senha now : string) (w : world) (f : file) :
  files w !! USERS_FILE = Some f ->
  (3 <= max_column (sheet f))%nat ->
  match List.find (login_match usuario senha) (iter_rows (sheet f)) with
  | Some r =>
      (forall lg, files w !! LOG_FILE = Some (File lg true) ->
         attempt_login usuario senha now w
         = Return (Some (usuario, nth 2 r CNone))
                  (logged w lg (login_entry usuario now))) /\
      (files w !! LOG_FILE = None ->
         attempt_login usuario senha now w
         = Return (Some (usuario, nth 2 r CNone))
                  (add_shown w (showwarning "Log Erro"))) /\
      (forall lg, files w !! LOG_FILE = Some (File lg false) ->
         attempt_login usuario senha now w = Raise PermissionError w)
  | None =>
      attempt_login usuario senha now w
      = Return None (add_shown w (showerror "Erro de Login"))
  end.
Proof.
  intros Hf Hw.
  destruct (List.find (login_match usuario senha) (iter_rows (sheet f))) as [r|] eqn:E.
  - split; [|split].
    + intros lg Hlog. eapply attempt_login_logged; eauto.
    + intros Hlog. eapply attempt_login_unlogged; eauto.
    + intros lg Hlog. eapply attempt_login_log_refused; eauto.
  - eapply attempt_login_rejected; eauto.
Qed.

(** C8 (amended). When the log file is missing, writing a log row fails
    with a caught error: a warning is shown, nothing else changes, and
    the logout or the login that asked for the row goes on to its end. *)
Theorem log_action_missing_file_warns (usuario acao now : string) (w : world) :
  files w !! LOG_FILE = None ->
  log_action usuario acao now w = Return tt (add_shown w (showwarning "Log Erro")) /\
  logout usuario now w = Return tt (add_shown w (showwarning "Log Erro")) /\
  (forall f senha r,
     files w !! USERS_FILE = Some f ->
     (3 <= max_column (sheet f))%nat ->
     List.find (login_match usuario senha) (iter_rows (sheet f)) = Some r ->
     attempt_login usuario senha now w
     = Return (Some (usuario, nth 2 r CNone))
              (add_shown w (showwarning "Log Erro"))).
Proof.
  intros Hlog. split; [apply log_action_missing, Hlog|].
  split; [apply log_action_missing, Hlog|].
  intros f senha r Hf Hw Hfind. eapply attempt_login_unlogged; eauto.
Qed.

(** ** The record dialog *)

Lemma on_ok_fields_valid (filename : string) (initial_data : option row)
    (headers values result : list string) (w : world) :
  List.length values = List.length headers ->
  Forall (fun v => v <> "") values ->
  on_ok_fields filename initial_data headers values result w
  = Return (result ++ values, true) w.
Proof.
  revert values result. induction headers as [|h headers IH]; intros values result Hlen Hne.
  - destruct values; [|discriminate]. simpl. rewrite app_nil_r. reflexivity.
  - destruct values as [|v values]; [discriminate|].
    apply Forall_cons in Hne as [Hv Hne]. simpl.
    destruct (String.eqb_spec v ""); [contradiction|]. simpl.
    rewrite IH; [|simpl in Hlen; lia|exact Hne].
    rewrite <- app_assoc. reflexivity.
Qed.

(** One Salvar with every field filled gives these texts as the result. *)
Lemma RecordDialog_valid (headers : list string) (initial_data : option row)
    (filename : string) (values : list string) (w : world) :
  valid_entries headers values ->
  RecordDialog headers initial_data filename [values] w = Return (Some values) w.
Proof.
  intros [Hlen Hne]. unfold RecordDialog, wait_window, on_ok.
  erewrite bind_Return by (apply on_ok_fields_valid; assumption).
  reflexivity.
Qed.

(** ** Files after listing *)

Lemma show_rows_files (filename : string) (rows : list row) (w : world) :
  files (world_of (show_rows filename rows w)) = files w.
Proof.
  revert w. induction rows as [|r rows IH]; intros w; simpl; [reflexivity|].
  unfold bind at 1. unfold bind at 1.
  destruct (showable_dec filename r) as [Hs|Hs].
  - rewrite display_ok by exact Hs. unfold tree_insert. rewrite IH. reflexivity.
  - rewrite display_fail by exact Hs. reflexivity.
Qed.

Lemma load_data_files (filename : string) (w : world) :
  files (world_of (load_data filename w)) = files w.
Proof.
  unfold load_data, bind, try_except, tree_clear, load_workbook.
  cbn [files set_tree]. destruct (files w !! filename) as [f|] eqn:Hf.
  - pose proof (show_rows_files filename (iter_rows (sheet f)) (set_tree w [])) as H.
    destruct (show_rows filename (iter_rows (sheet f)) (set_tree w [])) as [a w'|e w'].
    + exact H.
    + destruct e; exact H.
  - reflexivity.
Qed.

(** A save that succeeds, followed by the reload of the tree, inside
    [try ... except Exception]: the call returns and the file holds the
    saved sheet. *)
Lemma save_and_reload (filename title : string) (ws : worksheet) (w : world) (f : file) :
  files w !! filename = Some f -> writable f = true ->
  exists w',
    try_except (save filename ws ;; load_data filename)
               (on_Exception (fun _ => show (showerror title))) w = Return tt w' /\
    files w' = <[filename := File ws true]> (files w).
Proof.
  intros Hf Hwr. unfold try_except, bind, save. rewrite Hf, Hwr.
  pose proof (load_data_files filename
                (set_files w (<[filename := File ws true]> (files w)))) as H.
  destruct (load_data filename _) as [[] w'|e w'].
  - exists w'. split; [reflexivity|exact H].
  - eexists. split; [reflexivity|]. exact H.
Qed.

(** ** Adding records *)

Lemma try_bind_Return {A B} (m : M A) (k : A -> M B) (h : exn -> option (M B))
    (w w' : world) (a : A) :
  m w = Return a w' -> try_except (bind m k) h w = try_except (k a) h w'.
Proof. intros H. unfold try_except, bind. rewrite H. reflexivity. Qed.

Lemma load_workbook_ok (filename : string) (w : world) (f : file) :
  files w !! filename = Some f -> load_workbook filename w = Return (sheet f) w.
Proof. intros H. unfold load_workbook. rewrite H. reflexivity. Qed.

Lemma hashed_new_row (filename : string) (id : Z) (e : list string) (w : world) :
  (filename = USERS_FILE -> (2 <= List.length e)%nat) ->
  (if String.eqb filename USERS_FILE
   then let* pw := getitem (CInt id :: texts e) 2 in
        let* h := hash_value pw in
        setitem (CInt id :: texts e) 2 h
   else ret (CInt id :: texts e)) w
  = Return (stored_row filename id e) w.
Proof.
  intros H. unfold stored_row.
  destruct (String.eqb_spec filename USERS_FILE) as [E|E]; [|reflexivity].
  specialize (H E). destruct e as [|e0 [|e1 e]]; simpl in H; try lia.
  reflexivity.
Qed.

Lemma add_record_files (filename : string) (headers e : list string)
    (w : world) (f : file) :
  files w !! filename = Some f -> writable f = true ->
  valid_entries headers e -> e <> [] ->
  (filename = USERS_FILE -> (2 <= List.length e)%nat) ->
  exists w',
    add_record filename headers [e] w = Return tt w' /\
    files w' = <[filename := File (sheet f ++ [stored_row filename (new_id (sheet f)) e]) true]>
                 (files w).
Proof.
  intros Hf Hwr Hv Hne Hu. unfold add_record.
  erewrite bind_Return by (apply RecordDialog_valid, Hv).
  destruct e as [|e0 e]; [congruence|]. cbn [truthy].
  erewrite try_bind_Return by (apply load_workbook_ok, Hf).
  erewrite try_bind_Return by (apply hashed_new_row, Hu).
  apply (save_and_reload _ _ _ _ f); assumption.
Qed.

(** C1 (what the program does). Adding a user writes the typed password
    as it is into the second column, the one login reads as the hash,
    and the hash of the chosen permission into the third: the stored
    password column holds the clear text. *)
Theorem add_record_users_keeps_plaintext (w : world) (f : file) (senha perm : string) :
  files w !! USERS_FILE = Some f -> writable f = true ->
  senha <> "" -> perm <> "" ->
  sheet_of (world_of (add_record USERS_FILE USERS_HEADERS [[senha; perm]] w))
           USERS_FILE
  = Some (sheet f ++ [[CInt (new_id (sheet f)); CStr senha; CStr (hash_password perm)]]).
Proof.
  intros Hf Hwr Hs Hp.
  assert (valid_entries USERS_HEADERS [senha; perm]) as Hv.
  { split; [reflexivity|]. repeat constructor; assumption. }
  destruct (add_record_files USERS_FILE USERS_HEADERS [senha; perm] w f
              Hf Hwr Hv ltac:(discriminate) ltac:(intros _; simpl; lia))
    as (w' & Hrun & Hfiles).
  rewrite Hrun. unfold sheet_of. cbn [world_of]. rewrite Hfiles.
  rewrite lookup_insert_eq. reflexivity.
Qed.

(** ** New identifiers *)

Lemma last_map {A B} (g : A -> B) (l : list A) : last (map g l) = g <$> last l.
Proof.
  induction l as [|a l IH] using rev_ind; [reflexivity|].
  rewrite map_app. simpl. rewrite !last_snoc. reflexivity.
Qed.

(** The new ID is read off the last data row alone. *)
Lemma new_id_by_last_row (ws : worksheet) :
  new_id ws = match last (ids ws) with
              | Some v => match numeric_id v with Some n => n + 1 | None => 1 end
              | None => 1
              end.
Proof.
  rewrite ids_tl. unfold new_id, max_row, numeric_id.
  destruct ws as [|h data]; [reflexivity|]. cbn [tl List.length].
  destruct data as [|x data] using rev_ind; [reflexivity|].
  rewrite map_app. simpl map. rewrite last_snoc.
  replace (1 <? Nat.max 1 (S (List.length (data ++ [x]))))%nat with true
    by (symmetry; apply Nat.ltb_lt; rewrite length_app; simpl; lia).
  unfold cell_value.
  replace (Nat.max 1 (S (List.length (data ++ [x]))) - 1)%nat
    with (S (List.length data)) by (rewrite length_app; simpl; lia).
  cbn [nth Nat.sub]. rewrite nth_middle.
  destruct (negb (is_none (nth 0 x CNone)) && Text.isdigit (str (nth 0 x CNone)));
    reflexivity.
Qed.

Lemma is_decimal_value (c : ascii) :
  Text.is_decimal c = true -> 0 <= Z.of_nat (nat_of_ascii c) - 48.
Proof.
  unfold Text.is_decimal. intros H.
  apply andb_true_iff in H as [H _]. apply Nat.leb_le in H. lia.
Qed.

Lemma int_digits_nonneg (s : string) (acc : Z) :
  Text.all_decimal s = true -> 0 <= acc -> 0 <= Text.int_digits acc s.
Proof.
  revert acc. induction s as [|c s IH]; intros acc H Hacc; simpl in *; [exact Hacc|].
  apply andb_true_iff in H as [Hc Hs]. apply IH; [exact Hs|].
  apply is_decimal_value in Hc. lia.
Qed.

Lemma numeric_id_nonneg (v : cell) (n : Z) : numeric_id v = Some n -> 0 <= n.
Proof.
  destruct v as [|m|s].
  - discriminate.
  - rewrite numeric_id_int. destruct (Z.leb_spec 0 m); [|discriminate].
    intros [= <-]. exact H.
  - unfold numeric_id. simpl. destruct (Text.isdigit s) eqn:E; [|discriminate].
    intros [= <-]. apply int_digits_nonneg; [|lia].
    destruct s; [discriminate|exact E].
Qed.

Lemma new_id_positive (ws : worksheet) : 1 <= new_id ws.
Proof.
  rewrite new_id_by_last_row. destruct (last (ids ws)) as [v|]; [|lia].
  destruct (numeric_id v) as [n|] eqn:E; [|lia].
  apply numeric_id_nonneg in E. lia.
Qed.

Lemma stored_row_id (filename : string) (id : Z) (e : list string) :
  nth 0 (stored_row filename id e) CNone = CInt id.
Proof.
  unfold stored_row. destruct (String.eqb filename USERS_FILE); [|reflexivity].
  destruct e as [|e0 [|e1 e]]; reflexivity.
Qed.

Lemma new_id_after_append (filename : string) (ws : worksheet) (n : Z) (e : list string) :
  ws <> [] -> 0 <= n -> new_id (ws ++ [stored_row filename n e]) = n + 1.
Proof.
  intros Hws Hn. rewrite new_id_by_last_row, ids_tl.
  destruct ws as [|h data]; [congruence|]. simpl tl.
  rewrite map_app. simpl map. rewrite last_snoc, stored_row_id, numeric_id_int.
  destruct (Z.leb_spec 0 n); [reflexivity|lia].
Qed.

Lemma omap_numeric_ints (l : list Z) :
  Forall (fun n => 0 <= n) l -> omap numeric_id (map CInt l) = l.
Proof.
  induction l as [|n l IH]; intros H; [reflexivity|].
  apply Forall_cons in H as [Hn H]. simpl. rewrite numeric_id_int.
  destruct (Z.leb_spec 0 n); [|lia]. simpl. f_equal. exact (IH H).
Qed.

Lemma fold_max_is_last (l : list Z) (n : Z) :
  StronglySorted Z.lt (n :: l) -> fold_right Z.max n l = default n (last l).
Proof.
  induction l as [|a l IH]; intros H; [reflexivity|].
  simpl fold_right. rewrite IH.
  - apply StronglySorted_inv in H as [Hal Hn].
    apply Forall_cons in Hn as [Hna _].
    destruct l as [|b l]; [simpl; lia|].
    change (last (a :: b :: l)) with (last (b :: l)).
    destruct (last (b :: l)) as [z|] eqn:E; [|apply last_None in E; discriminate].
    simpl. apply last_Some_elem_of in E.
    apply StronglySorted_inv in Hal as [_ Hlt].
    rewrite Forall_forall in Hlt. specialize (Hlt z E). lia.
  - apply StronglySorted_inv in H as [Hal Hn].
    apply Forall_cons in Hn as [_ Hn].
    apply StronglySorted_inv in Hal as [Hl _].
    constructor; assumption.
Qed.

(** On identifiers that grow along the rows the last row holds the
    largest, and the program's rule agrees with the specification's. *)
Lemma new_id_increasing (ws : worksheet) :
  increasing_ids ws -> new_id ws = spec_new_id ws.
Proof.
  intros (l & Hids & Hpos & Hsorted).
  rewrite new_id_by_last_row. unfold spec_new_id. rewrite Hids.
  rewrite omap_numeric_ints by exact Hpos. rewrite last_map.
  destruct l as [|n l]; [reflexivity|].
  rewrite fold_max_is_last by exact Hsorted.
  assert (exists z, last (n :: l) = Some z /\ z = default n (last l)) as (z & Hz & ->).
  { destruct l as [|a l]; [exists n; auto|].
    change (last (n :: a :: l)) with (last (a :: l)).
    destruct (last (a :: l)) as [z|] eqn:E; [eauto|apply last_None in E; discriminate]. }
  rewrite Hz. simpl. rewrite numeric_id_int.
  rewrite Forall_forall in Hpos. apply last_Some_elem_of in Hz.
  specialize (Hpos _ Hz). destruct (Z.leb_spec 0 (default n (last l))); lia.
Qed.

Lemma add_records_files (filename : string) (headers : list string)
    (es : list (list string)) (w : world) (ws : worksheet) :
  files w !! filename = Some (File ws true) -> ws <> [] ->
  Forall (valid_entries headers) es ->
  Forall (fun e => e <> []) es ->
  (filename = USERS_FILE -> Forall (fun e => (2 <= List.length e)%nat) es) ->
  exists w',
    add_records filename headers es w = Return tt w' /\
    files w' = <[filename := File (ws ++ numbered filename (new_id ws) es) true]> (files w).
Proof.
  revert w ws. induction es as [|e es IH]; intros w ws Hf Hws Hv Hne Hu.
  - exists w. split; [reflexivity|]. simpl. rewrite app_nil_r.
    symmetry. apply insert_id, Hf.
  - apply Forall_cons in Hv as [Hve Hv]. apply Forall_cons in Hne as [Hnee Hne].
    destruct (add_record_files filename headers e w (File ws true) Hf eq_refl Hve Hnee)
      as (w1 & Hrun1 & Hfiles1).
    { intros E. specialize (Hu E). apply Forall_cons in Hu as [Hu _]. exact Hu. }
    cbn [sheet] in Hfiles1.
    destruct (IH w1 (ws ++ [stored_row filename (new_id ws) e])) as (w' & Hrun & Hfiles).
    + rewrite Hfiles1. apply lookup_insert_eq.
    + destruct ws; discriminate.
    + exact Hv.
    + exact Hne.
    + intros E. specialize (Hu E). apply Forall_cons in Hu as [_ Hu]. exact Hu.
    + exists w'. split.
      * unfold add_records. simpl. erewrite bind_Return by exact Hrun1. exact Hrun.
      * rewrite Hfiles, Hfiles1, insert_insert_eq.
        rewrite new_id_after_append
          by (auto; pose proof (new_id_positive ws); lia).
        rewrite <- app_assoc. reflexivity.
Qed.

Lemma numbered_ids (filename : string) (n : Z) (es : list (list string)) :
  map (fun r => nth 0 r CNone) (numbered filename n es)
  = map (fun i => CInt (n + Z.of_nat i)) (seq 0 (List.length es)).
Proof.
  revert n. induction es as [|e es IH]; intros n; [reflexivity|].
  simpl. rewrite stored_row_id, IH, Z.add_0_r. f_equal.
  rewrite <- seq_shift, map_map. apply map_ext. intros i. f_equal. lia.
Qed.

(** ** Finding and deleting a row *)

Lemma ids_data (h : row) (data : list row) : ids (h :: data) = map id_of data.
Proof. rewrite ids_tl. reflexivity. Qed.

Lemma locate_run (record_id : cell) (i : nat) (rows : list row) (w : world) :
  Forall (fun r => (1 <= List.length r)%nat) rows ->
  locate record_id i rows w = Return (first_with_id record_id i rows) w.
Proof.
  revert i. induction rows as [|r rows IH]; intros i H; simpl; [reflexivity|].
  apply Forall_cons in H as [Hr H].
  erewrite bind_Return by (apply (getitem_nth r 0 CNone); lia).
  destruct (cell_eqb (nth 0 r CNone) record_id); [reflexivity|].
  apply IH, H.
Qed.

Lemma locate_iter_rows (record_id : cell) (ws : worksheet) (w : world) :
  locate record_id 2 (iter_rows ws) w
  = Return (first_with_id record_id 2 (iter_rows ws)) w.
Proof. apply locate_run, iter_rows_wide, max_column_pos. Qed.

Lemma first_with_id_split (record_id : cell) (g : row -> row) (data : list row)
    (k i : nat) (r : row) :
  (forall x, id_of (g x) = id_of x) ->
  first_with_id record_id k (map g data) = Some (i, r) ->
  exists d1 d d2,
    data = d1 ++ d :: d2 /\ i = (k + List.length d1)%nat /\ id_of d = record_id /\
    Forall (fun x => id_of x <> record_id) d1 /\ r = g d.
Proof.
  intros Hg. revert k. induction data as [|x data IH]; intros k H; simpl in H.
  - discriminate.
  - fold (id_of (g x)) in H. rewrite Hg in H.
    destruct (cell_eqb (id_of x) record_id) eqn:E.
    + injection H as <- <-. apply cell_eqb_eq in E.
      exists [], x, data. simpl. repeat split; auto; lia.
    + apply cell_eqb_neq in E.
      destruct (IH _ H) as (d1 & d & d2 & -> & -> & Hd & Hd1 & ->).
      exists (x :: d1), d, d2. simpl. repeat split; auto; lia.
Qed.

Lemma first_with_id_none (record_id : cell) (k : nat) (rows : list row) :
  first_with_id record_id k rows = None ->
  Forall (fun x => id_of x <> record_id) rows.
Proof.
  revert k. induction rows as [|x rows IH]; intros k H; simpl in H; [constructor|].
  fold (id_of x) in H. destruct (cell_eqb (id_of x) record_id) eqn:E; [discriminate|].
  apply cell_eqb_neq in E. constructor; eauto.
Qed.

Lemma delete_rows_middle (d1 : list row) (d : row) (d2 : list row) :
  delete_rows (d1 ++ d :: d2) (S (List.length d1)) = d1 ++ d2.
Proof.
  induction d1 as [|x d1 IH]; [reflexivity|].
  simpl List.length. simpl app.
  change (delete_rows (x :: d1 ++ d :: d2) (S (S (List.length d1))))
    with (x :: delete_rows (d1 ++ d :: d2) (S (List.length d1))).
  rewrite IH. reflexivity.
Qed.

(** Where the row to delete or edit sits: the sheet around it. *)
Lemma first_with_id_sheet (record_id : cell) (ws : worksheet) (i : nat) (r : row) :
  first_with_id record_id 2 (iter_rows ws) = Some (i, r) ->
  exists h d1 d d2,
    ws = h :: d1 ++ d :: d2 /\ i = (2 + List.length d1)%nat /\ id_of d = record_id /\
    Forall (fun x => id_of x <> record_id) d1 /\ r = pad_row (max_column ws) d.
Proof.
  intros H. unfold iter_rows in H.
  apply first_with_id_split in H
    as (d1 & d & d2 & Hdata & -> & Hd & Hd1 & ->);
    [|intros x; apply pad_row_nth0, max_column_pos].
  destruct ws as [|h data]; [destruct d1; discriminate|].
  simpl in Hdata. subst data. exists h, d1, d, d2. auto.
Qed.

Lemma delete_record_files (filename : string) (record_id : cell) (w : world)
    (f : file) (i : nat) (r : row) :
  files w !! filename = Some f -> writable f = true ->
  first_with_id record_id 2 (iter_rows (sheet f)) = Some (i, r) ->
  exists w',
    delete_record filename (Some record_id) true w = Return tt w' /\
    files w' = <[filename := File (delete_rows (sheet f) i) true]> (files w).
Proof.
  intros Hf Hwr Hfind. unfold delete_record.
  erewrite try_bind_Return by (apply load_workbook_ok, Hf).
  erewrite try_bind_Return by apply locate_iter_rows.
  rewrite Hfind. apply (save_and_reload _ _ _ _ f); assumption.
Qed.

Lemma delete_record_absent (filename : string) (record_id : cell) (w : world) (f : file) :
  files w !! filename = Some f ->
  first_with_id record_id 2 (iter_rows (sheet f)) = None ->
  delete_record filename (Some record_id) true w
  = Return tt (add_shown w (showerror "Erro")).
Proof.
  intros Hf Hfind. unfold delete_record.
  erewrite try_bind_Return by (apply load_workbook_ok, Hf).
  erewrite try_bind_Return by apply locate_iter_rows.
  rewrite Hfind. reflexivity.
Qed.

(** With distinct identifiers, no listed row carries a deleted one. *)
Lemma delete_then_list (filename : string) (record_id : cell) (w : world) (f : file) :
  files w !! filename = Some f -> writable f = true ->
  NoDup (ids (sheet f)) ->
  forall r,
    In r (tree (world_of
      ((delete_record filename (Some record_id) true ;; load_data filename) w))) ->
    id_of r <> record_id.
Proof.
  intros Hf Hwr Hnd r Hr.
  destruct (first_with_id record_id 2 (iter_rows (sheet f))) as [[i r0]|] eqn:Hfind.
  - destruct (delete_record_files _ _ _ _ _ _ Hf Hwr Hfind) as (w' & Hrun & Hfiles).
    erewrite bind_Return in Hr by exact Hrun.
    apply load_data_tree in Hr as (f' & r1 & Hf' & Hin & _ & ->).
    rewrite Hfiles, lookup_insert_eq in Hf'. injection Hf' as <-. cbn [sheet] in Hin.
    unfold id_of. rewrite masked_nth0. fold (id_of r1).
    apply first_with_id_sheet in Hfind as (h & d1 & d & d2 & Hws & -> & Hd & Hd1 & _).
    rewrite Hws in Hin, Hnd.
    change (delete_rows (h :: d1 ++ d :: d2) (2 + List.length d1))
      with (h :: delete_rows (d1 ++ d :: d2) (S (List.length d1))) in Hin.
    rewrite delete_rows_middle in Hin.
    assert (In (id_of r1) (ids (h :: d1 ++ d2))) as Hid.
    { unfold ids. apply in_map_iff. exists r1. auto. }
    rewrite ids_data in Hid, Hnd. rewrite map_app in Hid, Hnd. simpl in Hnd.
    apply NoDup_app in Hnd as (_ & Hsep & Hnd2).
    apply NoDup_cons in Hnd2 as [Hfresh _].
    intros E. rewrite E in Hid. apply in_app_or in Hid as [Hid|Hid].
    + apply list_elem_of_In in Hid. apply (Hsep _ Hid).
      rewrite Hd. left.
    + apply Hfresh. rewrite Hd. apply list_elem_of_In, Hid.
  - erewrite bind_Return in Hr
      by (apply (delete_record_absent _ _ _ f); assumption).
    apply load_data_tree in Hr as (f' & r1 & Hf' & Hin & _ & ->).
    cbn [add_shown files] in Hf'. rewrite Hf in Hf'. injection Hf' as <-.
    unfold id_of. rewrite masked_nth0. fold (id_of r1).
    apply first_with_id_none in Hfind. rewrite Forall_forall in Hfind.
    apply Hfind, list_elem_of_In, Hin.
Qed.

(** ** Identifiers that grow along the rows *)

Lemma sorted_below_last (l : list Z) (z x : Z) :
  StronglySorted Z.lt l -> last l = Some z -> x ∈ l -> x <= z.
Proof.
  intros Hs Hl Hx. apply last_Some in Hl as [l' ->].
  apply elem_of_app in Hx as [Hx|Hx].
  - assert (x < z); [|lia].
    eapply (StronglySorted_app_1_elem_of Z.lt l' [z]); eauto. left.
  - apply list_elem_of_singleton in Hx. lia.
Qed.

Lemma new_id_of_ints (ws : worksheet) (l : list Z) :
  ids ws = map CInt l -> Forall (fun n => 0 <= n) l ->
  new_id ws = match last l with Some z => z + 1 | None => 1 end.
Proof.
  intros Hids Hpos. rewrite new_id_by_last_row, Hids, last_map.
  destruct (last l) as [z|] eqn:E; [|reflexivity]. simpl.
  rewrite numeric_id_int. apply last_Some_elem_of in E.
  rewrite Forall_forall in Hpos. specialize (Hpos _ E).
  destruct (Z.leb_spec 0 z); [reflexivity|lia].
Qed.

(** The new ID is none of the identifiers in the table. *)
Lemma new_id_fresh (ws : worksheet) :
  increasing_ids ws -> ~ In (CInt (new_id ws)) (ids ws).
Proof.
  intros (l & Hids & Hpos & Hsorted) Hin.
  rewrite (new_id_of_ints ws l Hids Hpos) in Hin. rewrite Hids in Hin.
  apply in_map_iff in Hin as (x & Hx & Hin). injection Hx as ->.
  apply list_elem_of_In in Hin.
  destruct (last l) as [z|] eqn:E.
  - pose proof (sorted_below_last l z _ Hsorted E Hin). lia.
  - apply last_None in E. subst l. inversion Hin.
Qed.

Lemma increasing_ids_delete (h : row) (d1 : list row) (d : row) (d2 : list row) :
  increasing_ids (h :: d1 ++ d :: d2) -> increasing_ids (h :: d1 ++ d2).
Proof.
  intros (l & Hids & Hpos & Hsorted). rewrite ids_data, map_app in Hids.
  symmetry in Hids. apply map_eq_app in Hids as (l1 & lx & -> & H1 & Hx).
  simpl in Hx. apply map_eq_cons in Hx as (x & l2 & -> & Hd & H2).
  exists (l1 ++ l2). rewrite ids_data, !map_app, H1, H2.
  split; [reflexivity|]. split.
  - apply Forall_app in Hpos as [Hp1 Hp2]. apply Forall_cons in Hp2 as [_ Hp2].
    apply Forall_app. auto.
  - apply StronglySorted_app in Hsorted as (Hcross & Hs1 & Hs2).
    apply StronglySorted_app. split; [|split].
    + intros x1 x2 Hx1 Hx2. apply Hcross; [exact Hx1|]. right. exact Hx2.
    + exact Hs1.
    + apply StronglySorted_inv in Hs2 as [Hs2 _]. exact Hs2.
Qed.

(** Deleting a row that is not the last leaves the last identifier, so
    the next new ID lies above the deleted one. *)
Lemma new_id_after_inner_delete (h : row) (d1 : list row) (d : row) (d2 : list row) :
  increasing_ids (h :: d1 ++ d :: d2) -> d2 <> [] ->
  CInt (new_id (h :: d1 ++ d2)) <> id_of d.
Proof.
  intros Hinc Hd2.
  destruct Hinc as (l & Hids & Hpos & Hsorted). rewrite ids_data, map_app in Hids.
  symmetry in Hids. apply map_eq_app in Hids as (l1 & lx & -> & H1 & Hx).
  simpl in Hx. apply map_eq_cons in Hx as (x & l2 & -> & Hd & H2).
  rewrite (new_id_of_ints (h :: d1 ++ d2) (l1 ++ l2)); cycle 1.
  { rewrite ids_data, !map_app, H1, H2. reflexivity. }
  { apply Forall_app in Hpos as [Hp1 Hp2]. apply Forall_cons in Hp2 as [_ Hp2].
    apply Forall_app. auto. }
  destruct l2 as [|a l2]; [destruct d2; [congruence|discriminate]|].
  rewrite last_app_cons.
  destruct (last (a :: l2)) as [z|] eqn:E; [|apply last_None in E; discriminate].
  rewrite <- Hd. intros [= Heq].
  apply StronglySorted_app_1_r in Hsorted.
  apply StronglySorted_inv in Hsorted as [_ Hlt].
  apply last_Some_elem_of in E. rewrite Forall_forall in Hlt.
  specialize (Hlt _ E). lia.
Qed.

Lemma delete_then_add (filename : string) (headers e : list string)
    (record_id : cell) (w : world) (f : file) (i : nat) (r0 : row) :
  files w !! filename = Some f -> writable f = true ->
  increasing_ids (sheet f) ->
  first_with_id record_id 2 (iter_rows (sheet f)) = Some (i, r0) ->
  valid_entries headers e -> e <> [] ->
  (filename = USERS_FILE -> (2 <= List.length e)%nat) ->
  let ws' := delete_rows (sheet f) i in
  exists w',
    (delete_record filename (Some record_id) true ;;
     add_record filename headers [e]) w = Return tt w' /\
    sheet_of w' filename = Some (ws' ++ [stored_row filename (new_id ws') e]) /\
    ~ In (CInt (new_id ws')) (ids ws') /\
    (last (ids (sheet f)) <> Some record_id -> CInt (new_id ws') <> record_id).
Proof.
  intros Hf Hwr Hinc Hfind Hv Hne Hu ws'.
  destruct (delete_record_files _ _ _ _ _ _ Hf Hwr Hfind) as (w1 & Hrun1 & Hfiles1).
  fold ws' in Hfiles1.
  assert (files w1 !! filename = Some (File ws' true)) as Hf1
    by (rewrite Hfiles1; apply lookup_insert_eq).
  destruct (add_record_files filename headers e w1 _ Hf1 eq_refl Hv Hne Hu)
    as (w' & Hrun & Hfiles).
  cbn [sheet] in Hfiles.
  apply first_with_id_sheet in Hfind as (h & d1 & d & d2 & Hws & Hi & Hd & _ & _).
  assert (ws' = h :: d1 ++ d2) as Hws'.
  { unfold ws'. rewrite Hws, Hi.
    change (delete_rows (h :: d1 ++ d :: d2) (2 + List.length d1))
      with (h :: delete_rows (d1 ++ d :: d2) (S (List.length d1))).
    rewrite delete_rows_middle. reflexivity. }
  rewrite Hws in Hinc.
  exists w'. split; [|split; [|split]].
  - erewrite bind_Return by exact Hrun1. exact Hrun.
  - unfold sheet_of. rewrite Hfiles, lookup_insert_eq. reflexivity.
  - rewrite Hws'. apply new_id_fresh. eapply increasing_ids_delete, Hinc.
  - intros Hlast. rewrite Hws', <- Hd. apply new_id_after_inner_delete; [exact Hinc|].
    intros ->. apply Hlast. rewrite Hws, ids_data, map_app. simpl map.
    rewrite last_snoc, Hd. reflexivity.
Qed.

(** C5 (amended). After a delete in a table whose identifiers are
    distinct, the list holds no row with the deleted identifier.
    Identifiers are not retired: the next create takes one more than the
    identifier of the last row left, which, in a table whose identifiers
    grow along the rows, no remaining row has, and which differs from the
    deleted identifier whenever the deleted row was not the last one. *)
Theorem delete_record_then_list_and_add (filename : string) (record_id : cell)
    (w : world) (f : file) :
  files w !! filename = Some f -> writable f = true ->
  (NoDup (ids (sheet f)) ->
   forall r,
     In r (tree (world_of
       ((delete_record filename (Some record_id) true ;; load_data filename) w))) ->
     id_of r <> record_id) /\
  (forall headers e i r0,
     increasing_ids (sheet f) ->
     first_with_id record_id 2 (iter_rows (sheet f)) = Some (i, r0) ->
     valid_entries headers e -> e <> [] ->
     (filename = USERS_FILE -> (2 <= List.length e)%nat) ->
     let ws' := delete_rows (sheet f) i in
     exists w',
       (delete_record filename (Some record_id) true ;;
        add_record filename headers [e]) w = Return tt w' /\
       sheet_of w' filename = Some (ws' ++ [stored_row filename (new_id ws') e]) /\
       ~ In (CInt (new_id ws')) (ids ws') /\
       (last (ids (sheet f)) <> Some record_id -> CInt (new_id ws') <> record_id)).
Proof.
  intros Hf Hwr. split.
  - intros Hnd. apply (delete_then_list _ _ _ f); assumption.
  - intros headers e i r0 Hinc Hfind Hv Hne Hu.
    eapply delete_then_add; eassumption.
Qed.

(** C2 (amended). Where the identifier of the last data row is empty,
    a number or a text in the ASCII range, a create writes one row whose
    identifier is the new ID; the new ID is one more than the identifier
    of the last data row when that reads as a number, and 1 when there
    is no data row or its identifier is empty or not a number. Where the
    identifiers grow along the rows this is one more than the largest;
    and creates into a table holding only its header are numbered 1, 2,
    3, ... in order. *)
Theorem add_record_numbers_after_last_row :
  (forall filename headers e w f,
     files w !! filename = Some f -> writable f = true ->
     ascii_last_id (sheet f) = true ->
     valid_entries headers e -> e <> [] ->
     (filename = USERS_FILE -> (2 <= List.length e)%nat) ->
     exists w',
       add_record filename headers [e] w = Return tt w' /\
       sheet_of w' filename
       = Some (sheet f ++ [stored_row filename (new_id (sheet f)) e]) /\
       id_of (stored_row filename (new_id (sheet f)) e) = CInt (new_id (sheet f))) /\
  (forall ws,
     ascii_last_id ws = true ->
     new_id ws = match last (ids ws) with
                 | Some v => match numeric_id v with Some n => n + 1 | None => 1 end
                 | None => 1
                 end) /\
  (forall ws, increasing_ids ws -> new_id ws = spec_new_id ws) /\
  (forall filename headers es w h,
     files w !! filename = Some (File [h] true) ->
     Forall (valid_entries headers) es ->
     Forall (fun e => e <> []) es ->
     (filename = USERS_FILE -> Forall (fun e => (2 <= List.length e)%nat) es) ->
     exists w',
       add_records filename headers es w = Return tt w' /\
       sheet_of w' filename = Some (h :: numbered filename 1 es) /\
       ids (h :: numbered filename 1 es)
       = map (fun i => CInt (1 + Z.of_nat i)) (seq 0 (List.length es))).
Proof.
  split; [|split; [|split]].
  - intros filename headers e w f Hf Hwr _ Hv Hne Hu.
    destruct (add_record_files filename headers e w f Hf Hwr Hv Hne Hu)
      as (w' & Hrun & Hfiles).
    exists w'. split; [exact Hrun|]. split.
    + unfold sheet_of. rewrite Hfiles, lookup_insert_eq. reflexivity.
    + apply stored_row_id.
  - intros ws _. apply new_id_by_last_row.
  - apply new_id_increasing.
  - intros filename headers es w h Hf Hv Hne Hu.
    destruct (add_records_files filename headers es w [h] Hf ltac:(discriminate) Hv Hne Hu)
      as (w' & Hrun & Hfiles).
    exists w'. split; [exact Hrun|]. split.
    + unfold sheet_of. rewrite Hfiles, lookup_insert_eq. reflexivity.
    + rewrite ids_data. apply numbered_ids.
Qed.

(** ** Editing *)

Lemma hashed_updated_row (filename : string) (record_id : cell) (e : list string)
    (w : world) :
  (filename = USERS_FILE -> (2 <= List.length e)%nat) ->
  (if String.eqb filename USERS_FILE
   then let* r1 := getitem e 1 in
        if negb (String.eqb r1 MASK)
        then setitem (record_id :: texts e) 2 (CStr (hash_password r1))
        else ret (record_id :: texts e)
   else ret (record_id :: texts e)) w
  = Return (updated_row filename record_id e) w.
Proof.
  intros H. unfold updated_row.
  destruct (String.eqb_spec filename USERS_FILE) as [E|E]; [|reflexivity].
  specialize (H E). destruct e as [|e0 [|e1 e]]; simpl in H; try lia.
  unfold bind, getitem. simpl.
  destruct (negb (String.eqb e1 MASK)); reflexivity.
Qed.

Lemma edit_record_files (filename : string) (headers e : list string)
    (record_id : cell) (w : world) (f : file) (i : nat) (r0 : row) :
  files w !! filename = Some f -> writable f = true ->
  first_with_id record_id 2 (iter_rows (sheet f)) = Some (i, r0) ->
  valid_entries headers e -> e <> [] ->
  (filename = USERS_FILE -> (2 <= List.length e)%nat) ->
  exists w',
    edit_record filename headers (Some record_id) [e] w = Return tt w' /\
    files w' = <[filename := File (write_row (sheet f) i (updated_row filename record_id e)) true]>
                 (files w).
Proof.
  intros Hf Hwr Hfind Hv Hne Hu. unfold edit_record.
  erewrite bind_Return by (apply load_workbook_ok, Hf).
  erewrite bind_Return by apply locate_iter_rows.
  rewrite Hfind.
  assert (truthy r0 = true) as ->.
  { apply first_with_id_sheet in Hfind as (h & d1 & d & d2 & _ & _ & _ & _ & ->).
    pose proof (pad_row_length (max_column (sheet f)) d) as Hlen.
    pose proof (max_column_pos (sheet f)).
    destruct (pad_row (max_column (sheet f)) d); [simpl in Hlen; lia|reflexivity]. }
  cbn [negb]. erewrite bind_Return by (apply RecordDialog_valid, Hv).
  destruct e as [|e0 e]; [congruence|]. cbn [truthy].
  erewrite try_bind_Return by (apply hashed_updated_row, Hu).
  apply (save_and_reload _ _ _ _ f); assumption.
Qed.

(** C3 (what the program does). Editing a user writes the text of the
    password field as it is into the second column -- the mask of eight
    asterisks included, which so replaces the stored hash -- and the hash
    of the chosen permission into the third. *)
Theorem edit_record_users_overwrites (w : world) (f : file) (record_id : cell)
    (i : nat) (r0 : row) (senha perm : string) :
  files w !! USERS_FILE = Some f -> writable f = true ->
  first_with_id record_id 2 (iter_rows (sheet f)) = Some (i, r0) ->
  senha <> "" -> perm <> "" -> perm <> MASK ->
  sheet_of (world_of (edit_record USERS_FILE USERS_HEADERS (Some record_id)
                                  [[senha; perm]] w)) USERS_FILE
  = Some (write_row (sheet f) i [record_id; CStr senha; CStr (hash_password perm)]).
Proof.
  intros Hf Hwr Hfind Hs Hp Hm.
  assert (valid_entries USERS_HEADERS [senha; perm]) as Hv.
  { split; [reflexivity|]. repeat constructor; assumption. }
  destruct (edit_record_files USERS_FILE USERS_HEADERS [senha; perm] record_id w f i r0
              Hf Hwr Hfind Hv ltac:(discriminate) ltac:(intros _; simpl; lia))
    as (w' & Hrun & Hfiles).
  rewrite Hrun. unfold sheet_of. cbn [world_of]. rewrite Hfiles, lookup_insert_eq.
  cbn [fmap option_fmap option_map sheet]. do 2 f_equal.
  unfold updated_row. simpl.
  destruct (String.eqb_spec perm MASK); [contradiction|reflexivity].
Qed.

(** * The statements at given inputs *)

Example fresh_users : files fresh_world !! USERS_FILE = Some seeded_users.
Proof. vm_compute. reflexivity. Qed.

Example fresh_log :
  files fresh_world !! LOG_FILE = Some (File [texts LOG_HEADERS] true).
Proof. vm_compute. reflexivity. Qed.

Example two_visitors_file :
  files two_visitors !! VISITORS_FILE = Some (File two_visitors_sheet true).
Proof. vm_compute. reflexivity. Qed.

(** A Salvar stopped at an empty field leaves the fields read so far in
    the result; Cancelar after it still adds them as a record. *)
Example cancel_after_rejected_save :
  sheet_of (world_of (add_record VISITORS_FILE VISITORS_HEADERS
                        [["Ana"; ""]] fresh_world)) VISITORS_FILE
  = Some [texts VISITORS_HEADERS; [CInt 1; CStr "Ana"]].
Proof. vm_compute. reflexivity. Qed.

(** After a row whose identifier is a text the numbering starts again. *)
Example new_id_after_text_row :
  new_id [texts VISITORS_HEADERS; [CInt 7; CStr "Ana"]; [CStr "x"; CStr "Rui"]] = 1
  /\ spec_new_id [texts VISITORS_HEADERS; [CInt 7; CStr "Ana"]; [CStr "x"; CStr "Rui"]] = 8.
Proof. split; vm_compute; reflexivity. Qed.

(** C1 at the first start: the password "s3cret" is stored as typed. *)
Lemma add_record_users_keeps_plaintext_witness :
  sheet_of (world_of (add_record USERS_FILE USERS_HEADERS
                        [["s3cret"; "leitura"]] fresh_world)) USERS_FILE
  = Some [ texts USERS_HEADERS; admin_row;
           [CInt 1; CStr "s3cret"; CStr (hash_password "leitura")] ]
  /\ CStr "s3cret" <> CStr (hash_password "s3cret").
Proof.
  split.
  - apply (add_record_users_keeps_plaintext fresh_world seeded_users "s3cret" "leitura").
    + vm_compute. reflexivity.
    + reflexivity.
    + discriminate.
    + discriminate.
  - vm_compute. discriminate.
Defined.

(** C2, the claim as worded fails: after the identifiers 5 and 3 the
    program assigns 4, where the largest plus one is 6. *)
Lemma new_id_below_maximum :
  sheet_of (world_of (add_record VISITORS_FILE VISITORS_HEADERS
                        [repeat "c" 9] unordered_world)) VISITORS_FILE
  = Some (unordered_sheet ++ [CInt 4 :: texts (repeat "c" 9)])
  /\ spec_new_id unordered_sheet = 6.
Proof. split; vm_compute; reflexivity. Qed.

(** C2 at the first start: three visitors get 1, 2 and 3; and after
    a last row whose identifier is the text "007" the new ID is 8. *)
Lemma add_record_numbers_after_last_row_witness :
  (exists w',
     add_records VISITORS_FILE VISITORS_HEADERS
       [repeat "a" 9; repeat "b" 9; repeat "c" 9] fresh_world = Return tt w' /\
     sheet_of w' VISITORS_FILE
     = Some (texts VISITORS_HEADERS ::
             numbered VISITORS_FILE 1 [repeat "a" 9; repeat "b" 9; repeat "c" 9]) /\
     ids (texts VISITORS_HEADERS ::
          numbered VISITORS_FILE 1 [repeat "a" 9; repeat "b" 9; repeat "c" 9])
     = [CInt 1; CInt 2; CInt 3]) /\
  (exists w',
     add_record VISITORS_FILE VISITORS_HEADERS [repeat "c" 9] text_id_world
     = Return tt w' /\
     sheet_of w' VISITORS_FILE
     = Some (text_id_sheet ++ [CInt 8 :: texts (repeat "c" 9)]) /\
     id_of (CInt 8 :: texts (repeat "c" 9)) = CInt 8).
Proof.
  split.
  - apply (proj2 (proj2 (proj2 add_record_numbers_after_last_row))
             VISITORS_FILE VISITORS_HEADERS
             [repeat "a" 9; repeat "b" 9; repeat "c" 9] fresh_world
             (texts VISITORS_HEADERS)).
    + vm_compute. reflexivity.
    + repeat constructor; discriminate.
    + repeat constructor; discriminate.
    + discriminate.
  - apply (proj1 add_record_numbers_after_last_row
             VISITORS_FILE VISITORS_HEADERS (repeat "c" 9) text_id_world
             (File text_id_sheet true)).
    + vm_compute. reflexivity.
    + reflexivity.
    + reflexivity.
    + split; [reflexivity|]. repeat constructor; discriminate.
    + discriminate.
    + discriminate.
Defined.

(** C3 at the first start: the administrator is edited with the mask
    left in the password field. *)
Lemma edit_record_users_overwrites_witness :
  sheet_of (world_of (edit_record USERS_FILE USERS_HEADERS (Some (CStr "admin"))
                        [[MASK; "admin"]] fresh_world)) USERS_FILE
  = Some [ texts USERS_HEADERS;
           [CStr "admin"; CStr MASK; CStr (hash_password "admin")] ].
Proof.
  apply (edit_record_users_overwrites fresh_world seeded_users (CStr "admin")
           2 admin_row MASK "admin").
  - vm_compute. reflexivity.
  - reflexivity.
  - vm_compute. reflexivity.
  - discriminate.
  - discriminate.
  - discriminate.
Defined.

(** After that edit the administrator's own password no longer logs in,
    where before it did. *)
Example login_lost_after_masked_edit :
  (exists w', attempt_login "admin" "admin" a_time fresh_world
              = Return (Some ("admin", CStr "admin")) w') /\
  (exists w',
     attempt_login "admin" "admin" a_time
       (world_of (edit_record USERS_FILE USERS_HEADERS (Some (CStr "admin"))
                    [[MASK; "admin"]] fresh_world))
     = Return None w' /\ shown w' = [showerror "Erro de Login"]).
Proof.
  split.
  - exists (logged fresh_world [texts LOG_HEADERS] (login_entry "admin" a_time)).
    vm_compute. reflexivity.
  - exists (add_shown
              (world_of (edit_record USERS_FILE USERS_HEADERS (Some (CStr "admin"))
                           [[MASK; "admin"]] fresh_world))
              (showerror "Erro de Login")).
    split; vm_compute; reflexivity.
Qed.



(** C5, the claim as worded fails: the identifier 2 is deleted and the
    next visitor is given 2 again. *)
Lemma deleted_id_assigned_again :
  sheet_of two_visitors VISITORS_FILE = Some two_visitors_sheet /\
  sheet_of (world_of
      ((delete_record VISITORS_FILE (Some (CInt 2)) true ;;
        add_record VISITORS_FILE VISITORS_HEADERS [repeat "c" 9])
         two_visitors)) VISITORS_FILE
  = Some [ texts VISITORS_HEADERS;
           CInt 1 :: texts (repeat "a" 9);
           CInt 2 :: texts (repeat "c" 9) ].
Proof. split; vm_compute; reflexivity. Qed.

(** C5 on the two visitors: visitor 1 is deleted; the list then holds
    visitor 2 only, and the next visitor is given 3. *)
Lemma delete_record_then_list_and_add_witness :
  (NoDup (ids two_visitors_sheet) /\
   In (CInt 2 :: texts (repeat "b" 9))
      (tree (world_of
         ((delete_record VISITORS_FILE (Some (CInt 1)) true ;;
           load_data VISITORS_FILE) two_visitors))) /\
   id_of (CInt 2 :: texts (repeat "b" 9)) <> CInt 1) /\
  (exists w',
     (delete_record VISITORS_FILE (Some (CInt 1)) true ;;
      add_record VISITORS_FILE VISITORS_HEADERS [repeat "c" 9]) two_visitors
     = Return tt w' /\
     sheet_of w' VISITORS_FILE
     = Some [ texts VISITORS_HEADERS;
              CInt 2 :: texts (repeat "b" 9);
              CInt 3 :: texts (repeat "c" 9) ]).
Proof.
  pose proof (delete_record_then_list_and_add VISITORS_FILE (CInt 1) two_visitors
                (File two_visitors_sheet true) two_visitors_file eq_refl)
    as [Hlist Hadd].
  assert (NoDup (ids two_visitors_sheet)) as Hnd.
  { change (NoDup [CInt 1; CInt 2]).
    apply NoDup_cons. split; [|apply NoDup_singleton].
    intros H. apply list_elem_of_singleton in H. discriminate. }
  assert (In (CInt 2 :: texts (repeat "b" 9))
            (tree (world_of
               ((delete_record VISITORS_FILE (Some (CInt 1)) true ;;
                 load_data VISITORS_FILE) two_visitors)))) as Hin.
  { vm_compute. left. reflexivity. }
  split; [split; [exact Hnd|split; [exact Hin|exact (Hlist Hnd _ Hin)]]|].
  destruct (Hadd VISITORS_HEADERS (repeat "c" 9) 2%nat
              (CInt 1 :: texts (repeat "a" 9)))
    as (w' & Hrun & Hsheet & _).
  - exists [1; 2]. split; [vm_compute; reflexivity|].
    split; repeat constructor; lia.
  - vm_compute. reflexivity.
  - split; [reflexivity|]. repeat constructor; discriminate.
  - discriminate.
  - discriminate.
  - exists w'. split; [exact Hrun|]. rewrite Hsheet. vm_compute. reflexivity.
Defined.

Lemma load_data_users_masked_witness :
  load_data USERS_FILE fresh_world
  = Return tt (set_tree fresh_world [[CStr "admin"; CStr MASK; CStr "admin"]]).
Proof.
  refine (eq_trans (proj2 (load_data_users_masked fresh_world) seeded_users _ _) _).
  - vm_compute. reflexivity.
  - vm_compute. lia.
  - vm_compute. reflexivity.
Defined.

(** C7, the claim as worded fails: without a log file the login
    succeeds and no entry is recorded anywhere. *)
Lemma login_succeeds_unrecorded :
  exists w',
    attempt_login "admin" "admin" a_time world_without_log
    = Return (Some ("admin", CStr "admin")) w' /\
    files w' = files world_without_log /\
    files w' !! LOG_FILE = None.
Proof.
  exists (add_shown world_without_log (showwarning "Log Erro")).
  repeat split; vm_compute; reflexivity.
Qed.

Lemma attempt_login_first_match_witness :
  attempt_login "admin" "admin" a_time fresh_world
  = Return (Some ("admin", CStr "admin"))
           (logged fresh_world [texts LOG_HEADERS] (login_entry "admin" a_time)).
Proof.
  pose proof (attempt_login_first_match "admin" "admin" a_time fresh_world
                seeded_users fresh_users) as H.
  assert (List.find (login_match "admin" "admin") (iter_rows (sheet seeded_users))
          = Some admin_row) as E by (vm_compute; reflexivity).
  rewrite E in H.
  exact (proj1 (H ltac:(vm_compute; lia)) [texts LOG_HEADERS] fresh_log).
Defined.

(** C8, the claim as worded fails: a log file that cannot be written
    makes [log_action] raise, and the logout and the login that asked
    for the entry end there. *)
Lemma log_write_refusal_escapes :
  log_action "admin" "Logout" a_time world_with_locked_log
  = Raise PermissionError world_with_locked_log /\
  logout "admin" a_time world_with_locked_log
  = Raise PermissionError world_with_locked_log /\
  attempt_login "admin" "admin" a_time world_with_locked_log
  = Raise PermissionError world_with_locked_log.
Proof. repeat split; vm_compute; reflexivity. Qed.

Lemma log_action_missing_file_warns_witness :
  logout "admin" a_time world_without_log
  = Return tt (add_shown world_without_log (showwarning "Log Erro")).
Proof.
  apply (log_action_missing_file_warns "admin" "Logout" a_time world_without_log).
  vm_compute. reflexivity.
Defined.

Lemma criar_arquivos_idempotent_witness :
  criar_arquivos_se_nao_existir fresh_world = Return tt fresh_world.
Proof.
  destruct (criar_arquivos_idempotent empty_world) as (w1 & H1 & H2 & _).
  unfold fresh_world. rewrite H1. exact H2.
Defined.

(** C10 on a row that has no text containing "no": the query "no" finds
    it through its empty cells. *)
Lemma filter_tree_finds_none_witness :
  In (pad_row 10 [CInt 1; CStr "Ana"])
     (tree (world_of (filter_tree VISITORS_FILE "no" sparse_world)))
  /\ existsb (fun c => negb (is_none c) &&
                       Text.contains "no" (Text.lower (str c)))
             (pad_row 10 [CInt 1; CStr "Ana"]) = false.
Proof.
  split; [|vm_compute; reflexivity].
  apply (filter_tree_finds_none VISITORS_FILE "no" sparse_world
           (File sparse_sheet true) (pad_row 10 [CInt 1; CStr "Ana"])).
  - vm_compute. reflexivity.
  - discriminate.
  - vm_compute. left. reflexivity.
  - vm_compute. do 2 right. left. reflexivity.
  - vm_compute. reflexivity.
Defined.
(** * Further properties *)

(** ** The dialog only shows messages *)

Lemma on_ok_fields_frame (filename : string) (initial_data : option row)
    (headers values result : list string) (w : world) :
  exists rc w1,
    on_ok_fields filename initial_data headers values result w = Return rc w1 /\
    files w1 = files w /\ tree w1 = tree w.
Proof.
  revert values result. induction headers as [|h headers IH]; intros values result; simpl.
  - eexists _, w. split; [reflexivity|]. auto.
  - destruct (String.eqb (hd "" values) "" &&
              negb (is_editing_user_password filename h initial_data (hd "" values))).
    + eexists _, _. split; [reflexivity|]. auto.
    + apply IH.
Qed.

Lemma wait_window_frame (filename : string) (initial_data : option row)
    (headers : list string) (clicks : list (list string))
    (result : option (list string)) (w : world) :
  exists res w1,
    wait_window filename initial_data headers clicks result w = Return res w1 /\
    files w1 = files w /\ tree w1 = tree w.
Proof.
  revert result w. induction clicks as [|values clicks IH]; intros result w; simpl.
  - eexists _, w. split; [reflexivity|]. auto.
  - destruct (on_ok_fields_frame filename initial_data headers values [] w)
      as ([r closed] & w1 & Hrun & Hf & Ht).
    unfold on_ok. erewrite bind_Return by exact Hrun. simpl.
    destruct closed.
    + eexists _, w1. split; [reflexivity|]. auto.
    + destruct (IH (Some r) w1) as (res & w2 & Hrun2 & Hf2 & Ht2).
      exists res, w2. split; [exact Hrun2|]. split; congruence.
Qed.

Lemma RecordDialog_frame (headers : list string) (initial_data : option row)
    (filename : string) (clicks : list (list string)) (w : world) :
  exists res w1,
    RecordDialog headers initial_data filename clicks w = Return res w1 /\
    files w1 = files w /\ tree w1 = tree w.
Proof. unfold RecordDialog. apply wait_window_frame. Qed.

(** ** What a data operation can do to the files *)

Lemma wrote_refl (filename : string) (P : worksheet -> worksheet -> Prop) (w w' : world) :
  files w' = files w -> wrote filename P w w'.
Proof. intros H. left. exact H. Qed.

Lemma wrote_shift (filename : string) (P : worksheet -> worksheet -> Prop)
    (w0 w w' : world) :
  files w = files w0 -> wrote filename P w w' -> wrote filename P w0 w'.
Proof.
  intros H0 [H|(fl & ws' & Hf & Hwr & HP & H)].
  - left. congruence.
  - right. exists fl, ws'. rewrite <- H0. auto.
Qed.

(** [try: ...; wb.save(name); self.load_data() except Exception: showerror]
    returns, and either the file holds the saved sheet or nothing changed. *)
Lemma save_reload_wrote (filename title : string) (P : worksheet -> worksheet -> Prop)
    (ws' : worksheet) (w : world) (fl : file) :
  files w !! filename = Some fl -> P (sheet fl) ws' ->
  exists w',
    try_except (save filename ws' ;; load_data filename)
               (on_Exception (fun _ => show (showerror title))) w = Return tt w' /\
    wrote filename P w w'.
Proof.
  intros Hf HP. unfold try_except, bind, save. rewrite Hf.
  destruct (writable fl) eqn:Hwr.
  - pose proof (load_data_files filename
                  (set_files w (<[filename := File ws' true]> (files w)))) as H.
    destruct (load_data filename _) as [[] w'|e w'].
    + exists w'. split; [reflexivity|]. right. exists fl, ws'. auto.
    + eexists. split; [reflexivity|]. right. exists fl, ws'. auto.
  - eexists. split; [reflexivity|]. left. reflexivity.
Qed.

Lemma try_Raise (title : string) (body : M unit) (w w' : world) (e : exn) :
  body w = Raise e w' ->
  try_except body (on_Exception (fun _ => show (showerror title))) w
  = Return tt (add_shown w' (showerror title)).
Proof. intros H. unfold try_except. rewrite H. reflexivity. Qed.

Lemma try_bind_Raise {A B} (m : M A) (k : A -> M B) (h : exn -> option (M B))
    (w w' : world) (e : exn) :
  m w = Raise e w' ->
  try_except (bind m k) h w = try_except (fun _ => Raise e w') h w.
Proof. intros H. unfold try_except, bind. rewrite H. reflexivity. Qed.

Lemma load_workbook_missing (filename : string) (w : world) :
  files w !! filename = None -> load_workbook filename w = Raise FileNotFoundError w.
Proof. intros H. unfold load_workbook. rewrite H. reflexivity. Qed.

(** The row to add: it starts with the new ID whatever the file. *)
Lemma new_row_outcome (filename : string) (id : Z) (result : list string) (w : world) :
  (exists r, (if String.eqb filename USERS_FILE
              then let* pw := getitem (CInt id :: texts result) 2 in
                   let* h := hash_value pw in
                   setitem (CInt id :: texts result) 2 h
              else ret (CInt id :: texts result)) w = Return r w /\
             id_of r = CInt id) \/
  (exists e, (if String.eqb filename USERS_FILE
              then let* pw := getitem (CInt id :: texts result) 2 in
                   let* h := hash_value pw in
                   setitem (CInt id :: texts result) 2 h
              else ret (CInt id :: texts result)) w = Raise e w).
Proof.
  destruct (String.eqb filename USERS_FILE).
  - destruct result as [|r0 [|r1 result]].
    + right. exists IndexError. reflexivity.
    + right. exists IndexError. reflexivity.
    + left. eexists. split; reflexivity.
  - left. eexists. split; reflexivity.
Qed.

Lemma add_record_outcome (filename : string) (headers : list string)
    (clicks : list (list string)) (w : world) :
  exists w',
    add_record filename headers clicks w = Return tt w' /\
    wrote filename row_added w w'.
Proof.
  unfold add_record.
  destruct (RecordDialog_frame headers None filename clicks w)
    as (res & w1 & Hrun & Hf1 & _).
  erewrite bind_Return by exact Hrun.
  destruct res as [result|]; [|exists w1; split; [reflexivity|left; exact Hf1]].
  destruct (truthy result); [|exists w1; split; [reflexivity|left; exact Hf1]].
  destruct (files w1 !! filename) as [fl|] eqn:Hfl.
  - erewrite try_bind_Return by (apply load_workbook_ok, Hfl).
    destruct (new_row_outcome filename (new_id (sheet fl)) result w1)
      as [(r & Hr & Hid)|(e & He)].
    + erewrite try_bind_Return by exact Hr.
      destruct (save_reload_wrote filename "Erro ao Salvar" row_added
                  (append (sheet fl) r) w1 fl Hfl) as (w' & Hrun' & Hw').
      { exists r. split; [reflexivity|exact Hid]. }
      exists w'. split; [exact Hrun'|]. eapply wrote_shift; eauto.
    + erewrite try_bind_Raise by exact He.
      eexists. split; [reflexivity|]. left. exact Hf1.
  - erewrite try_bind_Raise by (apply load_workbook_missing, Hfl).
    eexists. split; [reflexivity|]. left. exact Hf1.
Qed.

Lemma delete_record_outcome (filename : string) (selection : option cell)
    (confirm : bool) (w : world) :
  exists w',
    delete_record filename selection confirm w = Return tt w' /\
    match selection with
    | Some record_id => wrote filename (row_deleted record_id) w w'
    | None => files w' = files w
    end.
Proof.
  unfold delete_record. destruct selection as [record_id|].
  2:{ eexists. split; reflexivity. }
  destruct confirm; [|exists w; split; [reflexivity|left; reflexivity]].
  destruct (files w !! filename) as [fl|] eqn:Hfl.
  - erewrite try_bind_Return by (apply load_workbook_ok, Hfl).
    erewrite try_bind_Return by apply locate_iter_rows.
    destruct (first_with_id record_id 2 (iter_rows (sheet fl))) as [[i r0]|] eqn:Hfind.
    + apply (save_reload_wrote _ _ _ _ _ fl Hfl). exists i, r0. auto.
    + eexists. split; [reflexivity|]. left. reflexivity.
  - erewrite try_bind_Raise by (apply load_workbook_missing, Hfl).
    eexists. split; [reflexivity|]. left. reflexivity.
Qed.

(** The values to write over the row start with the identifier. *)
Lemma updated_row_outcome (filename : string) (record_id : cell)
    (result : list string) (w : world) :
  (exists u, (if String.eqb filename USERS_FILE
              then let* r1 := getitem result 1 in
                   if negb (String.eqb r1 MASK)
                   then setitem (record_id :: texts result) 2 (CStr (hash_password r1))
                   else ret (record_id :: texts result)
              else ret (record_id :: texts result)) w = Return (record_id :: u) w) \/
  (exists e, (if String.eqb filename USERS_FILE
              then let* r1 := getitem result 1 in
                   if negb (String.eqb r1 MASK)
                   then setitem (record_id :: texts result) 2 (CStr (hash_password r1))
                   else ret (record_id :: texts result)
              else ret (record_id :: texts result)) w = Raise e w).
Proof.
  destruct (String.eqb filename USERS_FILE).
  - destruct result as [|r0 [|r1 result]].
    + right. exists IndexError. reflexivity.
    + right. exists IndexError. reflexivity.
    + left. unfold bind, getitem. simpl.
      destruct (negb (String.eqb r1 MASK)); eexists; reflexivity.
  - left. eexists. reflexivity.
Qed.

(** Editing may raise (the file is read outside the [try]); in every
    outcome the files are as described. *)
Lemma edit_record_outcome (filename : string) (headers : list string)
    (selection : option cell) (clicks : list (list string)) (w : world) :
  match selection with
  | Some record_id =>
      wrote filename (row_written record_id) w
            (world_of (edit_record filename headers selection clicks w))
  | None => files (world_of (edit_record filename headers selection clicks w)) = files w
  end.
Proof.
  unfold edit_record. destruct selection as [record_id|]; [|reflexivity].
  destruct (files w !! filename) as [fl|] eqn:Hfl.
  2:{ erewrite bind_Raise by (apply load_workbook_missing, Hfl). left. reflexivity. }
  erewrite bind_Return by (apply load_workbook_ok, Hfl).
  erewrite bind_Return by apply locate_iter_rows.
  destruct (first_with_id record_id 2 (iter_rows (sheet fl))) as [[i r0]|] eqn:Hfind;
    [|left; reflexivity].
  destruct (negb (truthy r0)); [left; reflexivity|].
  destruct (RecordDialog_frame headers (Some r0) filename clicks w)
    as (res & w1 & Hrun & Hf1 & _).
  erewrite bind_Return by exact Hrun.
  destruct res as [result|]; [|left; exact Hf1].
  destruct (truthy result); [|left; exact Hf1].
  assert (files w1 !! filename = Some fl) as Hfl1 by (rewrite Hf1; exact Hfl).
  destruct (updated_row_outcome filename record_id result w1) as [(u & Hu)|(e & He)].
  - erewrite try_bind_Return by exact Hu.
    destruct (save_reload_wrote filename "Erro ao Salvar" (row_written record_id)
                (write_row (sheet fl) i (record_id :: u)) w1 fl Hfl1) as (w' & Hrun' & Hw').
    { exists i, r0, u. auto. }
    rewrite Hrun'. eapply wrote_shift; eauto.
  - erewrite try_bind_Raise by exact He. left. exact Hf1.
Qed.

Lemma wrote_elsewhere (filename name : string) (P : worksheet -> worksheet -> Prop)
    (w w' : world) :
  wrote filename P w w' -> name <> filename -> files w' !! name = files w !! name.
Proof.
  intros [H|(fl & ws' & _ & _ & _ & H)] Hne; rewrite H; [reflexivity|].
  apply lookup_insert_ne. congruence.
Qed.

Lemma filter_rows_files (filename search_term : string) (rows : list row) (w : world) :
  files (world_of (filter_rows filename search_term rows w)) = files w.
Proof.
  revert w. induction rows as [|r rows IH]; intros w; simpl; [reflexivity|].
  unfold bind at 1. destruct (row_matches search_term r).
  - unfold bind at 1. destruct (showable_dec filename r) as [Hs|Hs].
    + rewrite display_ok by exact Hs. unfold tree_insert. rewrite IH. reflexivity.
    + rewrite display_fail by exact Hs. reflexivity.
  - unfold ret at 1. apply IH.
Qed.

Lemma filter_tree_files (filename search_entry : string) (w : world) :
  files (world_of (filter_tree filename search_entry w)) = files w.
Proof.
  unfold filter_tree, bind, tree_clear, load_workbook. cbn [files set_tree].
  destruct (files w !! filename) as [f|]; [|reflexivity].
  apply (filter_rows_files _ _ _ (set_tree w [])).
Qed.

(** X1. Adding, editing and deleting in one table leave every other
    file as it is, whatever is typed, selected or answered and however
    the operation ends; in particular none of them writes to the log. *)
Theorem data_operations_touch_one_file (filename name : string)
    (headers : list string) (selection : option cell)
    (clicks : list (list string)) (confirm : bool) (w : world) :
  name <> filename ->
  files (world_of (add_record filename headers clicks w)) !! name = files w !! name /\
  files (world_of (edit_record filename headers selection clicks w)) !! name
  = files w !! name /\
  files (world_of (delete_record filename selection confirm w)) !! name
  = files w !! name.
Proof.
  intros Hne. split; [|split].
  - destruct (add_record_outcome filename headers clicks w) as (w' & Hrun & Hw).
    rewrite Hrun. eapply wrote_elsewhere; eauto.
  - pose proof (edit_record_outcome filename headers selection clicks w) as H.
    destruct selection; [eapply wrote_elsewhere; eauto|rewrite H; reflexivity].
  - destruct (delete_record_outcome filename selection confirm w) as (w' & Hrun & Hw).
    rewrite Hrun. destruct selection; [eapply wrote_elsewhere; eauto|].
    cbn [world_of]. rewrite Hw. reflexivity.
Qed.

(** X2. Listing and searching write nothing: after [load_data] and
    after [filter_tree], however they end, every file is as it was. *)
Theorem listing_leaves_files (filename search_entry : string) (w : world) :
  files (world_of (load_data filename w)) = files w /\
  files (world_of (filter_tree filename search_entry w)) = files w.
Proof. split; [apply load_data_files|apply filter_tree_files]. Qed.

(** ** Search and list *)

Lemma filter_rows_adds (filename search_term : string) (rows : list row)
    (w : world) (r : row) :
  In r (tree (world_of (filter_rows filename search_term rows w))) ->
  In r (tree w) \/
  exists r0, In r0 rows /\ row_matches search_term r0 = true /\
             showable filename r0 /\ r = masked filename r0.
Proof.
  revert w. induction rows as [|r1 rows IH]; intros w H; simpl in H.
  - left. exact H.
  - unfold bind at 1 in H. destruct (row_matches search_term r1) eqn:Hm.
    + unfold bind at 1 in H. destruct (showable_dec filename r1) as [Hs|Hs].
      * rewrite display_ok in H by exact Hs. unfold tree_insert in H.
        apply IH in H as [H|(r0 & Hin & Hm0 & Hs0 & ->)].
        -- cbn [tree set_tree] in H. apply in_app_or in H as [H|[<-|[]]].
           ++ left. exact H.
           ++ right. exists r1. simpl. auto.
        -- right. exists r0. simpl. auto.
      * rewrite display_fail in H by exact Hs. left. exact H.
    + unfold ret at 1 in H. apply IH in H as [H|(r0 & Hin & Hm0 & Hs0 & ->)].
      * left. exact H.
      * right. exists r0. simpl. auto.
Qed.

Lemma filter_tree_tree (filename search_entry : string) (w : world) (r : row) :
  In r (tree (world_of (filter_tree filename search_entry w))) ->
  exists f r0, files w !! filename = Some f /\ In r0 (iter_rows (sheet f)) /\
               row_matches (Text.lower search_entry) r0 = true /\
               showable filename r0 /\ r = masked filename r0.
Proof.
  unfold filter_tree, bind, tree_clear, load_workbook. cbn [files set_tree].
  destruct (files w !! filename) as [f|] eqn:Hf; [|simpl; tauto].
  intros H. apply filter_rows_adds in H as [[]|(r0 & Hin & Hm & Hs & ->)].
  exists f, r0. auto.
Qed.

(** X3. Search on the users table never shows a stored password hash:
    whatever the state and the query, every row the tree holds after
    [filter_tree] on the users file has the mask as its second value,
    and it is a stored row with that one value replaced. *)
Theorem filter_tree_users_masked (search_entry : string) (w : world) (r : row) :
  In r (tree (world_of (filter_tree USERS_FILE search_entry w))) ->
  nth_error r 1 = Some (CStr MASK) /\
  exists f r0, files w !! USERS_FILE = Some f /\ In r0 (iter_rows (sheet f)) /\
               r = <[1%nat := CStr MASK]> r0.
Proof.
  intros H. apply filter_tree_tree in H as (f & r0 & Hf & Hin & _ & Hs & ->).
  split; [apply masked_users_second, Hs; reflexivity|].
  exists f, r0. auto.
Qed.

Lemma bind_ext {A B} (m : M A) (k1 k2 : A -> M B) (w : world) :
  (forall a w', k1 a w' = k2 a w') -> bind m k1 w = bind m k2 w.
Proof. intros H. unfold bind. destruct (m w); [apply H|reflexivity]. Qed.

Lemma filter_rows_empty_query (filename : string) (rows : list row) (w : world) :
  Forall (fun r => (1 <= List.length r)%nat) rows ->
  filter_rows filename "" rows w = show_rows filename rows w.
Proof.
  revert w. induction rows as [|r rows IH]; intros w H; simpl; [reflexivity|].
  apply Forall_cons in H as [Hr H].
  rewrite row_matches_empty by (destruct r; [simpl in Hr; lia|discriminate]).
  apply bind_ext. intros _ w'. apply IH, H.
Qed.

(** X4. Searching for the empty text is listing: on a file that
    exists, [filter_tree] with an empty search field and [load_data] end
    in the same way and in the same state. *)
Theorem filter_tree_empty_is_load_data (filename : string) (w : world) (f : file) :
  files w !! filename = Some f ->
  filter_tree filename "" w = load_data filename w.
Proof.
  intros Hf. unfold filter_tree, load_data, bind, try_except, tree_clear, load_workbook.
  cbn [files set_tree Text.lower]. rewrite Hf.
  rewrite filter_rows_empty_query by (apply iter_rows_wide, max_column_pos).
  destruct (show_rows filename (iter_rows (sheet f)) (set_tree w [])) as [a w'|e w'] eqn:E;
    [reflexivity|].
  destruct e; try reflexivity.
  (* show_rows does not raise FileNotFoundError *)
  exfalso. clear Hf. revert E. generalize (set_tree w []) as w0.
  induction (iter_rows (sheet f)) as [|r rows IH]; intros w0 E; simpl in E; [discriminate|].
  unfold bind at 1 in E. unfold bind at 1 in E.
  destruct (showable_dec filename r) as [Hs|Hs].
  - rewrite display_ok in E by exact Hs. unfold tree_insert in E. eapply IH, E.
  - rewrite display_fail in E by exact Hs. discriminate.
Qed.

(** X5. What a search shows is part of what the list shows, in the same
    order. *)
Theorem filter_tree_sublist_of_load_data (filename search_entry : string)
    (w : world) (f : file) :
  files w !! filename = Some f ->
  (filename = USERS_FILE -> (2 <= max_column (sheet f))%nat) ->
  tree (world_of (filter_tree filename search_entry w))
    `sublist_of` tree (world_of (load_data filename w)).
Proof.
  intros Hf Hw. rewrite (filter_tree_ok _ _ _ f), (load_data_ok _ _ f) by assumption.
  cbn [world_of set_tree tree].
  generalize (iter_rows (sheet f)) as rows. intros rows.
  induction rows as [|r rows IH]; simpl; [constructor|].
  destruct (row_matches (Text.lower search_entry) r); simpl.
  - apply sublist_skip, IH.
  - apply sublist_cons, IH.
Qed.

(** ** The dialog accepts filled forms only *)

Lemma password_exemption_never_applies (filename header : string)
    (initial_data : option row) :
  is_editing_user_password filename header initial_data "" = false.
Proof. unfold is_editing_user_password. simpl. apply andb_false_r. Qed.

Lemma on_ok_fields_run (filename : string) (initial_data : option row)
    (headers values result : list string) (w : world) :
  List.length values = List.length headers ->
  on_ok_fields filename initial_data headers values result w
  = if all_filled values
    then Return (result ++ values, true) w
    else Return (result ++ filled_prefix values, false)
                (add_shown w (showwarning "Campo Vazio")).
Proof.
  revert values result. induction headers as [|h headers IH]; intros values result Hlen.
  - destruct values; [|discriminate]. simpl. rewrite app_nil_r. reflexivity.
  - destruct values as [|v values]; [discriminate|]. simpl.
    destruct (String.eqb_spec v "") as [->|Hv].
    + rewrite password_exemption_never_applies. simpl.
      rewrite app_nil_r. reflexivity.
    + simpl. rewrite IH by (simpl in Hlen; lia).
      rewrite <- !app_assoc. reflexivity.
Qed.

(** X6. A Salvar is accepted exactly when every field holds some text,
    and then the result is the fields as typed. With an empty field a
    warning is shown, the dialog stays open and the result so far is the
    fields before the first empty one; this holds for the password field
    of a user under edit like for any other field. *)
Theorem on_ok_accepts_filled_forms (filename : string) (initial_data : option row)
    (headers values : list string) (w : world) :
  List.length values = List.length headers ->
  on_ok filename initial_data headers values w
  = if all_filled values
    then Return (values, true) w
    else Return (filled_prefix values, false)
                (add_shown w (showwarning "Campo Vazio")).
Proof. intros Hlen. unfold on_ok. apply on_ok_fields_run, Hlen. Qed.

(** ** Rows around the one that is edited or deleted *)

Lemma first_with_id_found (record_id : cell) (g : row -> row) (d1 : list row)
    (d : row) (d2 : list row) (k : nat) :
  (forall x, id_of (g x) = id_of x) ->
  Forall (fun x => id_of x <> record_id) d1 -> id_of d = record_id ->
  first_with_id record_id k (map g (d1 ++ d :: d2))
  = Some ((k + List.length d1)%nat, g d).
Proof.
  intros Hg Hd1 Hd. revert k. induction d1 as [|x d1 IH]; intros k; simpl.
  - fold (id_of (g d)). rewrite Hg, Hd, cell_eqb_refl, Nat.add_0_r. reflexivity.
  - apply Forall_cons in Hd1 as [Hx Hd1]. fold (id_of (g x)). rewrite Hg.
    apply cell_eqb_neq in Hx. rewrite Hx, (IH Hd1). do 2 f_equal. lia.
Qed.

Lemma first_with_id_in_sheet (record_id : cell) (h : row) (d1 : list row)
    (d : row) (d2 : list row) :
  Forall (fun x => id_of x <> record_id) d1 -> id_of d = record_id ->
  first_with_id record_id 2 (iter_rows (h :: d1 ++ d :: d2))
  = Some ((2 + List.length d1)%nat,
          pad_row (max_column (h :: d1 ++ d :: d2)) d).
Proof.
  intros Hd1 Hd. unfold iter_rows. cbn [tl].
  apply first_with_id_found; auto.
  intros x. apply pad_row_nth0, max_column_pos.
Qed.

Lemma write_row_middle (h : row) (d1 : list row) (d : row) (d2 : list row) (u : row) :
  write_row (h :: d1 ++ d :: d2) (2 + List.length d1) u
  = h :: d1 ++ write_cells u d :: d2.
Proof.
  change (write_row (h :: d1 ++ d :: d2) (2 + List.length d1) u)
    with (h :: write_row (d1 ++ d :: d2) (S (List.length d1)) u).
  f_equal. induction d1 as [|x d1 IH]; [reflexivity|].
  simpl List.length. simpl app.
  change (write_row (x :: d1 ++ d :: d2) (S (S (List.length d1))) u)
    with (x :: write_row (d1 ++ d :: d2) (S (List.length d1)) u).
  rewrite IH. reflexivity.
Qed.

Lemma write_cells_texts (e : list string) (old : row) :
  write_cells (texts e) old = texts e ++ skipn (List.length e) old.
Proof.
  revert old. induction e as [|v e IH]; intros old; [reflexivity|].
  simpl. rewrite IH. f_equal. f_equal. destruct old; [destruct (List.length e)|]; reflexivity.
Qed.

Lemma write_cells_record (e : list string) (d : row) :
  write_cells (id_of d :: texts e) d
  = id_of d :: texts e ++ skipn (S (List.length e)) d.
Proof.
  cbn [write_cells]. rewrite write_cells_texts.
  assert ((if is_none (id_of d) then hd CNone d else id_of d) = id_of d) as ->.
  { unfold id_of. destruct d as [|c d]; [reflexivity|]. simpl. destruct c; reflexivity. }
  f_equal. f_equal. destruct d; [destruct (List.length e)|]; reflexivity.
Qed.

(** X7. Editing a record of a table other than the users table, in a
    sheet at least as wide as the headers, writes the identifier and the
    typed fields, in order, over the first row with that identifier;
    cells of that row beyond the fields, every other row and the order
    of the rows stay as they were. *)
Theorem edit_record_overwrites_in_place (filename : string) (headers e : list string)
    (w : world) (f : file) (h : row) (d1 : list row) (d : row) (d2 : list row) :
  filename <> USERS_FILE ->
  files w !! filename = Some f -> writable f = true ->
  sheet f = h :: d1 ++ d :: d2 ->
  (List.length headers <= max_column (sheet f))%nat ->
  Forall (fun x => id_of x <> id_of d) d1 ->
  valid_entries headers e -> e <> [] ->
  sheet_of (world_of (edit_record filename headers (Some (id_of d)) [e] w)) filename
  = Some (h :: d1 ++ (id_of d :: texts e ++ skipn (S (List.length e)) d) :: d2).
Proof.
  intros Hne Hf Hwr Hws _ Hd1 Hv He.
  pose proof (first_with_id_in_sheet (id_of d) h d1 d d2 Hd1 eq_refl) as Hfind.
  rewrite <- Hws in Hfind.
  destruct (edit_record_files filename headers e (id_of d) w f _ _ Hf Hwr Hfind Hv He)
    as (w' & Hrun & Hfiles); [contradiction|].
  rewrite Hrun. unfold sheet_of. cbn [world_of]. rewrite Hfiles, lookup_insert_eq.
  cbn [fmap option_fmap option_map sheet]. f_equal.
  unfold updated_row. apply String.eqb_neq in Hne. rewrite Hne.
  rewrite Hws, write_row_middle, write_cells_record. reflexivity.
Qed.

(** X8. Deleting takes out exactly the first row with the selected
    identifier; the rows before and after it, later rows with the same
    identifier included, stay in their order. *)
Theorem delete_record_removes_first_match (filename : string) (w : world) (f : file)
    (h : row) (d1 : list row) (d : row) (d2 : list row) :
  files w !! filename = Some f -> writable f = true ->
  sheet f = h :: d1 ++ d :: d2 ->
  Forall (fun x => id_of x <> id_of d) d1 ->
  sheet_of (world_of (delete_record filename (Some (id_of d)) true w)) filename
  = Some (h :: d1 ++ d2).
Proof.
  intros Hf Hwr Hws Hd1.
  pose proof (first_with_id_in_sheet (id_of d) h d1 d d2 Hd1 eq_refl) as Hfind.
  rewrite <- Hws in Hfind.
  destruct (delete_record_files filename (id_of d) w f _ _ Hf Hwr Hfind)
    as (w' & Hrun & Hfiles).
  rewrite Hrun. unfold sheet_of. cbn [world_of]. rewrite Hfiles, lookup_insert_eq.
  cbn [fmap option_fmap option_map sheet]. f_equal. rewrite Hws.
  change (delete_rows (h :: d1 ++ d :: d2) (2 + List.length d1))
    with (h :: delete_rows (d1 ++ d :: d2) (S (List.length d1))).
  rewrite delete_rows_middle. reflexivity.
Qed.

(** ** Adding, then listing *)

Lemma pad_row_short (width : nat) (r : row) :
  (List.length r <= width)%nat ->
  pad_row width r = r ++ repeat CNone (width - List.length r).
Proof. intros H. unfold pad_row. rewrite firstn_all2 by exact H. reflexivity. Qed.

Lemma add_record_run (filename : string) (headers e : list string)
    (w : world) (f : file) :
  filename <> USERS_FILE ->
  files w !! filename = Some f -> writable f = true ->
  valid_entries headers e -> e <> [] ->
  let ws' := sheet f ++ [CInt (new_id (sheet f)) :: texts e] in
  add_record filename headers [e] w
  = Return tt (set_tree (set_files w (<[filename := File ws' true]> (files w)))
                        (iter_rows ws')).
Proof.
  intros Hne Hf Hwr Hv He ws'. unfold add_record.
  erewrite bind_Return by (apply RecordDialog_valid, Hv).
  destruct e as [|e0 e]; [congruence|]. cbn [truthy].
  erewrite try_bind_Return by (apply load_workbook_ok, Hf).
  apply String.eqb_neq in Hne. rewrite Hne.
  erewrite try_bind_Return by reflexivity.
  unfold try_except, bind, save. rewrite Hf, Hwr.
  rewrite (load_data_ok filename _ (File ws' true)).
  - unfold masked. rewrite Hne, map_id. destruct w; reflexivity.
  - cbn [set_files files]. apply lookup_insert_eq.
  - intros E. apply String.eqb_neq in Hne. contradiction.
Qed.

(** X9. Create, then list: on a table other than the users table whose
    last identifier is empty, a number or a text in the ASCII range,
    after a record is added the tree holds one row per stored row and
    its last row is the new record -- the new ID, then the typed fields
    in order, then empty cells up to the width of the sheet. *)
Theorem add_record_then_listed (filename : string) (headers e : list string)
    (w : world) (f : file) :
  filename <> USERS_FILE ->
  files w !! filename = Some f -> writable f = true -> sheet f <> [] ->
  ascii_last_id (sheet f) = true ->
  valid_entries headers e -> e <> [] ->
  exists w' k,
    add_record filename headers [e] w = Return tt w' /\
    List.length (tree w') = List.length (sheet f) /\
    last (tree w') = Some (CInt (new_id (sheet f)) :: texts e ++ repeat CNone k).
Proof.
  intros Hne Hf Hwr Hws _ Hv He.
  pose (ws' := sheet f ++ [CInt (new_id (sheet f)) :: texts e]).
  exists (set_tree (set_files w (<[filename := File ws' true]> (files w))) (iter_rows ws')),
         (max_column ws' - S (List.length e))%nat.
  split; [apply (add_record_run filename headers e w f); assumption|].
  cbn [tree set_tree]. unfold iter_rows.
  assert (In (CInt (new_id (sheet f)) :: texts e) ws') as Hin
    by (apply in_or_app; right; left; reflexivity).
  apply max_column_ge in Hin. generalize dependent (max_column ws'). intros m Hin.
  subst ws'. destruct (sheet f) as [|h data]; [congruence|]. cbn [app tl].
  rewrite map_app. simpl map. split.
  - rewrite length_app, length_map. simpl. lia.
  - rewrite last_snoc. f_equal. rewrite pad_row_short by exact Hin.
    rewrite <- app_comm_cons. unfold texts. simpl List.length.
    rewrite length_map. reflexivity.
Qed.

(** ** A file that is not there *)

(** X10. On a file that does not exist: listing empties the tree and
    shows an error; adding and deleting show an error; searching and
    editing raise [FileNotFoundError] to the caller; and none of them
    creates the file or changes another. *)
Theorem missing_file_behaviour (filename : string) (w : world) :
  files w !! filename = None ->
  load_data filename w = Return tt (add_shown (set_tree w []) (showerror "Erro")) /\
  (forall search_entry,
     filter_tree filename search_entry w = Raise FileNotFoundError (set_tree w [])) /\
  (forall headers e, valid_entries headers e -> e <> [] ->
     add_record filename headers [e] w
     = Return tt (add_shown w (showerror "Erro ao Salvar"))) /\
  (forall record_id,
     delete_record filename (Some record_id) true w
     = Return tt (add_shown w (showerror "Erro ao Excluir"))) /\
  (forall headers record_id clicks,
     edit_record filename headers (Some record_id) clicks w
     = Raise FileNotFoundError w).
Proof.
  intros Hf. split; [apply load_data_missing, Hf|]. split; [|split; [|split]].
  - intros q. unfold filter_tree, bind, tree_clear, load_workbook.
    cbn [files set_tree]. rewrite Hf. reflexivity.
  - intros headers e Hv He. unfold add_record.
    erewrite bind_Return by (apply RecordDialog_valid, Hv).
    destruct e as [|e0 e]; [congruence|]. cbn [truthy].
    erewrite try_bind_Raise by (apply load_workbook_missing, Hf). reflexivity.
  - intros record_id. unfold delete_record.
    erewrite try_bind_Raise by (apply load_workbook_missing, Hf). reflexivity.
  - intros headers record_id clicks. unfold edit_record.
    erewrite bind_Raise by (apply load_workbook_missing, Hf). reflexivity.
Qed.

(** ** The form of a stored hash *)

Lemma string_length_append (a b : string) :
  String.length (String.append a b) = (String.length a + String.length b)%nat.
Proof. induction a as [|c a IH]; simpl; [reflexivity|]. rewrite IH. reflexivity. Qed.

Lemma all_chars_append (p : ascii -> bool) (a b : string) :
  all_chars p (String.append a b) = all_chars p a && all_chars p b.
Proof.
  induction a as [|c a IH]; simpl; [reflexivity|]. rewrite IH. apply andb_assoc.
Qed.

Lemma hex_digit_lower (d : Z) : 0 <= d < 16 -> is_lower_hex (SHA256.hex_digit d) = true.
Proof.
  intros H.
  assert (d = 0 \/ d = 1 \/ d = 2 \/ d = 3 \/ d = 4 \/ d = 5 \/ d = 6 \/ d = 7 \/
          d = 8 \/ d = 9 \/ d = 10 \/ d = 11 \/ d = 12 \/ d = 13 \/ d = 14 \/ d = 15)
    as Hd by lia.
  repeat (destruct Hd as [->|Hd]; [reflexivity|]). subst d. reflexivity.
Qed.

Lemma hex_word_form (n : nat) (x : Z) :
  String.length (SHA256.hex_word n x) = n /\
  all_chars is_lower_hex (SHA256.hex_word n x) = true.
Proof.
  induction n as [|n [IHl IHc]]; [split; reflexivity|].
  cbn [SHA256.hex_word String.length all_chars]. rewrite IHl, IHc. split; [reflexivity|].
  rewrite hex_digit_lower; [reflexivity|]. apply Z.mod_pos_bound. lia.
Qed.

Lemma compress_length (h block : list Z) :
  List.length h = 8%nat -> List.length (SHA256.compress h block) = 8%nat.
Proof.
  intros H. unfold SHA256.compress.
  rewrite length_map, length_combine, H. reflexivity.
Qed.

Lemma digest_length (msg : list Z) : List.length (SHA256.digest msg) = 8%nat.
Proof.
  unfold SHA256.digest.
  generalize (SHA256.blocks
                (List.length (SHA256.words (List.length (SHA256.pad msg)) (SHA256.pad msg)))
                (SHA256.words (List.length (SHA256.pad msg)) (SHA256.pad msg))).
  intros bs. assert (List.length SHA256.H0 = 8%nat) as H by reflexivity.
  revert H. generalize SHA256.H0. induction bs as [|b bs IH]; intros h H; simpl.
  - exact H.
  - apply IH, compress_length, H.
Qed.

Lemma hexdigest_form (msg : list Z) :
  String.length (SHA256.hexdigest msg) = 64%nat /\
  all_chars is_lower_hex (SHA256.hexdigest msg) = true.
Proof.
  unfold SHA256.hexdigest. pose proof (digest_length msg) as H.
  assert (forall l : list Z,
            String.length (fold_right (fun w acc => String.append (SHA256.hex_word 8 w) acc)
                                      EmptyString l) = (8 * List.length l)%nat /\
            all_chars is_lower_hex
              (fold_right (fun w acc => String.append (SHA256.hex_word 8 w) acc)
                          EmptyString l) = true) as Hl.
  { induction l as [|x l [IHl IHc]]; [split; reflexivity|].
    cbn [fold_right]. rewrite string_length_append, all_chars_append, IHl, IHc.
    destruct (hex_word_form 8 x) as [-> ->]. split; [simpl List.length; lia|reflexivity]. }
  destruct (Hl (SHA256.digest msg)) as [Hlen Hc]. rewrite H in Hlen. auto.
Qed.

Lemma hexdigest_not_mask (msg : list Z) : SHA256.hexdigest msg <> MASK.
Proof.
  intros E. destruct (hexdigest_form msg) as [Hlen _]. rewrite E in Hlen. discriminate.
Qed.

(** X11. Whatever the password, its hash is a text of exactly 64
    characters, each a digit or a letter from a to f; so no hash is
    empty, and none is the mask of eight asterisks. *)
Theorem hash_password_form (pw : string) :
  String.length (hash_password pw) = 64%nat /\
  all_chars is_lower_hex (hash_password pw) = true /\
  hash_password pw <> "" /\
  hash_password pw <> MASK.
Proof.
  destruct (hexdigest_form (SHA256.encode pw)) as [Hlen Hc].
  fold (hash_password pw) in Hlen, Hc.
  split; [exact Hlen|]. split; [exact Hc|].
  split; intros E; rewrite E in Hlen; discriminate.
Qed.

(** ** Who can log in *)

Lemma log_action_outcome (usuario acao now : string) (w : world) :
  (exists w', log_action usuario acao now w = Return tt w' /\
              (w' = add_shown w (showwarning "Log Erro") \/
               exists lf, files w !! LOG_FILE = Some lf /\ writable lf = true /\
                          w' = logged w (sheet lf) [CStr usuario; CStr acao; CStr now])) \/
  (log_action usuario acao now w = Raise PermissionError w /\
   exists lf, files w !! LOG_FILE = Some lf /\ writable lf = false).
Proof.
  unfold log_action, try_except, bind, load_workbook, save.
  destruct (files w !! LOG_FILE) as [lf|] eqn:E; cbn beta iota.
  - rewrite ?E. destruct (writable lf) eqn:Hwr.
    + left. eexists. split; [reflexivity|]. right. exists lf. auto.
    + right. split; [reflexivity|]. exists lf. auto.
  - left. eexists. split; [reflexivity|]. left. reflexivity.
Qed.

(** Who is let in depends on the first matching row and on whether the
    log can take the entry. *)
Lemma attempt_login_let_in (usuario senha now : string) (w : world) (f : file) :
  files w !! USERS_FILE = Some f ->
  (3 <= max_column (sheet f))%nat ->
  let_in (attempt_login usuario senha now w)
  = match List.find (login_match usuario senha) (iter_rows (sheet f)) with
    | Some r =>
        match files w !! LOG_FILE with
        | Some lf => if writable lf then Some (usuario, nth 2 r CNone) else None
        | None => Some (usuario, nth 2 r CNone)
        end
    | None => None
    end.
Proof.
  intros Hf Hw.
  unfold attempt_login, try_except, bind at 1, load_workbook. rewrite Hf.
  rewrite login_rows_find by (apply iter_rows_wide, Hw).
  destruct (List.find _ _) as [r|]; [|reflexivity].
  destruct (log_action_outcome usuario "Login bem-sucedido" now w)
    as [(w' & Hrun & Hw')|(Hrun & lf & Hlf & Hwr)].
  - erewrite bind_Return by exact Hrun. cbn [ret let_in].
    destruct Hw' as [_|(lf & Hlf & Hwr & _)].
    + unfold log_action, try_except, bind, load_workbook, save in Hrun.
      destruct (files w !! LOG_FILE) as [lf|] eqn:E; [|reflexivity].
      cbn beta iota in Hrun. rewrite ?E in Hrun.
      destruct (writable lf); [reflexivity|discriminate].
    + rewrite Hlf, Hwr. reflexivity.
  - erewrite bind_Raise by exact Hrun. rewrite Hlf, Hwr. reflexivity.
Qed.

Lemma find_none_forall {A} (p : A -> bool) (l : list A) :
  (forall a, In a l -> p a = false) -> List.find p l = None.
Proof.
  induction l as [|a l IH]; intros H; simpl; [reflexivity|].
  rewrite (H a) by (left; reflexivity). apply IH. intros b Hb. apply H. right. exact Hb.
Qed.

(** X12. A user whose stored second value is the mask cannot log in
    with any password: when every row of the users table that carries
    the name has the mask where the hash belongs, login under that name
    is refused whatever is typed. *)
Theorem masked_hash_admits_no_password (usuario senha now : string) (w : world) (f : file) :
  files w !! USERS_FILE = Some f ->
  (3 <= max_column (sheet f))%nat ->
  (forall r, In r (iter_rows (sheet f)) -> nth 0 r CNone = CStr usuario ->
             nth 1 r CNone = CStr MASK) ->
  attempt_login usuario senha now w
  = Return None (add_shown w (showerror "Erro de Login")).
Proof.
  intros Hf Hw Hmask. apply (attempt_login_rejected _ _ _ _ f Hf Hw).
  apply find_none_forall. intros r Hr.
  destruct (login_match usuario senha r) eqn:E; [|reflexivity].
  apply login_match_iff in E as [E0 E1].
  rewrite (Hmask r Hr E0) in E1. injection E1 as E1.
  destruct (hexdigest_not_mask (SHA256.encode senha) (eq_sym E1)).
Qed.

Lemma find_snoc_false {A} (p : A -> bool) (l : list A) (x : A) :
  p x = false -> List.find p (l ++ [x]) = List.find p l.
Proof.
  intros Hx. induction l as [|a l IH]; simpl; [rewrite Hx; reflexivity|].
  destruct (p a); [reflexivity|exact IH].
Qed.

Lemma max_column_wide_nonempty (n : nat) (ws : worksheet) :
  (2 <= n)%nat -> (n <= max_column ws)%nat -> ws <> [].
Proof. intros Hn H ->. simpl in H. lia. Qed.

(** X13. On a users table at least three columns wide, a user added
    through the dialog can never log in, and adding one changes nothing
    for anybody else: the stored row starts with a
    number where login looks for the name, so after [add_record] on the
    users table every name and password is let in, or not, exactly as
    before. *)
Theorem added_user_cannot_log_in (usuario senha now senha' perm : string)
    (w : world) (f : file) :
  files w !! USERS_FILE = Some f -> writable f = true ->
  (3 <= max_column (sheet f))%nat ->
  senha' <> "" -> perm <> "" ->
  (forall n, login_match usuario senha (stored_row USERS_FILE n [senha'; perm]) = false) /\
  let_in (attempt_login usuario senha now
            (world_of (add_record USERS_FILE USERS_HEADERS [[senha'; perm]] w)))
  = let_in (attempt_login usuario senha now w).
Proof.
  intros Hf Hwr Hw Hs Hp. split; [intros n; reflexivity|].
  assert (valid_entries USERS_HEADERS [senha'; perm]) as Hv.
  { split; [reflexivity|]. repeat constructor; assumption. }
  destruct (add_record_files USERS_FILE USERS_HEADERS [senha'; perm] w f
              Hf Hwr Hv ltac:(discriminate) ltac:(intros _; simpl; lia))
    as (w' & Hrun & Hfiles).
  rewrite Hrun. cbn [world_of].
  set (r := stored_row USERS_FILE (new_id (sheet f)) [senha'; perm]) in *.
  assert (files w' !! USERS_FILE = Some (File (sheet f ++ [r]) true)) as Hf'
    by (rewrite Hfiles; apply lookup_insert_eq).
  assert (max_column (sheet f ++ [r]) = max_column (sheet f)) as Hm.
  { rewrite max_column_app. simpl. lia. }
  rewrite (attempt_login_let_in _ _ _ w' _ Hf') by (cbn [sheet]; lia).
  rewrite (attempt_login_let_in _ _ _ w f Hf Hw). cbn [sheet].
  assert (files w' !! LOG_FILE = files w !! LOG_FILE) as ->
    by (rewrite Hfiles; apply lookup_insert_ne; discriminate).
  assert (iter_rows (sheet f ++ [r])
          = iter_rows (sheet f) ++ [pad_row (max_column (sheet f)) r]) as ->.
  { unfold iter_rows. rewrite Hm.
    pose proof (max_column_wide_nonempty 3 (sheet f) ltac:(lia) Hw) as Hne.
    destruct (sheet f) as [|h data]; [congruence|]. cbn [app tl].
    rewrite map_app. reflexivity. }
  rewrite find_snoc_false; [reflexivity|].
  unfold login_match. rewrite pad_row_nth0 by lia. reflexivity.
Qed.

(** ** The log only grows *)

Lemma getitem_cases {A} (l : list A) (i : nat) (w : world) :
  (exists a, getitem l i w = Return a w) \/ getitem l i w = Raise IndexError w.
Proof. unfold getitem. destruct (nth_error l i); [left; eauto|right; reflexivity]. Qed.

Lemma log_action_wrote (usuario acao now : string) (w : world) :
  wrote LOG_FILE one_row_more w (world_of (log_action usuario acao now w)).
Proof.
  destruct (log_action_outcome usuario acao now w)
    as [(w' & Hrun & [->|(lf & Hlf & Hwr & ->)])|(Hrun & _)]; rewrite Hrun.
  - left. reflexivity.
  - right. exists lf, (sheet lf ++ [[CStr usuario; CStr acao; CStr now]]).
    repeat split; auto. eexists. reflexivity.
  - left. reflexivity.
Qed.

Lemma login_rows_wrote (usuario senha now : string) (rows : list row) (w : world) :
  wrote LOG_FILE one_row_more w (world_of (login_rows usuario senha now rows w)).
Proof.
  induction rows as [|r rows IH]; simpl.
  - left. reflexivity.
  - destruct (getitem_cases r 0 w) as [(c0 & H0)|H0];
      [|erewrite bind_Raise by exact H0; left; reflexivity].
    erewrite bind_Return by exact H0.
    assert ((exists hit, (if cell_eqb c0 (CStr usuario)
                          then let* c1 := getitem r 1 in
                               ret (cell_eqb c1 (CStr (hash_password senha)))
                          else ret false) w = Return hit w) \/
            (if cell_eqb c0 (CStr usuario)
             then let* c1 := getitem r 1 in
                  ret (cell_eqb c1 (CStr (hash_password senha)))
             else ret false) w = Raise IndexError w) as [(hit & Hh)|Hh].
    { destruct (cell_eqb c0 (CStr usuario)); [|left; eexists; reflexivity].
      destruct (getitem_cases r 1 w) as [(c1 & H1)|H1].
      - left. eexists. erewrite bind_Return by exact H1. reflexivity.
      - right. erewrite bind_Raise by exact H1. reflexivity. }
    2:{ erewrite bind_Raise by exact Hh. left. reflexivity. }
    erewrite bind_Return by exact Hh. destruct hit; [|exact IH].
    pose proof (log_action_wrote usuario "Login bem-sucedido" now w) as Hlog.
    unfold bind at 1.
    destruct (log_action usuario "Login bem-sucedido" now w) as [[] w1|e w1];
      [|exact Hlog].
    cbn [world_of] in Hlog.
    destruct (getitem_cases r 2 w1) as [(c2 & H2)|H2].
    + erewrite bind_Return by exact H2. exact Hlog.
    + erewrite bind_Raise by exact H2. exact Hlog.
Qed.

Lemma attempt_login_wrote (usuario senha now : string) (w : world) :
  wrote LOG_FILE one_row_more w (world_of (attempt_login usuario senha now w)).
Proof.
  unfold attempt_login, try_except, bind at 1, load_workbook.
  destruct (files w !! USERS_FILE) as [f|]; [|left; reflexivity].
  pose proof (login_rows_wrote usuario senha now (iter_rows (sheet f)) w) as H.
  destruct (login_rows usuario senha now (iter_rows (sheet f)) w) as [a w'|e w'];
    [exact H|].
  destruct e; exact H.
Qed.

Lemma auth_step_wrote (w : world) (ev : auth_event) :
  wrote LOG_FILE one_row_more w (auth_step w ev).
Proof.
  destruct ev; simpl; [apply attempt_login_wrote|apply log_action_wrote].
Qed.

(** X14. The log only grows: over any run of logins and logouts,
    failed or not, the log file keeps the rows it had, in their order,
    with the new ones after them; and no other file changes. *)
Theorem log_only_grows (evs : list auth_event) (w : world) (lf : file) :
  files w !! LOG_FILE = Some lf ->
  (exists lf' extra,
     files (auth_session evs w) !! LOG_FILE = Some lf' /\
     sheet lf' = sheet lf ++ extra) /\
  (forall name, name <> LOG_FILE ->
     files (auth_session evs w) !! name = files w !! name).
Proof.
  unfold auth_session. revert w lf. induction evs as [|ev evs IH]; intros w lf Hlf.
  - split; [|reflexivity]. exists lf, []. rewrite app_nil_r. auto.
  - cbn [fold_left].
    pose proof (auth_step_wrote w ev) as Hstep.
    assert (exists lf1 extra1, files (auth_step w ev) !! LOG_FILE = Some lf1 /\
                               sheet lf1 = sheet lf ++ extra1) as (lf1 & extra1 & Hlf1 & Hs1).
    { destruct Hstep as [H|(fl & ws' & Hfl & _ & (r & ->) & H)].
      - exists lf, []. rewrite H, app_nil_r. auto.
      - rewrite Hlf in Hfl. injection Hfl as <-.
        exists (File (sheet lf ++ [r]) true), [r]. rewrite H, lookup_insert_eq. auto. }
    destruct (IH _ _ Hlf1) as [(lf' & extra & Hlf' & Hs') Hother]. split.
    + exists lf', (extra1 ++ extra). rewrite Hlf', Hs', Hs1, app_assoc. auto.
    + intros name Hne. rewrite Hother by exact Hne.
      eapply wrote_elsewhere; eauto.
Qed.

(** ** First start, then login *)

Lemma criar_arquivos_creates_and_keeps (w : world) :
  exists w1,
    criar_arquivos_se_nao_existir w = Return tt w1 /\
    (forall name f, files w !! name = Some f -> files w1 !! name = Some f) /\
    (forall name ws, In (name, ws) initial_sheets -> files w !! name = None ->
                     files w1 !! name = Some (File ws true)).
Proof.
  exists (set_files w (fold_left ensure initial_sheets (files w))).
  split; [apply criar_arquivos_run|]. cbn [set_files files]. split.
  - intros name f H. apply ensure_all_keeps, H.
  - intros name ws Hin H. apply ensure_all_creates; auto using initial_sheets_names.
Qed.


Lemma pad_row_same (r : row) : pad_row (List.length r) r = r.
Proof. apply pad_row_exact. reflexivity. Qed.

(** X15. On a machine without a users file, set-up followed by the
    login of "admin" with the password "admin" lets the administrator
    in with the permission "admin", provided the log file is missing or
    can be written; the login is then the last row of the log. *)
Theorem first_start_admin_login (now : string) (w : world) :
  files w !! USERS_FILE = None ->
  (forall lf, files w !! LOG_FILE = Some lf -> writable lf = true) ->
  exists w' lg,
    (criar_arquivos_se_nao_existir ;; attempt_login "admin" "admin" now) w
    = Return (Some ("admin", CStr "admin")) w' /\
    sheet_of w' LOG_FILE = Some (lg ++ [login_entry "admin" now]) /\
    lg = match files w !! LOG_FILE with
         | Some lf => sheet lf
         | None => [texts LOG_HEADERS]
         end.
Proof.
  intros Hu Hlog.
  destruct (criar_arquivos_creates_and_keeps w) as (w1 & Hrun & Hkeep & Hnew).
  erewrite bind_Return by exact Hrun.
  assert (files w1 !! USERS_FILE = Some (File [texts USERS_HEADERS; admin_row] true)) as Hf1.
  { apply Hnew; [|exact Hu]. do 4 right. left. reflexivity. }
  assert (exists lg, files w1 !! LOG_FILE = Some (File lg true) /\
                     lg = match files w !! LOG_FILE with
                          | Some lf => sheet lf
                          | None => [texts LOG_HEADERS]
                          end) as (lg & Hlg & Hlgeq).
  { destruct (files w !! LOG_FILE) as [lf|] eqn:E.
    - exists (sheet lf). split; [|reflexivity].
      rewrite (Hkeep _ _ E). specialize (Hlog lf eq_refl).
      destruct lf as [s wr]. simpl in *. subst wr. reflexivity.
    - exists [texts LOG_HEADERS]. split; [|reflexivity].
      apply Hnew; [|exact E]. do 3 right. left. reflexivity. }
  exists (logged w1 lg (login_entry "admin" now)), lg.
  split; [|split; [|exact Hlgeq]].
  - apply (attempt_login_logged "admin" "admin" now w1 _ admin_row lg Hf1).
    + simpl. lia.
    + cbn [sheet]. unfold iter_rows. cbn [tl map].
      change (max_column [texts USERS_HEADERS; admin_row]) with (List.length admin_row).
      rewrite pad_row_same. cbn [List.find]. unfold login_match.
      unfold admin_row at 1 2. cbn [nth]. rewrite !cell_eqb_refl. reflexivity.
    + exact Hlg.
  - unfold sheet_of, logged. cbn [files set_files]. rewrite lookup_insert_eq. reflexivity.
Qed.

(** ** Who may do what *)

(** X16. A data window is refused, with the message "Acesso Negado" and
    nothing else done, exactly for the users title under a permission
    that is neither "admin" nor "leitura". Every window that opens has
    the three buttons Adicionar, Editar and Excluir unless the permission
    is "leitura", in which case it has none. *)
Theorem DataWindow_access (title filename permissao : string) (headers : list string)
    (w : world) :
  (permissao <> "leitura" /\ title = "Gerenciamento de Usuários" /\ permissao <> "admin" ->
   DataWindow title filename headers permissao w
   = Return None (add_shown w (showerror "Acesso Negado"))) /\
  (forall win w',
     DataWindow title filename headers permissao w = Return (Some win) w' ->
     win_filename win = filename /\ win_headers win = headers /\
     win_buttons win
     = (if String.eqb permissao "leitura" then [] else [Adicionar; Editar; Excluir]) /\
     (title = "Gerenciamento de Usuários" ->
      permissao = "admin" \/ permissao = "leitura")).
Proof.
  unfold DataWindow. split.
  - intros (Hl & Ht & Ha).
    apply String.eqb_neq in Hl, Ha. rewrite Hl, Ha, Ht. reflexivity.
  - intros win w' H.
    destruct (String.eqb_spec permissao "leitura") as [Hl|Hl]; cbn [negb andb] in H.
    + unfold bind in H. destruct (load_data filename w); [|discriminate].
      injection H as <- _. repeat split. auto.
    + destruct (String.eqb_spec title "Gerenciamento de Usuários") as [Ht|Ht];
        cbn [andb] in H.
      * destruct (String.eqb_spec permissao "admin") as [Ha|Ha]; cbn [negb] in H.
        -- unfold bind in H. destruct (load_data filename w); [|discriminate].
           injection H as <- _. repeat split. auto.
        -- discriminate.
      * unfold bind in H. destruct (load_data filename w); [|discriminate].
        injection H as <- _. repeat split. intros. contradiction.
Qed.


Lemma DataWindow_opened_file (title filename permissao : string) (headers : list string)
    (w w' : world) (win : window) :
  DataWindow title filename headers permissao w = Return (Some win) w' ->
  win_filename win = filename.
Proof.
  unfold DataWindow. intros H.
  destruct (negb (String.eqb permissao "leitura") &&
            (String.eqb title "Gerenciamento de Usuários" &&
             negb (String.eqb permissao "admin"))); [discriminate|].
  unfold bind in H. destruct (load_data filename w); [|discriminate].
  injection H as <- _. reflexivity.
Qed.

Lemma DataWindow_leitura (title filename : string) (headers : list string)
    (w w' : world) (win : window) :
  DataWindow title filename headers "leitura" w = Return (Some win) w' ->
  win_buttons win = [] /\ files w' = files w.
Proof.
  unfold DataWindow. cbn [String.eqb Ascii.eqb Bool.eqb negb andb]. intros H.
  pose proof (load_data_files filename w) as Hf.
  unfold bind in H. destruct (load_data filename w) as [[] w1|]; [|discriminate].
  injection H as <- <-. auto.
Qed.

(** X17. Through the main menu the users table opens for an
    administrator only: whatever button of the menu built for a
    permission is pressed, a window on the users file means the
    permission is "admin". *)
Theorem menu_opens_users_for_admin_only (permissao : string) (b : menu_button)
    (w w' : world) (win : window) :
  In b (MainMenu_buttons permissao) ->
  abrir_janela_dados b permissao w = Return (Some win) w' ->
  win_filename win = USERS_FILE ->
  permissao = "admin".
Proof.
  intros Hb Hopen Hfile.
  destruct b; simpl in Hopen; try discriminate;
    try (apply DataWindow_opened_file in Hopen; rewrite Hopen in Hfile; discriminate).
  unfold MainMenu_buttons in Hb.
  destruct (String.eqb_spec permissao "admin") as [Ha|Ha]; [exact Ha|].
  exfalso. simpl in Hb.
  repeat (destruct Hb as [Hb|Hb]; [discriminate|]). exact Hb.
Qed.

(** ** A window without buttons changes nothing *)

Lemma handle_no_buttons (win : window) (ev : event) (w : world) :
  win_buttons win = [] -> files (world_of (handle win ev w)) = files w.
Proof.
  intros H. destruct ev; unfold handle, has_button; rewrite ?H; simpl; try reflexivity.
  apply filter_tree_files.
Qed.

(** X18. Under the permission "leitura" nothing can be changed: in a
    window the menu opens for it, whatever the user presses, selects or
    types afterwards, every file stays as it was. *)
Theorem leitura_changes_nothing (b : menu_button) (w w1 : world) (win : window)
    (evs : list event) :
  abrir_janela_dados b "leitura" w = Return (Some win) w1 ->
  files (window_session win evs w1) = files w.
Proof.
  intros Hopen.
  assert (win_buttons win = [] /\ files w1 = files w) as [Hb Hf].
  { destruct b; simpl in Hopen; try discriminate;
      apply DataWindow_leitura in Hopen; exact Hopen. }
  rewrite <- Hf. clear Hopen Hf. unfold window_session. revert w1.
  induction evs as [|ev evs IH]; intros w1; [reflexivity|].
  cbn [fold_left]. rewrite IH. apply handle_no_buttons, Hb.
Qed.

(** ** Identifiers stay distinct *)

Lemma increasing_ids_add (ws : worksheet) (r : row) :
  increasing_ids ws -> id_of r = CInt (new_id ws) -> increasing_ids (ws ++ [r]).
Proof.
  intros (l & Hids & Hpos & Hsorted) Hr.
  destruct ws as [|h data].
  - exists []. split; [reflexivity|]. split; constructor.
  - rewrite ids_data in Hids. pose proof (new_id_positive (h :: data)) as Hn.
    pose proof (new_id_of_ints (h :: data) l) as Hnew.
    rewrite ids_data in Hnew. specialize (Hnew Hids Hpos).
    exists (l ++ [new_id (h :: data)]).
    change ((h :: data) ++ [r]) with (h :: (data ++ [r])).
    rewrite ids_data, !map_app, Hids. simpl map. rewrite Hr.
    split; [reflexivity|]. split.
    + apply Forall_app. split; [exact Hpos|]. repeat constructor. lia.
    + apply StronglySorted_app_2; [|exact Hsorted|repeat constructor].
      intros x1 x2 Hx1 Hx2. apply list_elem_of_singleton in Hx2. subst x2.
      destruct (last l) as [z|] eqn:E.
      * pose proof (sorted_below_last l z x1 Hsorted E Hx1). lia.
      * apply last_None in E. subst l. inversion Hx1.
Qed.

Lemma id_of_write_cells (record_id : cell) (u d : row) :
  id_of d = record_id -> id_of (write_cells (record_id :: u) d) = record_id.
Proof.
  intros Hd. unfold id_of in *. cbn [write_cells nth].
  destruct record_id; cbn [is_none]; [|reflexivity|reflexivity].
  destruct d; [reflexivity|exact Hd].
Qed.

Lemma ids_written (record_id : cell) (ws ws' : worksheet) :
  row_written record_id ws ws' -> ids ws' = ids ws.
Proof.
  intros (i & r0 & u & Hfind & ->).
  apply first_with_id_sheet in Hfind as (h & d1 & d & d2 & -> & -> & Hd & _ & _).
  rewrite write_row_middle, !ids_data, !map_app. cbn [map].
  rewrite id_of_write_cells by exact Hd. rewrite Hd. reflexivity.
Qed.

Lemma increasing_ids_deleted (record_id : cell) (ws ws' : worksheet) :
  increasing_ids ws -> row_deleted record_id ws ws' -> increasing_ids ws'.
Proof.
  intros Hinc (i & r0 & Hfind & ->).
  apply first_with_id_sheet in Hfind as (h & d1 & d & d2 & -> & -> & _ & _ & _).
  change (delete_rows (h :: d1 ++ d :: d2) (2 + List.length d1))
    with (h :: delete_rows (d1 ++ d :: d2) (S (List.length d1))).
  rewrite delete_rows_middle. eapply increasing_ids_delete, Hinc.
Qed.

Lemma increasing_ids_distinct (ws : worksheet) : increasing_ids ws -> NoDup (ids ws).
Proof.
  intros (l & -> & _ & Hsorted). induction l as [|n l IH]; [constructor|].
  apply StronglySorted_inv in Hsorted as [Hl Hn]. simpl. apply NoDup_cons. split.
  - intros Hin. apply list_elem_of_In, in_map_iff in Hin as (m & [= ->] & Hin).
    rewrite Forall_forall in Hn. apply list_elem_of_In in Hin.
    specialize (Hn _ Hin). lia.
  - apply IH, Hl.
Qed.

Lemma wrote_increasing (filename : string) (P : worksheet -> worksheet -> Prop)
    (w w' : world) (f : file) :
  (forall ws ws', increasing_ids ws -> P ws ws' -> increasing_ids ws') ->
  wrote filename P w w' ->
  files w !! filename = Some f -> increasing_ids (sheet f) ->
  exists f', files w' !! filename = Some f' /\ increasing_ids (sheet f').
Proof.
  intros HP [H|(fl & ws' & Hfl & _ & HPw & H)] Hf Hinc.
  - exists f. rewrite H. auto.
  - rewrite Hf in Hfl. injection Hfl as <-.
    exists (File ws' true). rewrite H, lookup_insert_eq. split; [reflexivity|].
    eapply HP; eauto.
Qed.

Lemma handle_keeps_increasing (win : window) (ev : event) (w : world) (f : file) :
  files w !! win_filename win = Some f -> increasing_ids (sheet f) ->
  exists f', files (world_of (handle win ev w)) !! win_filename win = Some f' /\
             increasing_ids (sheet f').
Proof.
  intros Hf Hinc.
  assert (exists f', files w !! win_filename win = Some f' /\ increasing_ids (sheet f'))
    as Hsame by eauto.
  destruct ev as [clicks|selection clicks|selection confirm|q]; cbn [handle].
  - destruct (has_button win Adicionar); [|exact Hsame].
    destruct (add_record_outcome (win_filename win) (win_headers win) clicks w)
      as (w' & Hrun & Hw).
    rewrite Hrun. eapply wrote_increasing; eauto.
    intros ws ws' Hi (r & -> & Hr). apply increasing_ids_add; assumption.
  - destruct (has_button win Editar); [|exact Hsame].
    pose proof (edit_record_outcome (win_filename win) (win_headers win)
                  selection clicks w) as Hw.
    destruct selection as [record_id|]; [|rewrite Hw; exact Hsame].
    eapply wrote_increasing; eauto.
    intros ws ws' (l & Hids & Hl) Hwr. exists l.
    rewrite (ids_written _ _ _ Hwr). auto.
  - destruct (has_button win Excluir); [|exact Hsame].
    destruct (delete_record_outcome (win_filename win) selection confirm w)
      as (w' & Hrun & Hw).
    rewrite Hrun. destruct selection as [record_id|].
    + eapply wrote_increasing; eauto.
      intros ws ws'. apply increasing_ids_deleted.
    + cbn [world_of]. rewrite Hw. exact Hsame.
  - rewrite filter_tree_files. exact Hsame.
Qed.

(** X19. The identifiers of a table stay distinct: when they are
    numbers growing along the rows -- as in a table that holds only its
    header -- they still are after any run of adding, editing, deleting
    and searching in a window on that table, whatever is typed, selected
    or answered, accepted or not; so no two rows ever share an
    identifier. *)
Theorem identifiers_stay_distinct (win : window) (evs : list event) (w : world) (f : file) :
  files w !! win_filename win = Some f -> increasing_ids (sheet f) ->
  exists f',
    files (window_session win evs w) !! win_filename win = Some f' /\
    increasing_ids (sheet f') /\ NoDup (ids (sheet f')).
Proof.
  unfold window_session. revert w f.
  induction evs as [|ev evs IH]; intros w f Hf Hinc; cbn [fold_left].
  - exists f. auto using increasing_ids_distinct.
  - destruct (handle_keeps_increasing win ev w f Hf Hinc) as (f1 & Hf1 & Hinc1).
    eapply IH; eauto.
Qed.

(** ** The PDF report *)










(** ** The chart of origin churches *)










(** ** Opening the edit dialog and saving it as it is *)

(** The dialog opens without an error on a row at least as wide as the
    headers. *)
Lemma inserted_from_returns (filename : string) (headers : list string)
    (initial_data : row) (i : nat) (w : world) :
  (i + List.length headers <= List.length initial_data)%nat ->
  exists vs, inserted_from filename headers initial_data i w = Return vs w /\
             List.length vs = List.length headers.
Proof.
  revert i. induction headers as [|hd headers IH]; intros i Hlen.
  - exists []. split; reflexivity.
  - simpl in Hlen. destruct (IH (S i) ltac:(lia)) as (vs & Hvs & Hl).
    cbn [inserted_from].
    destruct (String.eqb filename USERS_FILE && String.eqb hd "SenhaHash").
    + exists (MASK :: vs). unfold bind at 1. cbn [ret].
      unfold bind. rewrite Hvs. split; [reflexivity|simpl; lia].
    + destruct (nth_error initial_data i) as [c|] eqn:E.
      * exists ((if is_none c then "" else str c) :: vs).
        unfold bind at 1. unfold getitem. rewrite E. unfold bind at 1. cbn [ret].
        unfold bind. rewrite Hvs. split; [reflexivity|simpl; lia].
      * apply nth_error_None in E. lia.
Qed.

Lemma inserted_from_texts (filename : string) (headers e : list string)
    (pre post : row) (w : world) :
  filename <> USERS_FILE ->
  List.length e = List.length headers ->
  inserted_from filename headers (pre ++ texts e ++ post) (List.length pre) w
  = Return e w.
Proof.
  intros Hne. apply String.eqb_neq in Hne.
  revert e pre. induction headers as [|hd headers IH]; intros e pre Hlen.
  - destruct e; [reflexivity|discriminate].
  - destruct e as [|v e]; [discriminate|]. cbn [inserted_from].
    rewrite Hne. cbn [andb]. unfold bind at 1. unfold getitem.
    assert (nth_error (pre ++ texts (v :: e) ++ post) (List.length pre) = Some (CStr v)) as ->.
    { rewrite nth_error_app2 by lia. rewrite Nat.sub_diag. reflexivity. }
    unfold bind at 1. cbn [ret is_none str].
    specialize (IH e (pre ++ [CStr v]) ltac:(simpl in Hlen; lia)).
    rewrite length_app in IH. simpl in IH. rewrite Nat.add_1_r in IH.
    rewrite <- app_assoc in IH. simpl in IH.
    unfold bind. cbn [texts map app]. fold (texts e). rewrite IH. reflexivity.
Qed.

(** X22. Opening the edit dialog on a record the program wrote and
    saving it as it is changes nothing: in a table other than the users
    table the dialog opens with the stored texts in its fields, and
    after Salvar with these texts every file is as it was. *)
Theorem edit_record_unchanged_keeps_files (filename : string) (headers e : list string)
    (w : world) (f : file) (h : row) (d1 : list row) (c0 : cell) (d2 : list row) :
  filename <> USERS_FILE ->
  files w !! filename = Some f -> writable f = true ->
  sheet f = h :: d1 ++ (c0 :: texts e) :: d2 ->
  Forall (fun x => id_of x <> c0) d1 ->
  valid_entries headers e -> e <> [] ->
  prefill filename headers (Some (pad_row (max_column (sheet f)) (c0 :: texts e))) w
  = Return e w /\
  files (world_of (edit_record filename headers (Some c0) [e] w)) = files w.
Proof.
  intros Hne Hf Hwr Hws Hd1 Hv He. split.
  - assert (In (c0 :: texts e) (sheet f)) as Hin.
    { rewrite Hws. right. apply in_or_app. right. left. reflexivity. }
    apply max_column_ge in Hin. rewrite pad_row_short by exact Hin.
    unfold prefill. cbn [app truthy tl].
    destruct e as [|v e]; [congruence|]. cbn [texts map app truthy].
    fold (texts e).
    apply (inserted_from_texts filename (tl headers) (v :: e) [] _ w Hne).
    exact (proj1 Hv).
  - change (sheet f = h :: d1 ++ ((c0 :: texts e) : row) :: d2) in Hws.
    pose proof (first_with_id_in_sheet c0 h d1 (c0 :: texts e) d2 Hd1 eq_refl) as Hfind.
    rewrite <- Hws in Hfind.
    destruct (edit_record_files filename headers e c0 w f _ _ Hf Hwr Hfind Hv He)
      as (w' & Hrun & Hfiles); [contradiction|].
    rewrite Hrun. cbn [world_of]. rewrite Hfiles.
    apply insert_id. rewrite Hf. f_equal.
    unfold updated_row. apply String.eqb_neq in Hne. rewrite Hne.
    rewrite Hws, write_row_middle.
    change c0 with (id_of (c0 :: texts e)) at 1.
    rewrite write_cells_record. cbn [id_of nth].
    assert (skipn (S (List.length e)) (c0 :: texts e) = []) as ->.
    { apply skipn_all2. simpl. unfold texts. rewrite length_map. lia. }
    rewrite app_nil_r, <- Hws. destruct f as [ws wr]. simpl in Hwr. subst wr. reflexivity.
Qed.

(** * The further properties at given inputs *)

Lemma data_operations_touch_one_file_witness :
  files (world_of (add_record VISITORS_FILE VISITORS_HEADERS [repeat "a" 9]
                     fresh_world)) !! LOG_FILE = files fresh_world !! LOG_FILE /\
  files (world_of (edit_record VISITORS_FILE VISITORS_HEADERS (Some (CInt 1))
                     [repeat "a" 9] fresh_world)) !! LOG_FILE
  = files fresh_world !! LOG_FILE /\
  files (world_of (delete_record VISITORS_FILE (Some (CInt 1)) true fresh_world))
    !! LOG_FILE = files fresh_world !! LOG_FILE.
Proof.
  apply (data_operations_touch_one_file VISITORS_FILE LOG_FILE VISITORS_HEADERS
           (Some (CInt 1)) [repeat "a" 9] true fresh_world).
  discriminate.
Defined.

Lemma filter_tree_users_masked_witness :
  In [CStr "admin"; CStr MASK; CStr "admin"]
     (tree (world_of (filter_tree USERS_FILE "Adm" fresh_world))) /\
  nth_error [CStr "admin"; CStr MASK; CStr "admin"] 1 = Some (CStr MASK).
Proof.
  assert (In [CStr "admin"; CStr MASK; CStr "admin"]
             (tree (world_of (filter_tree USERS_FILE "Adm" fresh_world)))) as Hin
    by (vm_compute; left; reflexivity).
  split; [exact Hin|].
  exact (proj1 (filter_tree_users_masked "Adm" fresh_world _ Hin)).
Defined.

Lemma filter_tree_empty_is_load_data_witness :
  filter_tree VISITORS_FILE "" two_visitors = load_data VISITORS_FILE two_visitors.
Proof.
  exact (filter_tree_empty_is_load_data VISITORS_FILE two_visitors _ two_visitors_file).
Defined.

Lemma filter_tree_sublist_of_load_data_witness :
  tree (world_of (filter_tree VISITORS_FILE "b" two_visitors))
    `sublist_of` tree (world_of (load_data VISITORS_FILE two_visitors)).
Proof.
  apply (filter_tree_sublist_of_load_data VISITORS_FILE "b" two_visitors _
           two_visitors_file).
  discriminate.
Defined.

Lemma on_ok_accepts_filled_forms_witness :
  on_ok USERS_FILE (Some [CStr "h"; CStr "admin"]) ["SenhaHash"; "Permissão"]
        [""; "admin"] fresh_world
  = Return ([], false) (add_shown fresh_world (showwarning "Campo Vazio")).
Proof.
  exact (on_ok_accepts_filled_forms USERS_FILE (Some [CStr "h"; CStr "admin"])
           ["SenhaHash"; "Permissão"] [""; "admin"] fresh_world eq_refl).
Defined.

Lemma edit_record_overwrites_in_place_witness :
  sheet_of (world_of (edit_record VISITORS_FILE VISITORS_HEADERS (Some (CInt 1))
                        [repeat "z" 9] two_visitors)) VISITORS_FILE
  = Some [ texts VISITORS_HEADERS;
           CInt 1 :: texts (repeat "z" 9);
           CInt 2 :: texts (repeat "b" 9) ].
Proof.
  apply (edit_record_overwrites_in_place VISITORS_FILE VISITORS_HEADERS (repeat "z" 9)
           two_visitors (File two_visitors_sheet true) (texts VISITORS_HEADERS) []
           (CInt 1 :: texts (repeat "a" 9)) [CInt 2 :: texts (repeat "b" 9)]).
  - discriminate.
  - exact two_visitors_file.
  - reflexivity.
  - reflexivity.
  - vm_compute. lia.
  - constructor.
  - split; [reflexivity|]. repeat constructor; discriminate.
  - discriminate.
Defined.

Lemma delete_record_removes_first_match_witness :
  sheet_of (world_of (delete_record VISITORS_FILE (Some (CInt 1)) true two_visitors))
           VISITORS_FILE
  = Some [ texts VISITORS_HEADERS; CInt 2 :: texts (repeat "b" 9) ].
Proof.
  apply (delete_record_removes_first_match VISITORS_FILE two_visitors
           (File two_visitors_sheet true) (texts VISITORS_HEADERS) []
           (CInt 1 :: texts (repeat "a" 9)) [CInt 2 :: texts (repeat "b" 9)]).
  - exact two_visitors_file.
  - reflexivity.
  - reflexivity.
  - constructor.
Defined.

Lemma add_record_then_listed_witness :
  exists w' k,
    add_record VISITORS_FILE VISITORS_HEADERS [repeat "c" 9] two_visitors
    = Return tt w' /\
    List.length (tree w') = 3%nat /\
    last (tree w') = Some (CInt 3 :: texts (repeat "c" 9) ++ repeat CNone k).
Proof.
  apply (add_record_then_listed VISITORS_FILE VISITORS_HEADERS (repeat "c" 9)
           two_visitors (File two_visitors_sheet true)).
  - discriminate.
  - exact two_visitors_file.
  - reflexivity.
  - discriminate.
  - reflexivity.
  - split; [reflexivity|]. repeat constructor; discriminate.
  - discriminate.
Defined.

Lemma missing_file_behaviour_witness :
  load_data VISITORS_FILE empty_world
  = Return tt (add_shown (set_tree empty_world []) (showerror "Erro")) /\
  edit_record VISITORS_FILE VISITORS_HEADERS (Some (CInt 1)) [repeat "a" 9] empty_world
  = Raise FileNotFoundError empty_world.
Proof.
  pose proof (missing_file_behaviour VISITORS_FILE empty_world (lookup_empty _))
    as (Hlist & _ & _ & _ & Hedit).
  split; [exact Hlist|apply Hedit].
Defined.

Lemma masked_hash_admits_no_password_witness :
  attempt_login "admin" "admin" a_time masked_admin_world
  = Return None (add_shown masked_admin_world (showerror "Erro de Login")).
Proof.
  apply (masked_hash_admits_no_password "admin" "admin" a_time masked_admin_world
           (File [texts USERS_HEADERS; [CStr "admin"; CStr MASK; CStr "admin"]] true)).
  - vm_compute. reflexivity.
  - vm_compute. lia.
  - intros r [<-|[]] _. reflexivity.
Defined.

Lemma added_user_cannot_log_in_witness :
  let_in (attempt_login "1" "s3cret" a_time
            (world_of (add_record USERS_FILE USERS_HEADERS [["s3cret"; "leitura"]]
                         fresh_world)))
  = let_in (attempt_login "1" "s3cret" a_time fresh_world).
Proof.
  apply (added_user_cannot_log_in "1" "s3cret" a_time "s3cret" "leitura"
           fresh_world seeded_users).
  - exact fresh_users.
  - reflexivity.
  - vm_compute. lia.
  - discriminate.
  - discriminate.
Defined.

Lemma log_only_grows_witness :
  (exists lf' extra,
     files (auth_session [Entrar "admin" "admin" a_time;
                          Entrar "admin" "wrong" a_time;
                          Sair "admin" a_time] fresh_world) !! LOG_FILE = Some lf' /\
     sheet lf' = [texts LOG_HEADERS] ++ extra) /\
  (forall name, name <> LOG_FILE ->
     files (auth_session [Entrar "admin" "admin" a_time;
                          Entrar "admin" "wrong" a_time;
                          Sair "admin" a_time] fresh_world) !! name
     = files fresh_world !! name).
Proof.
  exact (log_only_grows [Entrar "admin" "admin" a_time;
                         Entrar "admin" "wrong" a_time;
                         Sair "admin" a_time] fresh_world _ fresh_log).
Defined.

Lemma first_start_admin_login_witness :
  exists w' lg,
    (criar_arquivos_se_nao_existir ;; attempt_login "admin" "admin" a_time) empty_world
    = Return (Some ("admin", CStr "admin")) w' /\
    sheet_of w' LOG_FILE = Some (lg ++ [login_entry "admin" a_time]) /\
    lg = [texts LOG_HEADERS].
Proof.
  apply (first_start_admin_login a_time empty_world).
  - apply lookup_empty.
  - intros lf H. unfold empty_world in H. cbn [files] in H.
    rewrite lookup_empty in H. discriminate.
Defined.

Lemma menu_opens_users_for_admin_only_witness :
  In Cmd_gerenciar_usuarios (MainMenu_buttons "admin") /\
  abrir_janela_dados Cmd_gerenciar_usuarios "admin" fresh_world
  = Return (Some users_window)
           (set_tree fresh_world [[CStr "admin"; CStr MASK; CStr "admin"]]) /\
  "admin" = "admin".
Proof.
  assert (In Cmd_gerenciar_usuarios (MainMenu_buttons "admin")) as Hb
    by (vm_compute; tauto).
  assert (abrir_janela_dados Cmd_gerenciar_usuarios "admin" fresh_world
          = Return (Some users_window)
                   (set_tree fresh_world [[CStr "admin"; CStr MASK; CStr "admin"]]))
    as Hopen by (vm_compute; reflexivity).
  split; [exact Hb|]. split; [exact Hopen|].
  exact (menu_opens_users_for_admin_only "admin" Cmd_gerenciar_usuarios
           fresh_world _ users_window Hb Hopen eq_refl).
Defined.

Lemma leitura_changes_nothing_witness :
  files (window_session visitors_window_leitura some_events
           (set_tree two_visitors (iter_rows two_visitors_sheet)))
  = files two_visitors.
Proof.
  apply (leitura_changes_nothing Cmd_abrir_visitantes two_visitors).
  vm_compute. reflexivity.
Defined.

Lemma identifiers_stay_distinct_witness :
  exists f',
    files (window_session visitors_window some_events two_visitors) !! VISITORS_FILE
    = Some f' /\
    increasing_ids (sheet f') /\ NoDup (ids (sheet f')).
Proof.
  apply (identifiers_stay_distinct visitors_window some_events two_visitors
           (File two_visitors_sheet true)).
  - exact two_visitors_file.
  - exists [1; 2]. split; [vm_compute; reflexivity|].
    split; repeat constructor; lia.
Defined.

(** What the events above leave in the visitors table: visitor 3 was
    added, visitor 1 is gone, and the edit whose Salvar was refused for
    its empty second field, the dialog being closed afterwards, still
    wrote the field read before the empty one. *)
Example some_events_result :
  sheet_of (window_session visitors_window some_events two_visitors) VISITORS_FILE
  = Some [ texts VISITORS_HEADERS;
           CInt 2 :: CStr "Rui" :: texts (repeat "b" 8);
           CInt 3 :: texts (repeat "c" 9) ].
Proof. vm_compute. reflexivity. Qed.


(** The report of the two visitors, and the pages of a report of 80 rows. *)
Example gerar_pdf_two_visitors :
  gerar_pdf two_visitors
  = Return (Some [ setTitle "Relatório de Visitantes";
                   drawString 72 800 "Relatório de Visitantes";
                   drawString 72 750 "1, a, a, a, a, a, a, a, a, a";
                   drawString 72 730 "2, b, b, b, b, b, b, b, b, b";
                   pdf_save ]) two_visitors
  /\ pdf_line [CInt 7; CNone; CStr "x"] = "7, , x"
  /\ texts_per_page (draw_rows 750 (repeat [CInt 1] 80)) 1 = [37; 39; 5]%nat.
Proof. repeat split; vm_compute; reflexivity. Qed.


Lemma edit_record_unchanged_keeps_files_witness :
  prefill VISITORS_FILE VISITORS_HEADERS
          (Some (pad_row (max_column two_visitors_sheet) (CInt 2 :: texts (repeat "b" 9))))
          two_visitors
  = Return (repeat "b" 9) two_visitors /\
  files (world_of (edit_record VISITORS_FILE VISITORS_HEADERS (Some (CInt 2))
                     [repeat "b" 9] two_visitors))
  = files two_visitors.
Proof.
  apply (edit_record_unchanged_keeps_files VISITORS_FILE VISITORS_HEADERS (repeat "b" 9)
           two_visitors (File two_visitors_sheet true) (texts VISITORS_HEADERS)
           [CInt 1 :: texts (repeat "a" 9)] (CInt 2) []).
  - discriminate.
  - exact two_visitors_file.
  - reflexivity.
  - reflexivity.
  - repeat constructor. discriminate.
  - split; [reflexivity|]. repeat constructor; discriminate.
  - discriminate.
Defined.
